(** * tronpy: the asynchronous client ([tronpy/async_tron.py])

    A shallow embedding of the transaction life cycle
    ([AsyncTransaction], [AsyncTransactionRet]), of the shared API-error
    classifier ([AsyncTron._handle_api_error]) and of the block scanner
    ([AsyncTron.scan_block_transfers], [AsyncTron.parse_usdt_transfer]).

    Python values are dynamically typed, so the data the client receives
    from a node is modelled by one type [pyval] of JSON-like values, and
    every primitive the source applies to such a value ([x[k]], [x.get],
    [k in x], [len], truthiness, ...) is a function that raises the
    exception Python raises when the value has the wrong shape. *)

From Stdlib Require Import ZArith List String Ascii Bool Lia QArith.
From Stdlib Require Import Permutation.
From Stdlib Require SpecFloat.
From Stdlib Require Import DecimalString.
From Stdlib.Strings Require Import Byte.
Import ListNotations.
Local Open Scope string_scope.
Local Open Scope Z_scope.

(** ** Python values *)

(** JSON-like values.  A dict is an association list searched from the
    front (keys of JSON objects are strings).  [PyFloat q] stands for the
    binary64 number nearest to the rational [q].  A float read from a
    response is such a rational exactly; the only floats that are rounded
    are the amounts the scanner computes by true division, and the module
    never inspects those, so the rounding is left symbolic. *)
#[warnings="-register-all"]
Inductive pyval : Type :=
| PyNone
| PyBool (b : bool)
| PyInt (z : Z)
| PyFloat (q : Q)
| PyStr (s : string)
| PyList (l : list pyval)
| PyDict (d : list (string * pyval)).

(** ** Exceptions and the error monad *)

(** The exception classes the module raises or lets through.  All of them
    derive from Python's [Exception], which is what [except Exception]
    catches. *)
Inductive exn_class : Type :=
| AssertionError | TypeError | KeyError | IndexError | AttributeError
| ValueError | OverflowError | ZeroDivisionError
| ApiError | BadHash | BadKey | BadSignature | BlockNotFound | BugInJavaTron
| TaposError | TransactionError | TransactionNotFound | TvmError
| UnknownError | ValidationError
| OtherError (name : string).

(** An exception instance: its class and the arguments it was built with. *)
Record exn : Type := Exn { exn_cls : exn_class; exn_args : list pyval }.

Inductive result (A : Type) : Type :=
| Ok (a : A)
| Raise (e : exn).
Arguments Ok {A} a.
Arguments Raise {A} e.

Definition bind {A B : Type} (m : result A) (k : A -> result B) : result B :=
  match m with
  | Ok a => k a
  | Raise e => Raise e
  end.

Notation "x <- m ;; k" := (bind m (fun x => k))
  (at level 61, m at next level, right associativity).
Notation "m ;;; k" := (bind m (fun _ => k))
  (at level 61, right associativity).

(** [raise Cls(args)] *)
Definition raise {A : Type} (c : exn_class) (args : list pyval) : result A :=
  Raise (Exn c args).

(** [try: body  except Exception: handler] *)
Definition try_except {A : Type} (body : result A) (handler : exn -> result A)
  : result A :=
  match body with
  | Ok a => Ok a
  | Raise e => handler e
  end.

(** [assert cond, msg] *)
Definition py_assert (cond : bool) (msg : string) : result unit :=
  if cond then Ok tt else raise AssertionError [PyStr msg].

(** What [except TransactionNotFound] catches. *)
Definition is_TransactionNotFound (e : exn) : bool :=
  match exn_cls e with
  | TransactionNotFound => true
  | _ => false
  end.

(** ** Primitives on Python values *)

(** Truth value testing ([if x], [not x], [x or y]). *)
Definition py_truthy (v : pyval) : bool :=
  match v with
  | PyNone => false
  | PyBool b => b
  | PyInt z => negb (z =? 0)
  | PyFloat q => negb (Qeq_bool q 0)
  | PyStr s => negb (s =? "")%string
  | PyList l => match l with [] => false | _ => true end
  | PyDict d => match d with [] => false | _ => true end
  end.

Fixpoint dict_lookup (k : string) (d : list (string * pyval)) : option pyval :=
  match d with
  | [] => None
  | (k', v) :: d' => if (k' =? k)%string then Some v else dict_lookup k d'
  end.

(** The value under [k], or [default]. *)
Definition dict_get_or (k : string) (d : list (string * pyval))
  (default : pyval) : pyval :=
  match dict_lookup k d with
  | Some v => v
  | None => default
  end.

(** [d[k] = v] on a dict: the entry is replaced in place, or added last. *)
Fixpoint dict_set (k : string) (v : pyval) (d : list (string * pyval))
  : list (string * pyval) :=
  match d with
  | [] => [(k, v)]
  | (k', v') :: d' =>
      if (k' =? k)%string then (k, v) :: d' else (k', v') :: dict_set k v d'
  end.

(** [x[k]] with a string key. *)
Definition py_getitem (x : pyval) (k : string) : result pyval :=
  match x with
  | PyDict d =>
      match dict_lookup k d with
      | Some v => Ok v
      | None => raise KeyError [PyStr k]
      end
  | _ => raise TypeError []
  end.

(** [x[0]] *)
Definition py_getitem0 (x : pyval) : result pyval :=
  match x with
  | PyList (v :: _) => Ok v
  | PyList [] => raise IndexError []
  | PyStr (String c _) => Ok (PyStr (String c EmptyString))
  | PyStr EmptyString => raise IndexError []
  | PyDict _ => raise KeyError [PyInt 0]
  | _ => raise TypeError []
  end.

(** [x.get(k, default)]: only dicts have the method. *)
Definition py_get (x : pyval) (k : string) (default : pyval) : result pyval :=
  match x with
  | PyDict d =>
      match dict_lookup k d with
      | Some v => Ok v
      | None => Ok default
      end
  | _ => raise AttributeError [PyStr "get"]
  end.

(** [x == s] for a string [s]: no other value equals a string. *)
Definition py_eq_str (x : pyval) (s : string) : bool :=
  match x with
  | PyStr s' => (s' =? s)%string
  | _ => false
  end.

Definition is_substring (s t : string) : bool :=
  match String.index 0 s t with
  | Some _ => true
  | None => false
  end.

(** [k in x] with a string [k]: key of a dict, element of a list,
    substring of a string. *)
Definition py_contains (k : string) (x : pyval) : result bool :=
  match x with
  | PyDict d =>
      Ok (match dict_lookup k d with Some _ => true | None => false end)
  | PyList l => Ok (existsb (fun v => py_eq_str v k) l)
  | PyStr s => Ok (is_substring k s)
  | _ => raise TypeError []
  end.

(** [len(x)] *)
Definition py_len (x : pyval) : result Z :=
  match x with
  | PyStr s => Ok (Z.of_nat (String.length s))
  | PyList l => Ok (Z.of_nat (List.length l))
  | PyDict d => Ok (Z.of_nat (List.length d))
  | _ => raise TypeError []
  end.

Fixpoint chars (s : string) : list pyval :=
  match s with
  | EmptyString => []
  | String c s' => PyStr (String c EmptyString) :: chars s'
  end.

(** The items [for v in x] visits. *)
Definition py_iter (x : pyval) : result (list pyval) :=
  match x with
  | PyList l => Ok l
  | PyDict d => Ok (map (fun kv => PyStr (fst kv)) d)
  | PyStr s => Ok (chars s)
  | _ => raise TypeError []
  end.

(** [s[i:j]] and [s[i:]] with literal, non-negative bounds: slices never
    fail, they clamp. *)
Definition str_slice (i j : nat) (s : string) : string :=
  substring i (j - i) s.
Definition str_from (i : nat) (s : string) : string :=
  substring i (String.length s - i) s.

(** [x.startswith(p)]: only strings have the method. *)
Definition py_startswith (x : pyval) (p : string) : result bool :=
  match x with
  | PyStr s => Ok (prefix p s)
  | _ => raise AttributeError [PyStr "startswith"]
  end.

(** [now >= x] with an integer on the left. *)
Definition py_int_ge (now : Z) (x : pyval) : result bool :=
  match x with
  | PyInt z => Ok (z <=? now)
  | PyBool b => Ok ((if b then 1 else 0) <=? now)
  | PyFloat q => Ok (Qle_bool q (inject_Z now))
  | _ => raise TypeError []
  end.

(** [x is True] *)
Definition py_is_True (x : pyval) : bool :=
  match x with
  | PyBool true => true
  | _ => false
  end.

(** ** Hexadecimal text *)

Definition hex_digit (c : ascii) : option Z :=
  let n := Z.of_nat (nat_of_ascii c) in
  if (48 <=? n) && (n <=? 57) then Some (n - 48)
  else if (97 <=? n) && (n <=? 102) then Some (n - 87)
  else if (65 <=? n) && (n <=? 70) then Some (n - 55)
  else None.

(** The characters [bytes.fromhex] skips between two bytes. *)
Definition is_ascii_space (c : ascii) : bool :=
  let n := Z.of_nat (nat_of_ascii c) in
  ((9 <=? n) && (n <=? 13)) || (n =? 32).

Definition byte_of_digits (hi lo : Z) : byte :=
  match Byte.of_N (Z.to_N (16 * hi + lo)) with
  | Some b => b
  | None => x00
  end.

Fixpoint fromhex_chars (l : list ascii) : option (list byte) :=
  match l with
  | [] => Some []
  | c :: r =>
      if is_ascii_space c then fromhex_chars r
      else
        match r with
        | [] => None
        | c' :: r' =>
            match hex_digit c, hex_digit c' with
            | Some hi, Some lo =>
                option_map (cons (byte_of_digits hi lo)) (fromhex_chars r')
            | _, _ => None
            end
        end
  end.

(** [bytes.fromhex(x)] *)
Definition bytes_fromhex (x : pyval) : result (list byte) :=
  match x with
  | PyStr s =>
      match fromhex_chars (list_ascii_of_string s) with
      | Some b => Ok b
      | None => raise ValueError []
      end
  | _ => raise TypeError []
  end.

(** The characters [int] strips around a literal: of the code points
    below 256, the tab to the carriage return, the space, and the two
    spaces 133 and 160 above the ASCII range.  The separators 28 to 31,
    which [str.isspace] accepts, are not among them. *)
Definition is_space (c : ascii) : bool :=
  let n := Z.of_nat (nat_of_ascii c) in
  ((9 <=? n) && (n <=? 13)) || (n =? 32) || (n =? 133) || (n =? 160).

Fixpoint skip_spaces (l : list ascii) : list ascii :=
  match l with
  | [] => []
  | c :: r => if is_space c then skip_spaces r else l
  end.

(** The digits of a literal in base 16, with single underscores allowed
    between digits: the value read so far, the number of digits, and what
    follows them. *)
Fixpoint scan_hex (prev_underscore : bool) (acc : Z) (ndigits : nat)
  (l : list ascii) : option (Z * nat * list ascii) :=
  match l with
  | [] => if prev_underscore then None else Some (acc, ndigits, [])
  | c :: r =>
      if Ascii.eqb c "_" then
        if prev_underscore then None else scan_hex true acc ndigits r
      else
        match hex_digit c with
        | Some d => scan_hex false (16 * acc + d) (S ndigits) r
        | None => if prev_underscore then None else Some (acc, ndigits, l)
        end
  end.

Definition strip_sign (l : list ascii) : bool * list ascii :=
  match l with
  | c :: r =>
      if Ascii.eqb c "+" then (false, r)
      else if Ascii.eqb c "-" then (true, r)
      else (false, l)
  | [] => (false, l)
  end.

Definition strip_0x (l : list ascii) : list ascii :=
  match l with
  | z :: x :: r =>
      if Ascii.eqb z "0" && (Ascii.eqb x "x" || Ascii.eqb x "X") then
        match r with
        | u :: r' => if Ascii.eqb u "_" then r' else r
        | [] => r
        end
      else l
  | _ => l
  end.

Definition int16_chars (l : list ascii) : option Z :=
  let (negative, l1) := strip_sign (skip_spaces l) in
  let l2 := strip_0x l1 in
  match l2 with
  | [] => None
  | c :: _ =>
      if Ascii.eqb c "_" then None
      else
        match scan_hex false 0 0 l2 with
        | Some (v, n, rest) =>
            match n, skip_spaces rest with
            | S _, [] => Some (if negative then - v else v)
            | _, _ => None
            end
        | None => None
        end
  end.

(** [int(x, 16)] *)
Definition py_int16 (x : pyval) : result Z :=
  match x with
  | PyStr s =>
      match int16_chars (list_ascii_of_string s) with
      | Some z => Ok z
      | None => raise ValueError []
      end
  | _ => raise TypeError []
  end.

(** The least magnitude that rounds to a float beyond the largest one. *)
Definition float_overflow_bound : Z := 2 ^ 1024 - 2 ^ 970.

(** [n / d] on two integers: the quotient rounded to a float, which
    overflows once it reaches [float_overflow_bound]. *)
Definition py_truediv (n d : Z) : result pyval :=
  if d =? 0 then raise ZeroDivisionError []
  else if float_overflow_bound * Z.abs d <=? Z.abs n then raise OverflowError []
  else Ok (PyFloat (Qmake (n * Z.sgn d) (Z.to_pos (Z.abs d)))).

(** The number a string of hexadecimal digits writes, most significant
    digit first. *)
Definition hex_value_chars (l : list ascii) : Z :=
  fold_left
    (fun acc c => 16 * acc + match hex_digit c with Some d => d | None => 0 end)
    l 0.

Definition hex_value (s : string) : Z :=
  hex_value_chars (list_ascii_of_string s).

Definition is_hex_digit (c : ascii) : bool :=
  match hex_digit c with
  | Some _ => true
  | None => false
  end.

(** A string of one or more hexadecimal digits. *)
Definition is_hex_string (s : string) : bool :=
  match list_ascii_of_string s with
  | [] => false
  | l => forallb is_hex_digit l
  end.

(** ** Collaborators outside the module *)

(** [tronpy.keys.PrivateKey], seen through what [sign] asks of it. *)
Record PrivateKey : Type := {
  (** [priv_key.public_key.to_hex_address()] *)
  pk_hex_address : string;
  (** [priv_key.public_key.to_base58check_address()] *)
  pk_base58check_address : string;
  (** [priv_key.sign_msg_hash(h).hex()] *)
  pk_sign_msg_hash : list byte -> result string
}.

(** [AsyncContractMethod], seen through what [result] asks of it. *)
Record AsyncContractMethod : Type := {
  parse_output : pyval -> result pyval
}.

(** ** Transactions *)

(** The [_permission] attribute: the sentinel [EMPTY = object()], or a
    value ([None] for the default permission, else the dict the node
    sent). *)
Inductive permission : Type :=
| EMPTY
| Known (p : pyval).

(** The attributes of a transaction.  The signature list is held by
    value: [sign] writes to it once, by the [append] at its end, and the
    statements below are about calls of [sign] that raise before that. *)
Record AsyncTransaction : Type := {
  _raw_data : pyval;
  _signature : pyval;
  _method : option AsyncContractMethod;
  txid : pyval;
  _permission : permission
}.

Definition set_signature (signature : pyval) (self : AsyncTransaction)
  : AsyncTransaction :=
  {| _raw_data := _raw_data self; _signature := signature;
     _method := _method self; txid := txid self;
     _permission := _permission self |}.

Definition set_txid (t : pyval) (self : AsyncTransaction) : AsyncTransaction :=
  {| _raw_data := _raw_data self; _signature := _signature self;
     _method := _method self; txid := t;
     _permission := _permission self |}.

Definition set_permission (p : permission) (self : AsyncTransaction)
  : AsyncTransaction :=
  {| _raw_data := _raw_data self; _signature := _signature self;
     _method := _method self; txid := txid self;
     _permission := p |}.

(** [AsyncTransaction.__init__]: the keys ["raw_data"], ["signature"],
    ["txID"] and ["permission"] of the first argument, when it has them,
    win over the keyword arguments. *)
Definition __init__ (raw_data : pyval) (method : option AsyncContractMethod)
  (txid0 : pyval) (permission0 : permission) (signature : pyval)
  : result AsyncTransaction :=
  rd <- py_get raw_data "raw_data" raw_data ;;
  sg <- py_get raw_data "signature"
          (if py_truthy signature then signature else PyList []) ;;
  tx <- py_get raw_data "txID" txid0 ;;
  pm <- match raw_data with
        | PyDict d =>
            match dict_lookup "permission" d with
            | Some p => Ok (Known p)
            | None => Ok permission0
            end
        | _ => raise AttributeError [PyStr "get"]
        end ;;
  Ok {| _raw_data := rd; _signature := sg; _method := method;
        txid := tx; _permission := pm |}.

(** [to_json] *)
Definition to_json (self : AsyncTransaction) : pyval :=
  PyDict
    [ ("txID", txid self);
      ("raw_data", _raw_data self);
      ("signature", _signature self);
      ("permission",
        match _permission self with
        | EMPTY => PyNone
        | Known p => p
        end) ].

(** The property [is_expired], at the reading [now] of
    [current_timestamp()]. *)
Definition is_expired (now : Z) (self : AsyncTransaction) : result bool :=
  expiration <- py_getitem (_raw_data self) "expiration" ;;
  py_int_ge now expiration.

(** The [for key in ...: if key["address"] == addr_of_key: break] loop of
    [sign]: [true] when it leaves through [break], [false] when it runs
    into its [else]. *)
Fixpoint key_listed (addr_of_key : string) (keys : list pyval) : result bool :=
  match keys with
  | [] => Ok false
  | key :: rest =>
      address <- py_getitem key "address" ;;
      if py_eq_str address addr_of_key then Ok true
      else key_listed addr_of_key rest
  end.

(** [self._permission["keys"]] *)
Definition permission_keys (p : permission) : result pyval :=
  match p with
  | EMPTY => raise TypeError []
  | Known v => py_getitem v "keys"
  end.

(** The handle [broadcast] returns: the transaction id and, for a contract
    call, the method whose output [result] decodes. *)
Record AsyncTransactionRet : Type := {
  ret_txid : pyval;
  ret_method : option AsyncContractMethod
}.

(** *** Time *)

(** The floats [wait] computes with: binary64 values, given by sign,
    mantissa and exponent, with the operations of IEEE 754 as the
    standard library specifies them ([time.time()] returns such a value,
    and [+] and [<] on floats are these operations).  A Python float is
    such a value in its canonical form, as the operations return it; what
    is proved below holds of every value. *)
Definition float64 : Type := SpecFloat.spec_float.

(** The float nearest to an integer, ties to even; an infinity beyond the
    largest float. *)
Definition float_of_Z (z : Z) : float64 :=
  SpecFloat.binary_normalize 53 1024 z 0 false.

(** The conversion of an int that meets a float in an addition. *)
Definition float_of_int (z : Z) : result float64 :=
  match float_of_Z z with
  | SpecFloat.S754_infinity _ =>
      raise OverflowError [PyStr "int too large to convert to float"]
  | f => Ok f
  end.

(** A number of seconds as a caller gives it: an int or a float. *)
Inductive number : Type :=
| NInt (z : Z)
| NFloat (f : float64).

(** [t + x] with a float on the left. *)
Definition float_plus (t : float64) (x : number) : result float64 :=
  match x with
  | NFloat f => Ok (SpecFloat.SFadd 53 1024 t f)
  | NInt z =>
      f <- float_of_int z ;;
      Ok (SpecFloat.SFadd 53 1024 t f)
  end.

(** [a < b] on floats: false when either is not a number. *)
Definition float_lt (a b : float64) : bool := SpecFloat.SFltb a b.

(** A timeout that is zero. *)
Definition is_zero (x : number) : bool :=
  match x with
  | NInt 0 => true
  | NFloat (SpecFloat.S754_zero _) => true
  | _ => false
  end.

(** What [wait] does, in order: a reading of [time.time()], a call of
    [get_transaction_info] with its outcome, an [asyncio.sleep]. *)
Inductive event : Type :=
| Clock (t : float64)
| Poll (outcome : result pyval)
| Sleep (interval : Q).

(** [a < b] on rationals. *)
Definition Qlt_bool (a b : Q) : bool := negb (Qle_bool b a).

(** The class of error the classification table gives for a [code]. *)
Definition error_kind_of_code (code : pyval) : exn_class :=
  match code with
  | PyStr "SIGERROR" => BadSignature
  | PyStr "TAPOS_ERROR" => TaposError
  | PyStr "TRANSACTION_EXPIRATION_ERROR" => TransactionError
  | PyStr "TOO_BIG_TRANSACTION_ERROR" => TransactionError
  | PyStr "CONTRACT_VALIDATE_ERROR" => ValidationError
  | _ => UnknownError
  end.

Section Client.

(** Python's [str()] of a value that is not a string (the text of a dict,
    a list, a number). *)
Variable py_repr : pyval -> string.
(** [bytes.decode()] *)
Variable utf8_decode : list byte -> result string.
(** [tron_abi.decode_single("string", data)] *)
Variable decode_single_string : list byte -> result pyval.
(** The node's reply to [wallet/getsignweight] for a serialized
    transaction. *)
Variable get_sign_weight : pyval -> result pyval.
(** The successive readings of [time.time()], in seconds. *)
Variable clock : nat -> float64.
(** The node's reply to the k-th [gettransactioninfobyid] request, on the
    full node ([false]) and on the solidity node ([true]). *)
Variable transaction_info_reply : bool -> nat -> result pyval.

(** [str(x)], and what an f-string puts for [{x}]. *)
Definition py_str (x : pyval) : string :=
  match x with
  | PyStr s => s
  | _ => py_repr x
  end.

(** *** The shared error classifier *)

(** The message of a response that has a [code]:
    [bytes.fromhex(payload["message"]).decode()], and when that fails
    [payload.get("message", str(payload))]. *)
Definition error_message (payload : pyval) : result pyval :=
  try_except
    (message <- py_getitem payload "message" ;;
     raw <- bytes_fromhex message ;;
     text <- utf8_decode raw ;;
     Ok (PyStr text))
    (fun _ => py_get payload "message" (PyStr (py_str payload))).

(** The value [error_message] computes for a dict: the decoded text, else
    the raw [message], else the text of the whole response. *)
Definition message_of (d : list (string * pyval)) : pyval :=
  match
    message <- py_getitem (PyDict d) "message" ;;
    raw <- bytes_fromhex message ;;
    text <- utf8_decode raw ;;
    Ok (PyStr text)
  with
  | Ok v => v
  | Raise _ => dict_get_or "message" d (PyStr (py_str (PyDict d)))
  end.

(** The [if]/[elif] chain on [payload["code"]]. *)
Definition raise_for_code {A : Type} (code msg : pyval) : result A :=
  if py_eq_str code "SIGERROR" then raise BadSignature [msg]
  else if py_eq_str code "TAPOS_ERROR" then raise TaposError [msg]
  else if py_eq_str code "TRANSACTION_EXPIRATION_ERROR"
          || py_eq_str code "TOO_BIG_TRANSACTION_ERROR"
  then raise TransactionError [msg]
  else if py_eq_str code "CONTRACT_VALIDATE_ERROR"
  then raise ValidationError [msg]
  else raise UnknownError [msg; code].

(** [AsyncTron._handle_api_error].  The recursive call is on the value
    stored under ["result"], found by the local search [nested]. *)
Fixpoint _handle_api_error (payload : pyval) : result unit :=
  match payload with
  | PyDict d =>
      res <- py_get payload "result" PyNone ;;
      if py_is_True res then Ok tt
      else
        has_error <- py_contains "Error" payload ;;
        if has_error then
          err <- py_getitem payload "Error" ;;
          raise ApiError [err]
        else
          has_code <- py_contains "code" payload ;;
          if has_code then
            msg <- error_message payload ;;
            code <- py_getitem payload "code" ;;
            raise_for_code code msg
          else
            (fix nested (l : list (string * pyval)) : result unit :=
               match l with
               | [] => Ok tt
               | (k, v) :: l' =>
                   if (k =? "result")%string then
                     match v with
                     | PyDict _ => _handle_api_error v
                     | _ => Ok tt
                     end
                   else nested l'
               end) d
  | _ => raise AttributeError [PyStr "get"]
  end.

(** *** Validation, serialization, signing *)

(** [check_sign_weight]: the outcome, the transaction afterwards and the
    requests sent to the node. *)
Definition check_sign_weight (self : AsyncTransaction)
  : result unit * AsyncTransaction * list pyval :=
  let request := to_json self in
  match
    sign_weight <- get_sign_weight request ;;
    has_tx <- py_contains "transaction" sign_weight ;;
    (if has_tx then Ok tt
     else
       _handle_api_error sign_weight ;;;
       raise TransactionError [PyStr "transaction not in sign_weight"]) ;;;
    outer <- py_getitem sign_weight "transaction" ;;
    inner <- py_getitem outer "transaction" ;;
    new_txid <- py_getitem inner "txID" ;;
    Ok (sign_weight, new_txid)
  with
  | Raise e => (Raise e, self, [request])
  | Ok (sign_weight, new_txid) =>
      let self1 := set_txid new_txid self in
      match py_get sign_weight "permission" PyNone with
      | Raise e => (Raise e, self1, [request])
      | Ok p => (Ok tt, set_permission (Known p) self1, [request])
      end
  end.

Definition permission_is_EMPTY (p : permission) : bool :=
  match p with
  | EMPTY => true
  | Known _ => false
  end.

(** [AsyncTransaction.create]: the transaction, and the requests sent to
    the node on the way. *)
Definition create (raw_data : pyval) (method : option AsyncContractMethod)
  (txid0 : pyval) (permission0 : permission) (signature : pyval)
  : result AsyncTransaction * list pyval :=
  match __init__ raw_data method txid0 permission0 signature with
  | Raise e => (Raise e, [])
  | Ok _tx =>
      if negb (py_truthy (txid _tx)) || permission_is_EMPTY (_permission _tx)
      then
        match check_sign_weight _tx with
        | (Ok _, _tx', sent) => (Ok _tx', sent)
        | (Raise e, _, sent) => (Raise e, sent)
        end
      else (Ok _tx, [])
  end.

(** [AsyncTransaction.from_json].  Its test [isinstance(json, str)] is
    about the module [json], never a string, so [data] is used as it
    comes. *)
Definition from_json (data : pyval) : result AsyncTransaction * list pyval :=
  match
    t <- py_getitem data "txID" ;;
    p <- py_getitem data "permission" ;;
    r <- py_getitem data "raw_data" ;;
    s <- py_getitem data "signature" ;;
    Ok (t, p, r, s)
  with
  | Raise e => (Raise e, [])
  | Ok (t, p, r, s) => create r None t (Known p) s
  end.

(** [sign]: the outcome and the transaction afterwards.  [now] is what
    [current_timestamp()] reads during the call. *)
Definition sign (now : Z) (priv_key : PrivateKey) (self : AsyncTransaction)
  : result unit * AsyncTransaction :=
  match
    py_assert (py_truthy (txid self)) "txID not calculated" ;;;
    expired <- is_expired now self ;;
    py_assert (negb expired) "expired" ;;;
    (match _permission self with
     | Known PyNone => Ok tt
     | perm =>
         let addr_of_key := pk_hex_address priv_key in
         keys <- permission_keys perm ;;
         items <- py_iter keys ;;
         listed <- key_listed addr_of_key items ;;
         if listed then Ok tt
         else
           raise BadKey
             [ PyStr "provided private key is not in the permission list";
               PyStr ("provided " ++ pk_base58check_address priv_key);
               PyStr ("required " ++
                      match perm with
                      | Known p => py_str p
                      | EMPTY => ""
                      end) ]
     end) ;;;
    digest <- bytes_fromhex (txid self) ;;
    pk_sign_msg_hash priv_key digest
  with
  | Raise e => (Raise e, self)
  | Ok sig =>
      match _signature self with
      | PyList l => (Ok tt, set_signature (PyList (l ++ [PyStr sig])) self)
      | _ => (raise AttributeError [PyStr "append"], self)
      end
  end.

(** *** Confirmation *)

(** [get_transaction_info] and [get_solid_transaction_info] (chosen by
    [solid]), when [k] requests have been answered before. *)
Definition get_transaction_info (solid : bool) (k : nat) (txn_id : pyval)
  : result pyval :=
  n <- py_len txn_id ;;
  (if n =? 64 then Ok tt
   else raise BadHash [PyStr "wrong transaction hash length"]) ;;;
  ret <- transaction_info_reply solid k ;;
  _handle_api_error ret ;;;
  if py_truthy ret then Ok ret else raise TransactionNotFound [].

(** The [while time.time() < end_time] loop of [wait], entered after [k]
    polls.  The loop has no bound of its own: [fuel] bounds the number of
    iterations looked at, and the outcome is [None] when it runs out. *)
Fixpoint wait_loop (fuel : nat) (solid : bool) (txn_id : pyval)
  (interval : Q) (end_time : float64) (k : nat)
  : list event * option (result pyval) :=
  match fuel with
  | O => ([], None)
  | S fuel' =>
      let t := clock (S k) in
      if float_lt t end_time then
        match get_transaction_info solid k txn_id with
        | Ok receipt => ([Clock t; Poll (Ok receipt)], Some (Ok receipt))
        | Raise e =>
            if is_TransactionNotFound e then
              let (events, outcome) :=
                wait_loop fuel' solid txn_id interval end_time (S k) in
              (Clock t :: Poll (Raise e) :: Sleep interval :: events, outcome)
            else ([Clock t; Poll (Raise e)], Some (Raise e))
        end
      else
        ([Clock t],
         Some (raise TransactionNotFound
                 [PyStr "timeout and can not find the transaction"]))
  end.

(** [AsyncTransactionRet.wait].  [end_time = time.time() + timeout] is
    one addition of floats, rounded as the machine rounds it; an int
    [timeout] is converted first, which can raise. *)
Definition wait (fuel : nat) (timeout : number) (interval : Q)
  (solid : bool) (self : AsyncTransactionRet)
  : list event * option (result pyval) :=
  let start := clock O in
  match float_plus start timeout with
  | Raise e => ([Clock start], Some (Raise e))
  | Ok end_time =>
      let (events, outcome) :=
        wait_loop fuel solid (ret_txid self) interval end_time O in
      (Clock start :: events, outcome)
  end.

(** The events of [n] rounds of [wait] that found nothing, the first of
    them after [k] polls: a reading, a poll, a sleep. *)
Definition retries (solid : bool) (txn_id : pyval) (interval : Q) (k n : nat)
  : list event :=
  flat_map
    (fun j => [ Clock (clock (S j));
                Poll (get_transaction_info solid j txn_id);
                Sleep interval ])
    (seq k n).

(** The error [wait] raises at its deadline. *)
Definition timeout_error : exn :=
  Exn TransactionNotFound [PyStr "timeout and can not find the transaction"].

(** How the loop of [wait] ends after [n] rounds that found nothing. *)
Inductive loop_end (solid : bool) (txn_id : pyval) (end_time : float64)
  (n : nat) : list event -> option (result pyval) -> Prop :=
| end_deadline :
    float_lt (clock (S n)) end_time = false ->
    loop_end solid txn_id end_time n
      [Clock (clock (S n))] (Some (Raise timeout_error))
| end_receipt (receipt : pyval) :
    float_lt (clock (S n)) end_time = true ->
    get_transaction_info solid n txn_id = Ok receipt ->
    loop_end solid txn_id end_time n
      [Clock (clock (S n)); Poll (Ok receipt)] (Some (Ok receipt))
| end_error (e : exn) :
    float_lt (clock (S n)) end_time = true ->
    get_transaction_info solid n txn_id = Raise e ->
    is_TransactionNotFound e = false ->
    loop_end solid txn_id end_time n
      [Clock (clock (S n)); Poll (Raise e)] (Some (Raise e)).

(** A round that found nothing: the reading was before the deadline and
    the poll raised TransactionNotFound. *)
Definition not_found_round (solid : bool) (txn_id : pyval)
  (end_time : float64) (j : nat) : Prop :=
  float_lt (clock (S j)) end_time = true
  /\ exists e, get_transaction_info solid j txn_id = Raise e
               /\ is_TransactionNotFound e = true.

(** The [try] block of [result] that refines the message of a reverted
    call: the arguments [decode_single] was called with, and the
    message. *)
Definition revert_reason (msg receipt : pyval) : list (list byte) * pyval :=
  match
    res <- py_get receipt "contractResult" (PyList []) ;;
    if py_truthy res then
      first <- py_getitem0 res ;;
      n <- py_len first ;;
      if (4 + 32) * 2 <? n then
        raw <- bytes_fromhex first ;;
        Ok (Some (skipn (4 + 32) raw))
      else Ok None
    else Ok None
  with
  | Ok (Some data) =>
      match decode_single_string data with
      | Ok error_msg =>
          ([data], PyStr (py_str msg ++ ": " ++ py_str error_msg))
      | Raise _ => ([data], msg)
      end
  | Ok None => ([], msg)
  | Raise _ => ([], msg)
  end.

(** What [result] does with the receipt [wait] returned. *)
Definition read_receipt (method : AsyncContractMethod) (receipt : pyval)
  : list (list byte) * result pyval :=
  match
    status <- py_get receipt "result" PyNone ;;
    if py_eq_str status "FAILED" then
      default <- py_getitem receipt "result" ;;
      msg <- py_get receipt "resMessage" default ;;
      inner <- py_getitem receipt "receipt" ;;
      reason <- py_getitem inner "result" ;;
      Ok (Some (msg, py_eq_str reason "REVERT"))
    else Ok None
  with
  | Raise e => ([], Raise e)
  | Ok (Some (msg, true)) =>
      let (decoded, msg') := revert_reason msg receipt in
      (decoded, raise TvmError [msg'])
  | Ok (Some (msg, false)) => ([], raise TvmError [msg])
  | Ok None =>
      ([],
       contract_result <- py_getitem receipt "contractResult" ;;
       first <- py_getitem0 contract_result ;;
       parse_output method first)
  end.

(** [AsyncTransactionRet.result]: what [wait] did, the arguments
    [decode_single] was called with, and the outcome ([None]: [wait] ran
    out of fuel). *)
Definition result_ (fuel : nat) (timeout : number) (interval : Q)
  (solid : bool)
  (self : AsyncTransactionRet)
  : list event * list (list byte) * option (result pyval) :=
  match ret_method self with
  | None => ([], [], Some (raise TypeError [PyStr "Not a smart contract call"]))
  | Some method =>
      match wait fuel timeout interval solid self with
      | (events, None) => (events, [], None)
      | (events, Some (Raise e)) => (events, [], Some (Raise e))
      | (events, Some (Ok receipt)) =>
          let (decoded, outcome) := read_receipt method receipt in
          (events, decoded, Some outcome)
      end
  end.

End Client.

(** ** The block scanner *)

(** The [result] dict of [scan_block_transfers]: its keys are fixed, so it
    is a record. *)
Record ScanResult : Type := {
  blocks : list pyval;
  transfers_trx : list pyval;
  transfers_usdt : list pyval;
  total_transactions : Z;
  failed_parse : Z;
  successful_parse : Z;
  failed_txids : list pyval
}.

Definition empty_result : ScanResult :=
  {| blocks := []; transfers_trx := []; transfers_usdt := [];
     total_transactions := 0; failed_parse := 0; successful_parse := 0;
     failed_txids := [] |}.

Definition add_block (b : pyval) (r : ScanResult) : ScanResult :=
  {| blocks := blocks r ++ [b]; transfers_trx := transfers_trx r;
     transfers_usdt := transfers_usdt r;
     total_transactions := total_transactions r;
     failed_parse := failed_parse r; successful_parse := successful_parse r;
     failed_txids := failed_txids r |}.

Definition add_trx (t : pyval) (r : ScanResult) : ScanResult :=
  {| blocks := blocks r; transfers_trx := transfers_trx r ++ [t];
     transfers_usdt := transfers_usdt r;
     total_transactions := total_transactions r;
     failed_parse := failed_parse r; successful_parse := successful_parse r;
     failed_txids := failed_txids r |}.

Definition add_usdt (t : pyval) (r : ScanResult) : ScanResult :=
  {| blocks := blocks r; transfers_trx := transfers_trx r;
     transfers_usdt := transfers_usdt r ++ [t];
     total_transactions := total_transactions r;
     failed_parse := failed_parse r; successful_parse := successful_parse r;
     failed_txids := failed_txids r |}.

(** [result['stats']['total_transactions'] += 1] *)
Definition count_candidate (r : ScanResult) : ScanResult :=
  {| blocks := blocks r; transfers_trx := transfers_trx r;
     transfers_usdt := transfers_usdt r;
     total_transactions := total_transactions r + 1;
     failed_parse := failed_parse r; successful_parse := successful_parse r;
     failed_txids := failed_txids r |}.

(** [result['stats']['successful_parse'] += 1] *)
Definition count_success (r : ScanResult) : ScanResult :=
  {| blocks := blocks r; transfers_trx := transfers_trx r;
     transfers_usdt := transfers_usdt r;
     total_transactions := total_transactions r;
     failed_parse := failed_parse r;
     successful_parse := successful_parse r + 1;
     failed_txids := failed_txids r |}.

(** [result['stats']['failed_parse'] += 1] *)
Definition count_failure (r : ScanResult) : ScanResult :=
  {| blocks := blocks r; transfers_trx := transfers_trx r;
     transfers_usdt := transfers_usdt r;
     total_transactions := total_transactions r;
     failed_parse := failed_parse r + 1;
     successful_parse := successful_parse r;
     failed_txids := failed_txids r |}.

(** [result['stats']['failed_txids'].append(t)] *)
Definition add_failed_txid (t : pyval) (r : ScanResult) : ScanResult :=
  {| blocks := blocks r; transfers_trx := transfers_trx r;
     transfers_usdt := transfers_usdt r;
     total_transactions := total_transactions r;
     failed_parse := failed_parse r; successful_parse := successful_parse r;
     failed_txids := failed_txids r ++ [t] |}.

(** A [for] loop whose body updates an accumulator and may raise. *)
Fixpoint for_each {A S : Type} (body : A -> S -> result S) (l : list A)
  (acc : S) : result S :=
  match l with
  | [] => Ok acc
  | x :: l' => acc' <- body x acc ;; for_each body l' acc'
  end.

(** [range(start, stop)] *)
Definition py_range (start stop : Z) : list Z :=
  map (fun i => start + Z.of_nat i) (seq 0 (Z.to_nat (stop - start))).

Definition USDT_CONTRACT_ADDRESS : string :=
  "TR7NHqjeKQxGTCi8q8ZY4pL8otSzgjLj6t".

(** [address is None or address in [a, b]] *)
Definition address_matches (address : option string) (a b : pyval) : bool :=
  match address with
  | None => true
  | Some s => py_eq_str a s || py_eq_str b s
  end.

(** The [resource] dict built from a receipt. *)
Definition resource_of (receipt : pyval) : result pyval :=
  energy_usage <- py_get receipt "energy_usage" (PyInt 0) ;;
  net_usage <- py_get receipt "net_usage" (PyInt 0) ;;
  energy_fee <- py_get receipt "energy_fee" (PyInt 0) ;;
  net_fee <- py_get receipt "net_fee" (PyInt 0) ;;
  Ok (PyDict [ ("energy_usage", energy_usage); ("net_usage", net_usage);
               ("energy_fee", energy_fee); ("net_fee", net_fee) ]).

(** [if 'ret' in tx and tx['ret']: receipt = tx['ret'][0]; ...]: the
    resource dict when the test holds. *)
Definition tx_resource (tx : pyval) : result (option pyval) :=
  has_ret <- py_contains "ret" tx ;;
  if has_ret then
    ret <- py_getitem tx "ret" ;;
    if py_truthy ret then
      ret' <- py_getitem tx "ret" ;;
      receipt <- py_getitem0 ret' ;;
      resource <- resource_of receipt ;;
      Ok (Some resource)
    else Ok None
  else Ok None.

(** [tx.get('raw_data', {}).get('contract', [])] as a condition. *)
Definition has_contract (tx : pyval) : result bool :=
  raw <- py_get tx "raw_data" (PyDict []) ;;
  contracts <- py_get raw "contract" (PyList []) ;;
  Ok (py_truthy contracts).

(** [tx['raw_data']['contract'][0]] *)
Definition first_contract (tx : pyval) : result pyval :=
  raw <- py_getitem tx "raw_data" ;;
  contracts <- py_getitem raw "contract" ;;
  py_getitem0 contracts.

(** [contract['parameter']['value']] *)
Definition contract_value (contract : pyval) : result pyval :=
  parameter <- py_getitem contract "parameter" ;;
  py_getitem parameter "value".

(** The counters of a scan agree: every candidate was counted as parsed
    or as failed, and every failure left its transaction id. *)
Definition stats_consistent (r : ScanResult) : Prop :=
  successful_parse r + failed_parse r = total_transactions r
  /\ Z.of_nat (List.length (failed_txids r)) = failed_parse r.

(** What the scan does to the counters for one candidate: one more in
    the total, and one more either among the parsed or among the failed,
    whose id it then records. *)
Definition counted_once (r r' : ScanResult) : Prop :=
  total_transactions r' = total_transactions r + 1
  /\ (successful_parse r' = successful_parse r + 1
      /\ failed_parse r' = failed_parse r
      /\ failed_txids r' = failed_txids r
      \/ successful_parse r' = successful_parse r
         /\ failed_parse r' = failed_parse r + 1
         /\ exists txid, failed_txids r' = (failed_txids r ++ [txid])%list).

(** The counters and the failed ids are the same in both. *)
Definition same_stats (r r' : ScanResult) : Prop :=
  total_transactions r' = total_transactions r
  /\ successful_parse r' = successful_parse r
  /\ failed_parse r' = failed_parse r
  /\ failed_txids r' = failed_txids r.

(** The record [parse_usdt_transfer] returns for a decoded call. *)
Definition transfer_record (block_num : Z) (timestamp txid : pyval)
  (from_addr to_addr : string) (amount : pyval) (method : string) : pyval :=
  PyDict
    [ ("block_number", PyInt block_num);
      ("timestamp", timestamp);
      ("txid", txid);
      ("from", PyStr from_addr);
      ("to", PyStr to_addr);
      ("amount", amount);
      ("method", PyStr method) ].

Section Scanner.

(** [keys.to_base58check_address] *)
Variable to_base58check_address : pyval -> result string.
(** [Decimal(x) / Decimal(10 ** 6)] *)
Variable decimal_trx : pyval -> result pyval.
(** The node's reply to [wallet/getblockbynum]. *)
Variable getblockbynum : Z -> result pyval.
(** [self.get_latest_block_number()] *)
Variable get_latest_block_number : result Z.

(** [get_block] for a block number. *)
Definition get_block (num : Z) : result pyval :=
  block <- getblockbynum num ;;
  has_error <-
    py_contains "Error" (if py_truthy block then block else PyDict []) ;;
  if has_error then raise BugInJavaTron [block]
  else if py_truthy block then Ok block
  else raise BlockNotFound [].

(** The two [try] blocks of [parse_usdt_transfer] that read the fields
    of a call: [(from, to, amount)]. *)
Definition transfer_fields (data : string) (value : pyval)
  : result (string * string * pyval) :=
  to_addr <- to_base58check_address (PyStr ("41" ++ str_slice 32 72 data)) ;;
  n <- py_int16 (PyStr (str_from 72 data)) ;;
  amount <- py_truediv n (10 ^ 6) ;;
  owner <- py_getitem value "owner_address" ;;
  from_addr <- to_base58check_address owner ;;
  Ok (from_addr, to_addr, amount).

Definition transferFrom_fields (data : string)
  : result (string * string * pyval) :=
  from_addr <- to_base58check_address (PyStr ("41" ++ str_slice 32 72 data)) ;;
  to_addr <- to_base58check_address (PyStr ("41" ++ str_slice 72 112 data)) ;;
  n <- py_int16 (PyStr (str_from 112 data)) ;;
  amount <- py_truediv n (10 ^ 6) ;;
  Ok (from_addr, to_addr, amount).

(** The body of the outer [try] of [parse_usdt_transfer]. *)
Definition parse_usdt_transfer_body (tx : pyval) (block_num : Z)
  (block_timestamp : pyval) : result pyval :=
  contract <- first_contract tx ;;
  value <- contract_value contract ;;
  data <- py_get value "data" (PyStr "") ;;
  is_transfer <- py_startswith data "a9059cbb" ;;
  fields <-
    (if is_transfer then
       match data with
       | PyStr d =>
           try_except (f <- transfer_fields d value ;; Ok (Some f))
                      (fun _ => Ok None)
       | _ => Ok None
       end
     else
       is_transferFrom <- py_startswith data "23b872dd" ;;
       if is_transferFrom then
         match data with
         | PyStr d =>
             try_except (f <- transferFrom_fields d ;; Ok (Some f))
                        (fun _ => Ok None)
         | _ => Ok None
         end
       else Ok None) ;;
  match fields with
  | None => Ok PyNone
  | Some (from_addr, to_addr, amount) =>
      txid <- py_getitem tx "txID" ;;
      Ok (PyDict
            [ ("block_number", PyInt block_num);
              ("timestamp", block_timestamp);
              ("txid", txid);
              ("from", PyStr from_addr);
              ("to", PyStr to_addr);
              ("amount", amount);
              ("method",
                PyStr (if is_transfer then "transfer" else "transferFrom")) ])
  end.

(** [parse_usdt_transfer] *)
Definition parse_usdt_transfer (tx : pyval) (block_num : Z)
  (block_timestamp : pyval) : result pyval :=
  try_except (parse_usdt_transfer_body tx block_num block_timestamp)
             (fun _ => Ok PyNone).

(** The first [if] of the loop over the transactions of a block: a TRX
    transfer. *)
Definition scan_trx (address : option string) (block_num : Z)
  (block_header tx : pyval) (res : ScanResult) : result ScanResult :=
  some <- has_contract tx ;;
  if some then
    contract <- first_contract tx ;;
    type <- py_getitem contract "type" ;;
    if py_eq_str type "TransferContract" then
      value <- contract_value contract ;;
      owner <- py_getitem value "owner_address" ;;
      from_addr <- to_base58check_address owner ;;
      recipient <- py_getitem value "to_address" ;;
      to_addr <- to_base58check_address recipient ;;
      sun <- py_getitem value "amount" ;;
      amount <- decimal_trx sun ;;
      found <- tx_resource tx ;;
      let resource :=
        match found with
        | Some r => r
        | None => PyDict []
        end in
      if address_matches address (PyStr from_addr) (PyStr to_addr) then
        timestamp <- py_getitem block_header "timestamp" ;;
        txid <- py_getitem tx "txID" ;;
        Ok (add_trx
              (PyDict
                 [ ("block_number", PyInt block_num);
                   ("timestamp", timestamp);
                   ("txid", txid);
                   ("from", PyStr from_addr);
                   ("to", PyStr to_addr);
                   ("amount", amount);
                   ("resource", resource) ])
              res)
      else Ok res
    else Ok res
  else Ok res.

(** The test of the second [if]: a call of the USDT contract. *)
Definition is_usdt_call (tx : pyval) : result bool :=
  some <- has_contract tx ;;
  if some then
    contract <- first_contract tx ;;
    type <- py_getitem contract "type" ;;
    if py_eq_str type "TriggerSmartContract" then
      value <- contract_value contract ;;
      target <- py_getitem value "contract_address" ;;
      target58 <- to_base58check_address target ;;
      Ok (target58 =? USDT_CONTRACT_ADDRESS)%string
    else Ok false
  else Ok false.

(** The second [if]: a USDT transfer. *)
Definition scan_usdt (address : option string) (block_num : Z)
  (block_header tx : pyval) (res : ScanResult) : result ScanResult :=
  candidate <- is_usdt_call tx ;;
  if candidate then
    let res := count_candidate res in
    timestamp <- py_getitem block_header "timestamp" ;;
    transfer_info <- parse_usdt_transfer tx block_num timestamp ;;
    if py_truthy transfer_info then
      found <- tx_resource tx ;;
      transfer_info <-
        match found with
        | Some r =>
            match transfer_info with
            | PyDict d => Ok (PyDict (dict_set "resource" r d))
            | _ => raise TypeError []
            end
        | None => Ok transfer_info
        end ;;
      let res := count_success res in
      wanted <-
        match address with
        | None => Ok true
        | Some _ =>
            from_addr <- py_getitem transfer_info "from" ;;
            to_addr <- py_getitem transfer_info "to" ;;
            Ok (address_matches address from_addr to_addr)
        end ;;
      if wanted then Ok (add_usdt transfer_info res) else Ok res
    else
      let res := count_failure res in
      txid <- py_getitem tx "txID" ;;
      Ok (add_failed_txid txid res)
  else Ok res.

(** The body of the loop over the transactions of a block. *)
Definition scan_tx (address : option string) (block_num : Z)
  (block_header tx : pyval) (res : ScanResult) : result ScanResult :=
  res <- scan_trx address block_num block_header tx res ;;
  scan_usdt address block_num block_header tx res.

(** The body of the loop over the block numbers. *)
Definition scan_block (address : option string) (block_num : Z)
  (res : ScanResult) : result ScanResult :=
  block <- get_block block_num ;;
  header <- py_getitem block "block_header" ;;
  block_header <- py_getitem header "raw_data" ;;
  timestamp <- py_getitem block_header "timestamp" ;;
  hash <- py_get block "blockID" (PyStr "") ;;
  parent_hash <- py_get block_header "parentHash" (PyStr "") ;;
  witness <- py_get block_header "witness_address" (PyStr "") ;;
  witness_address <- to_base58check_address witness ;;
  txs <- py_get block "transactions" (PyList []) ;;
  transaction_count <- py_len txs ;;
  confirmed <- py_get block "confirmed" (PyBool true) ;;
  let res :=
    add_block
      (PyDict
         [ ("block_number", PyInt block_num);
           ("timestamp", timestamp);
           ("hash", hash);
           ("parent_hash", parent_hash);
           ("witness_address", PyStr witness_address);
           ("transaction_count", PyInt transaction_count);
           ("confirmed", confirmed) ])
      res in
  transactions <- py_get block "transactions" PyNone ;;
  if negb (py_truthy transactions) then Ok res
  else
    transactions <- py_getitem block "transactions" ;;
    items <- py_iter transactions ;;
    for_each (scan_tx address block_num block_header) items res.

(** [scan_block_transfers] *)
Definition scan_block_transfers (start_block : Z) (end_block : option Z)
  (address : option string) : result ScanResult :=
  end_block <-
    match end_block with
    | None => get_latest_block_number
    | Some n => Ok n
    end ;;
  for_each (scan_block address) (py_range start_block (end_block + 1))
           empty_result.

End Scanner.

(** *** The candidates of a scan *)

Section Candidates.

Variable to_base58check_address : pyval -> result string.
Variable getblockbynum : Z -> result pyval.

(** A transaction the scan takes for a call of the token contract. *)
Definition is_candidate (tx : pyval) : bool :=
  match is_usdt_call to_base58check_address tx with
  | Ok true => true
  | _ => false
  end.

(** The timestamp of block [num] and its transactions, in the order the
    scan walks them. *)
Definition block_transactions (num : Z) : result (pyval * list pyval) :=
  block <- get_block getblockbynum num ;;
  header <- py_getitem block "block_header" ;;
  block_header <- py_getitem header "raw_data" ;;
  timestamp <- py_getitem block_header "timestamp" ;;
  transactions <- py_get block "transactions" PyNone ;;
  if negb (py_truthy transactions) then Ok (timestamp, [])
  else
    transactions <- py_getitem block "transactions" ;;
    items <- py_iter transactions ;;
    Ok (timestamp, items).

(** The candidates of a block, each with the number and the timestamp of
    the block; and those of the blocks from [start] to [last], in the
    order of the scan. *)
Definition block_candidates (num : Z) : list (Z * pyval * pyval) :=
  match block_transactions num with
  | Ok (timestamp, items) =>
      map (fun tx => (num, timestamp, tx)) (filter is_candidate items)
  | Raise _ => []
  end.

Definition candidates (start last : Z) : list (Z * pyval * pyval) :=
  flat_map block_candidates (py_range start (last + 1)).

(** The parser returns a transfer for the candidate. *)
Definition parses (c : Z * pyval * pyval) : bool :=
  let '(num, timestamp, tx) := c in
  match parse_usdt_transfer to_base58check_address tx num timestamp with
  | Ok transfer_info => py_truthy transfer_info
  | Raise _ => false
  end.

Definition fails (c : Z * pyval * pyval) : bool := negb (parses c).

(** The id of a candidate ([None] for one that has none). *)
Definition candidate_txid (c : Z * pyval * pyval) : pyval :=
  match py_getitem (snd c) "txID" with
  | Ok txid => txid
  | Raise _ => PyNone
  end.

(** The counters of [r'] are those of [r] after the candidates [cs]:
    each of them is in the total, and in [successful_parse] when the
    parser returns a transfer for it, else in [failed_parse] with its id
    at the end of [failed_txids]. *)
Definition tallied (cs : list (Z * pyval * pyval)) (r r' : ScanResult)
  : Prop :=
  total_transactions r' = total_transactions r + Z.of_nat (List.length cs)
  /\ successful_parse r'
     = successful_parse r + Z.of_nat (List.length (filter parses cs))
  /\ failed_parse r'
     = failed_parse r + Z.of_nat (List.length (filter fails cs))
  /\ failed_txids r'
     = (failed_txids r ++ map candidate_txid (filter fails cs))%list.

End Candidates.

(** ** Further operations of the client *)

(** The classes of error the classifier raises for a response that is a
    dict. *)
Definition is_classifier_kind (c : exn_class) : bool :=
  match c with
  | ApiError | BadSignature | TaposError | TransactionError
  | ValidationError | UnknownError => true
  | _ => false
  end.

(** A permission lets the key with the hexadecimal address [addr] sign:
    it is [None], or a dict whose [keys] hold an entry with that address
    after entries that all have an address. *)
Definition permits (perm : permission) (addr : string) : Prop :=
  perm = Known PyNone
  \/ exists p before entry after,
       perm = Known (PyDict p)
       /\ dict_lookup "keys" p = Some (PyList (before ++ entry :: after)%list)
       /\ Forall (fun k => exists a, py_getitem k "address" = Ok a) before
       /\ py_getitem entry "address" = Ok (PyStr addr).

(** A transaction that [sign] accepts at the time [now]: it has an id
    that is hexadecimal text, it is not expired, and its signatures are a
    list. *)
Definition signable (now : Z) (self : AsyncTransaction)
  (digest : list byte) (sigs : list pyval) : Prop :=
  py_truthy (txid self) = true
  /\ is_expired now self = Ok false
  /\ bytes_fromhex (txid self) = Ok digest
  /\ _signature self = PyList sigs.

(** *** More primitives *)

(** [x[k] = v] with a string key: only a dict takes it. *)
Definition py_setitem (x : pyval) (k : string) (v : pyval) : result pyval :=
  match x with
  | PyDict d => Ok (PyDict (dict_set k v d))
  | _ => raise TypeError []
  end.

(** [x + n] with an integer on the right. *)
Definition py_add_int (x : pyval) (n : Z) : result pyval :=
  match x with
  | PyInt z => Ok (PyInt (z + n))
  | PyBool b => Ok (PyInt ((if b then 1 else 0) + n))
  | PyFloat q => Ok (PyFloat (q + inject_Z n))
  | _ => raise TypeError []
  end.

(** [x[i:j]] with literal, non-negative bounds: a string and a list give
    the part between the bounds, clamped; nothing else can be sliced (a
    dict raises KeyError instead from Python 3.12 on). *)
Definition py_slice (i j : nat) (x : pyval) : result pyval :=
  match x with
  | PyStr s => Ok (PyStr (str_slice i j s))
  | PyList l => Ok (PyList (firstn (j - i) (skipn i l)))
  | _ => raise TypeError []
  end.

(** [s.split(sep, 1)] when [sep] occurs in [s]: what stands before its
    first occurrence and what stands after it. *)
Fixpoint split_once (sep s : string) : option (string * string) :=
  if prefix sep s then Some ("", str_from (String.length sep) s)
  else
    match s with
    | EmptyString => None
    | String c s' =>
        match split_once sep s' with
        | Some (before, after) => Some (String c before, after)
        | None => None
        end
    end.

(** [x.split(sep, 1)[0]] and [x.split(sep, 1)[-1]]: only strings have the
    method, and without [sep] the list has the string as its one item. *)
Definition py_split_first (sep : string) (x : pyval) : result string :=
  match x with
  | PyStr s =>
      Ok (match split_once sep s with
          | Some (before, _) => before
          | None => s
          end)
  | _ => raise AttributeError [PyStr "split"]
  end.

Definition py_split_last (sep : string) (x : pyval) : result string :=
  match x with
  | PyStr s =>
      Ok (match split_once sep s with
          | Some (_, after) => after
          | None => s
          end)
  | _ => raise AttributeError [PyStr "split"]
  end.

(** [s.replace(old, "", 1)] *)
Definition str_remove_first (old s : string) : string :=
  match split_once old s with
  | Some (before, after) => before ++ after
  | None => s
  end.

Definition dec_digit (c : ascii) : option Z :=
  let n := Z.of_nat (nat_of_ascii c) in
  if (48 <=? n) && (n <=? 57) then Some (n - 48) else None.

(** The digits of a literal in base 10, as [scan_hex] reads those in base
    16. *)
Fixpoint scan_dec (prev_underscore : bool) (acc : Z) (ndigits : nat)
  (l : list ascii) : option (Z * nat * list ascii) :=
  match l with
  | [] => if prev_underscore then None else Some (acc, ndigits, [])
  | c :: r =>
      if Ascii.eqb c "_" then
        if prev_underscore then None else scan_dec true acc ndigits r
      else
        match dec_digit c with
        | Some d => scan_dec false (10 * acc + d) (S ndigits) r
        | None => if prev_underscore then None else Some (acc, ndigits, l)
        end
  end.

(** The longest literal [int] converts in base 10 (the default of
    [sys.set_int_max_str_digits]; Python before 3.11 has no such limit). *)
Definition int_max_str_digits : nat := 4300.

Definition int10_chars (l : list ascii) : option Z :=
  let (negative, l1) := strip_sign (skip_spaces l) in
  match l1 with
  | [] => None
  | c :: _ =>
      if Ascii.eqb c "_" then None
      else
        match scan_dec false 0 0 l1 with
        | Some (v, n, rest) =>
            match n, skip_spaces rest with
            | S _, [] =>
                if (int_max_str_digits <? n)%nat then None
                else Some (if negative then - v else v)
            | _, _ => None
            end
        | None => None
        end
  end.

(** [int(x)] *)
Definition py_int (x : pyval) : result Z :=
  match x with
  | PyStr s =>
      match int10_chars (list_ascii_of_string s) with
      | Some z => Ok z
      | None => raise ValueError []
      end
  | PyInt z => Ok z
  | PyBool b => Ok (if b then 1 else 0)
  | PyFloat q => Ok (Z.quot (Qnum q) (Zpos (Qden q)))
  | _ => raise TypeError []
  end.

(** The number a string of decimal digits writes. *)
Definition dec_value (s : string) : Z :=
  fold_left
    (fun acc c => 10 * acc + match dec_digit c with Some d => d | None => 0 end)
    (list_ascii_of_string s) 0.

Definition is_dec_digit (c : ascii) : bool :=
  match dec_digit c with
  | Some _ => true
  | None => false
  end.

(** A string of one or more decimal digits. *)
Definition is_dec_string (s : string) : bool :=
  match list_ascii_of_string s with
  | [] => false
  | l => forallb is_dec_digit l
  end.

(** The two lower-case hexadecimal digits of a byte, and [b.hex()]. *)
Definition hex_char (n : N) : ascii :=
  ascii_of_N (if (n <? 10)%N then 48 + n else 87 + n).

Definition byte_hex (b : byte) : list ascii :=
  let n := Byte.to_N b in
  [hex_char (n / 16); hex_char (n mod 16)].

Definition bytes_hex (b : list byte) : string :=
  string_of_list_ascii (flat_map byte_hex b).

(** [s.encode()] for text of code points below 256: UTF-8. *)
Definition utf8_encode_char (c : ascii) : list byte :=
  let n := N_of_ascii c in
  if (n <? 128)%N then [byte_of_ascii c]
  else
    [ match Byte.of_N (192 + n / 64) with Some b => b | None => x00 end;
      match Byte.of_N (128 + n mod 64) with Some b => b | None => x00 end ].

Definition utf8_encode (s : string) : list byte :=
  flat_map utf8_encode_char (list_ascii_of_string s).

(** *** Code that changes an object and may raise *)

(** A step on a state [S]: its outcome and the state afterwards. *)
Definition st_bind {S A B : Type} (m : S -> result A * S)
  (k : A -> S -> result B * S) : S -> result B * S :=
  fun s =>
    match m s with
    | (Ok a, s') => k a s'
    | (Raise e, s') => (Raise e, s')
    end.

Notation "x <~ m ;; k" := (st_bind m (fun x => k))
  (at level 61, m at next level, right associativity).
Notation "m ~> k" := (st_bind m (fun _ => k))
  (at level 61, right associativity).

(** A computation that leaves the state alone. *)
Definition st_lift {S A : Type} (r : result A) : S -> result A * S :=
  fun s => (r, s).

(** [self._raw_data = raw] *)
Definition set_raw_data (raw : pyval) (self : AsyncTransaction)
  : AsyncTransaction :=
  {| _raw_data := raw; _signature := _signature self;
     _method := _method self; txid := txid self;
     _permission := _permission self |}.

(** A transaction together with the requests sent to the node on its
    behalf. *)
Definition session : Type := (AsyncTransaction * list pyval)%type.

(** [self._raw_data[k] = v] *)
Definition raw_setitem (k : string) (v : pyval) : session -> result unit * session :=
  fun s =>
    match py_setitem (_raw_data (fst s)) k v with
    | Ok raw => (Ok tt, (set_raw_data raw (fst s), snd s))
    | Raise e => (Raise e, s)
    end.

(** [self._raw_data[k]] *)
Definition raw_getitem (k : string) : session -> result pyval * session :=
  fun s => (py_getitem (_raw_data (fst s)) k, s).

(** An assignment to an attribute of the transaction. *)
Definition assign (f : AsyncTransaction -> AsyncTransaction)
  : session -> result unit * session :=
  fun s => (Ok tt, (f (fst s), snd s)).

Section Lifecycle.

Variable py_repr : pyval -> string.
Variable utf8_decode : list byte -> result string.
(** The node's reply to [wallet/getsignweight]. *)
Variable get_sign_weight : pyval -> result pyval.
(** The node's reply to [wallet/getnodeinfo]. *)
Variable getnodeinfo : result pyval.
(** The node's reply to [walletsolidity/getnowblock]. *)
Variable getnowblock_solid : result pyval.

(** [get_latest_solid_block_id] *)
Definition get_latest_solid_block_id : result pyval :=
  try_except
    (info <- getnodeinfo ;;
     solid <- py_getitem info "solidityBlock" ;;
     id <- py_split_last ",ID:" solid ;;
     Ok (PyStr id))
    (fun _ =>
       info <- getnowblock_solid ;;
       py_getitem info "blockID").

(** [get_latest_solid_block_number] *)
Definition get_latest_solid_block_number : result Z :=
  info <- getnodeinfo ;;
  solid <- py_getitem info "solidityBlock" ;;
  head <- py_split_first ",ID:" solid ;;
  py_int (PyStr (str_remove_first "Num:" head)).

(** [get_latest_block_id] *)
Definition get_latest_block_id : result string :=
  info <- getnodeinfo ;;
  block <- py_getitem info "block" ;;
  py_split_last ",ID:" block.

(** [get_latest_block_number] *)
Definition get_latest_block_number : result Z :=
  info <- getnodeinfo ;;
  block <- py_getitem info "block" ;;
  head <- py_split_first ",ID:" block ;;
  py_int (PyStr (str_remove_first "Num:" head)).

(** [self._client.get_sign_weight(self)]: the request is the transaction
    as [to_json] writes it. *)
Definition ask_sign_weight : session -> result pyval * session :=
  fun s =>
    let request := to_json (fst s) in
    (get_sign_weight request, (fst s, (snd s ++ [request])%list)).

(** [AsyncTransaction.update], at the reading [now] of
    [current_timestamp()]. *)
Definition update (now : Z) : session -> result unit * session :=
  raw_setitem "timestamp" (PyInt now) ~>
  timestamp <~ raw_getitem "timestamp" ;;
  expiration <~ st_lift (py_add_int timestamp 60000) ;;
  raw_setitem "expiration" expiration ~>
  ref_block_id <~ st_lift get_latest_solid_block_id ;;
  ref_block_bytes <~ st_lift (py_slice 12 16 ref_block_id) ;;
  raw_setitem "ref_block_bytes" ref_block_bytes ~>
  ref_block_hash <~ st_lift (py_slice 16 32 ref_block_id) ;;
  raw_setitem "ref_block_hash" ref_block_hash ~>
  assign (set_txid (PyStr "")) ~>
  assign (set_permission (Known PyNone)) ~>
  assign (set_signature (PyList [])) ~>
  sign_weight <~ ask_sign_weight ;;
  has_transaction <~ st_lift (py_contains "transaction" sign_weight) ;;
  if negb has_transaction then
    st_lift (_handle_api_error py_repr utf8_decode sign_weight) ~>
    st_lift (Ok tt)
  else
    new_txid <~
      st_lift (outer <- py_getitem sign_weight "transaction" ;;
               inner <- py_getitem outer "transaction" ;;
               py_getitem inner "txID") ;;
    assign (set_txid new_txid) ~>
    permission <~ st_lift (py_get sign_weight "permission" PyNone) ;;
    assign (set_permission (Known permission)) ~>
    assign (set_signature (PyList [])).

End Lifecycle.

(** The raw data [update] writes at the reading [now], with the anchor
    block [ref]; and the transaction [update] asks the node about. *)
Definition reanchored_times (now : Z) (rd : list (string * pyval))
  : list (string * pyval) :=
  dict_set "expiration" (PyInt (now + 60000))
    (dict_set "timestamp" (PyInt now) rd).

Definition reanchored_raw_data (now : Z) (ref : string)
  (rd : list (string * pyval)) : list (string * pyval) :=
  dict_set "ref_block_hash" (PyStr (str_slice 16 32 ref))
    (dict_set "ref_block_bytes" (PyStr (str_slice 12 16 ref))
       (reanchored_times now rd)).

Definition reanchored (now : Z) (ref : string) (rd : list (string * pyval))
  (self : AsyncTransaction) : AsyncTransaction :=
  {| _raw_data := PyDict (reanchored_raw_data now ref rd);
     _signature := PyList [];
     _method := _method self;
     txid := PyStr "";
     _permission := Known PyNone |}.

(** ** The transaction builder *)

(** The argument of [memo]: text or bytes. *)
Inductive memo_arg : Type :=
| MemoStr (s : string)
| MemoBytes (b : list byte).

Module Builder.

(** The attributes of a builder.  Its dicts are held by value: a write to
    a dict inside the raw data is written back along the path it was read
    by, and the [inner] dict and the built transaction, which share the
    builder's objects in the source, are values of their own here. *)
Record AsyncTransactionBuilder : Type := {
  _raw_data : pyval;
  _method : option AsyncContractMethod
}.

Definition set_raw_data (raw : pyval) (self : AsyncTransactionBuilder)
  : AsyncTransactionBuilder :=
  {| _raw_data := raw; _method := _method self |}.

(** [x in ["TriggerSmartContract", "CreateSmartContract"]] *)
Definition is_contract_type (x : pyval) : bool :=
  py_eq_str x "TriggerSmartContract" || py_eq_str x "CreateSmartContract".

(** [__init__], with the two readings [now1] and [now2] of
    [current_timestamp()] and the client's [conf]. *)
Definition __init__ (now1 now2 : Z) (conf inner : pyval)
  (method : option AsyncContractMethod) : result AsyncTransactionBuilder :=
  let raw :=
    [ ("contract", PyList [inner]);
      ("timestamp", PyInt now1);
      ("expiration", PyInt (now2 + 60000));
      ("ref_block_bytes", PyNone);
      ("ref_block_hash", PyNone) ] in
  type_ <- py_get inner "type" PyNone ;;
  raw <- (if is_contract_type type_ then
            limit <- py_getitem conf "fee_limit" ;;
            Ok (dict_set "fee_limit" limit raw)
          else Ok raw) ;;
  Ok {| _raw_data := PyDict raw; _method := method |}.

(** [self._raw_data["contract"][0]] *)
Definition contract0 (self : AsyncTransactionBuilder) : result pyval :=
  contract <- py_getitem (_raw_data self) "contract" ;;
  py_getitem0 contract.

(** The raw data once its first contract has become [c]. *)
Definition with_contract0 (c : pyval) (raw : pyval) : pyval :=
  match raw with
  | PyDict d =>
      match dict_lookup "contract" d with
      | Some (PyList (_ :: rest)) =>
          PyDict (dict_set "contract" (PyList (c :: rest)) d)
      | _ => raw
      end
  | _ => raw
  end.

Section Methods.

(** [keys.to_hex_address] *)
Variable to_hex_address : pyval -> result string.

(** [with_owner] *)
Definition with_owner (addr : pyval) (self : AsyncTransactionBuilder)
  : result AsyncTransactionBuilder :=
  c <- contract0 self ;;
  parameter <- py_getitem c "parameter" ;;
  value <- py_getitem parameter "value" ;;
  has_owner <- py_contains "owner_address" value ;;
  if has_owner then
    owner <- to_hex_address addr ;;
    value <- py_setitem value "owner_address" (PyStr owner) ;;
    parameter <- py_setitem parameter "value" value ;;
    c <- py_setitem c "parameter" parameter ;;
    Ok (set_raw_data (with_contract0 c (_raw_data self)) self)
  else raise TypeError [PyStr "can not set owner"].

End Methods.

(** [permission_id] *)
Definition permission_id (perm_id : Z) (self : AsyncTransactionBuilder)
  : result AsyncTransactionBuilder :=
  c <- contract0 self ;;
  c <- py_setitem c "Permission_id" (PyInt perm_id) ;;
  Ok (set_raw_data (with_contract0 c (_raw_data self)) self).

(** [memo] *)
Definition memo (m : memo_arg) (self : AsyncTransactionBuilder)
  : result AsyncTransactionBuilder :=
  let data :=
    match m with
    | MemoStr s => utf8_encode s
    | MemoBytes b => b
    end in
  raw <- py_setitem (_raw_data self) "data" (PyStr (bytes_hex data)) ;;
  Ok (set_raw_data raw self).

(** [expiration], at the reading [now] of [current_timestamp()]. *)
Definition expiration (now : Z) (expiration : Z)
  (self : AsyncTransactionBuilder) : result AsyncTransactionBuilder :=
  raw <- py_setitem (_raw_data self) "expiration" (PyInt (now + expiration)) ;;
  Ok (set_raw_data raw self).

(** [fee_limit] *)
Definition fee_limit (value : pyval) (self : AsyncTransactionBuilder)
  : result AsyncTransactionBuilder :=
  raw <- py_setitem (_raw_data self) "fee_limit" value ;;
  Ok (set_raw_data raw self).

Section Build.

Variable py_repr : pyval -> string.
Variable utf8_decode : list byte -> result string.
Variable get_sign_weight : pyval -> result pyval.
Variable getnodeinfo : result pyval.
Variable getnowblock_solid : result pyval.

(** The raw data [build] hands to the transaction: the builder's, with
    the two parts of the anchor block's id. *)
Definition anchored : pyval -> pyval -> result pyval :=
  fun ref_block_id raw =>
    ref_block_bytes <- py_slice 12 16 ref_block_id ;;
    raw <- py_setitem raw "ref_block_bytes" ref_block_bytes ;;
    ref_block_hash <- py_slice 16 32 ref_block_id ;;
    py_setitem raw "ref_block_hash" ref_block_hash.

(** [build]: the transaction, the builder afterwards and the requests
    for the weight of signatures sent to the node.  A method object
    counts as true, so both calls of [create] are the one with the
    builder's method. *)
Definition build (self : AsyncTransactionBuilder)
  : result AsyncTransaction * AsyncTransactionBuilder * list pyval :=
  match
    ref_block_id <- get_latest_solid_block_id getnodeinfo getnowblock_solid ;;
    anchored ref_block_id (_raw_data self)
  with
  | Raise e => (Raise e, self, [])
  | Ok raw =>
      let self := set_raw_data raw self in
      let (txn, sent) :=
        create py_repr utf8_decode get_sign_weight
          raw (_method self) (PyStr "") (Known PyNone) PyNone in
      (txn, self, sent)
  end.

End Build.

End Builder.

(** A call of one of the builder's methods that return the builder, with
    the reading of [current_timestamp()] where the method takes one; and a
    chain of such calls. *)
Inductive builder_call : Type :=
| WithOwner (addr : pyval)
| PermissionId (perm_id : Z)
| Memo (m : memo_arg)
| Expiration (now expiration : Z)
| FeeLimit (value : pyval).

Definition call_builder (to_hex_address : pyval -> result string)
  (c : builder_call) (self : Builder.AsyncTransactionBuilder)
  : result Builder.AsyncTransactionBuilder :=
  match c with
  | WithOwner addr => Builder.with_owner to_hex_address addr self
  | PermissionId perm_id => Builder.permission_id perm_id self
  | Memo m => Builder.memo m self
  | Expiration now e => Builder.expiration now e self
  | FeeLimit value => Builder.fee_limit value self
  end.

Definition chain (to_hex_address : pyval -> result string)
  (cs : list builder_call) (self : Builder.AsyncTransactionBuilder)
  : result Builder.AsyncTransactionBuilder :=
  for_each (call_builder to_hex_address) cs self.

(** The time a chain of calls leaves the transaction to expire at, when
    it was [d] before. *)
Fixpoint deadline (d : Z) (cs : list builder_call) : Z :=
  match cs with
  | [] => d
  | Expiration now e :: cs' => deadline (now + e) cs'
  | _ :: cs' => deadline d cs'
  end.

Module Trx.

(** [AsyncTrx._build_transaction] *)
Definition _build_transaction (now1 now2 : Z) (conf : pyval) (type_ : string)
  (obj : pyval) (method : option AsyncContractMethod)
  : result Builder.AsyncTransactionBuilder :=
  let inner :=
    PyDict
      [ ("parameter",
          PyDict [ ("value", obj);
                   ("type_url",
                     PyStr ("type.googleapis.com/protocol." ++ type_)) ]);
        ("type", PyStr type_) ] in
  Builder.__init__ now1 now2 conf inner method.

(** [AsyncTrx.transfer] *)
Definition transfer (to_hex_address : pyval -> result string)
  (now1 now2 : Z) (conf : pyval) (from_ to amount : pyval)
  : result Builder.AsyncTransactionBuilder :=
  owner <- to_hex_address from_ ;;
  recipient <- to_hex_address to ;;
  _build_transaction now1 now2 conf "TransferContract"
    (PyDict [ ("owner_address", PyStr owner);
              ("to_address", PyStr recipient);
              ("amount", amount) ])
    None.

End Trx.

(** What the constructor and the methods of a builder keep true of it:
    the raw data is a dict without the keys a transaction reads its own
    attributes from, it expires at [dl], and the method is [m]. *)
Definition builder_kept (dl : Z) (m : option AsyncContractMethod)
  (b : Builder.AsyncTransactionBuilder) : Prop :=
  exists d,
    Builder._raw_data b = PyDict d
    /\ dict_lookup "raw_data" d = None
    /\ dict_lookup "signature" d = None
    /\ dict_lookup "txID" d = None
    /\ dict_lookup "permission" d = None
    /\ dict_lookup "expiration" d = Some (PyInt dl)
    /\ Builder._method b = m.

(** ** Scans of the latest blocks *)

(** A transfer record names the address [a] as its sender or as its
    recipient. *)
Definition names_address (a : string) (t : pyval) : Prop :=
  py_getitem t "from" = Ok (PyStr a) \/ py_getitem t "to" = Ok (PyStr a).

(** The dict [scan_recent_transfers] returns: that of
    [scan_block_transfers] with two more keys. *)
Record RecentScan : Type := {
  scan : ScanResult;
  latest_block : Z;
  start_block : Z
}.

Section Recent.

Variable to_base58check_address : pyval -> result string.
Variable decimal_trx : pyval -> result pyval.
Variable getblockbynum : Z -> result pyval.
(** The node's reply to [wallet/getnodeinfo]. *)
Variable getnodeinfo : result pyval.

(** [scan_recent_transfers] *)
Definition scan_recent_transfers (block_count : Z) (address : option string)
  : result RecentScan :=
  latest_block <- get_latest_block_number getnodeinfo ;;
  let start_block := Z.max (latest_block - block_count + 1) 0 in
  res <- scan_block_transfers to_base58check_address decimal_trx
           getblockbynum (get_latest_block_number getnodeinfo)
           start_block (Some latest_block) address ;;
  Ok {| scan := res; latest_block := latest_block;
        start_block := start_block |}.

End Recent.

(** What the scan of one transaction keeps true of the result: with a
    filter every transfer listed names the address and the parsed calls
    are at least the USDT transfers listed, without one they are as many. *)
Definition filtered (address : option string) (r : ScanResult) : Prop :=
  match address with
  | None => Z.of_nat (List.length (transfers_usdt r)) = successful_parse r
  | Some a =>
      Forall (names_address a) (transfers_trx r)
      /\ Forall (names_address a) (transfers_usdt r)
      /\ Z.of_nat (List.length (transfers_usdt r)) <= successful_parse r
  end.

(** ** Broadcasting *)

Module Ret.

(** [AsyncTransactionRet.__init__] on the entries of a dict: the handle
    is a copy of the dict, and its id is the dict's [txid]. *)
Definition __init__ (iterable : list (string * pyval))
  (method : option AsyncContractMethod) : result AsyncTransactionRet :=
  txid <- py_getitem (PyDict iterable) "txid" ;;
  Ok {| ret_txid := txid; ret_method := method |}.

End Ret.

Module Tron.

Section Broadcast.

Variable py_repr : pyval -> string.
Variable utf8_decode : list byte -> result string.
(** The node's reply to [wallet/broadcasttransaction]. *)
Variable broadcasttransaction : pyval -> result pyval.

(** [AsyncTron.broadcast]: the payload, and the requests sent to the
    node. *)
Definition broadcast (txn : AsyncTransaction) : result pyval * list pyval :=
  let request := to_json txn in
  (payload <- broadcasttransaction request ;;
   _handle_api_error py_repr utf8_decode payload ;;;
   Ok payload,
   [request]).

End Broadcast.

End Tron.

Section Broadcast.

Variable py_repr : pyval -> string.
Variable utf8_decode : list byte -> result string.
Variable broadcasttransaction : pyval -> result pyval.

(** [AsyncTransaction.broadcast].  A payload the classifier lets through
    is a dict. *)
Definition broadcast (self : AsyncTransaction)
  : result AsyncTransactionRet * list pyval :=
  match Tron.broadcast py_repr utf8_decode broadcasttransaction self with
  | (Ok (PyDict d), sent) => (Ret.__init__ d (_method self), sent)
  | (Ok _, sent) => (raise TypeError [], sent)
  | (Raise e, sent) => (Raise e, sent)
  end.

End Broadcast.

(** ** Account queries *)

(** The argument [token_id]: an integer or text. *)
Inductive token_arg : Type :=
| TokenInt (n : Z)
| TokenStr (s : string).

Definition token_value (t : token_arg) : pyval :=
  match t with
  | TokenInt n => PyInt n
  | TokenStr s => PyStr s
  end.

(** [str(token_id)] *)
Definition token_str (t : token_arg) : string :=
  match t with
  | TokenInt n => NilZero.string_of_int (Z.to_int n)
  | TokenStr s => s
  end.

(** [x > n] with an integer on the right. *)
Definition py_gt_int (x : pyval) (n : Z) : result bool :=
  match x with
  | PyInt z => Ok (n <? z)
  | PyBool b => Ok (n <? (if b then 1 else 0))
  | PyFloat q => Ok (Qlt_bool (inject_Z n) q)
  | _ => raise TypeError []
  end.

(** A value that can be the key of a dict. *)
Definition py_hashable (x : pyval) : bool :=
  match x with
  | PyList _ | PyDict _ => false
  | _ => true
  end.

(** A dict whose keys are any values, as the list of its assignments in
    order: [d.get(k, default)] with a string [k] is the value of the last
    assignment to that key. *)
Fixpoint balances_get (k : string) (l : list (pyval * pyval))
  (default : pyval) : pyval :=
  match l with
  | [] => default
  | (key, v) :: l' =>
      balances_get k l' (if py_eq_str key k then v else default)
  end.

(** One round of the comprehension of [get_account_asset_balances]: the
    condition, then the key, then the value. *)
Definition balance_entry (p : pyval) (acc : list (pyval * pyval))
  : result (list (pyval * pyval)) :=
  value <- py_getitem p "value" ;;
  positive <- py_gt_int value 0 ;;
  if positive then
    key <- py_getitem p "key" ;;
    value <- py_getitem p "value" ;;
    if py_hashable key then Ok (acc ++ [(key, value)])%list
    else raise TypeError []
  else Ok acc.

Section Account.

Variable to_base58check_address : pyval -> result string.
(** The node's reply to [wallet/getaccount]. *)
Variable getaccount : pyval -> result pyval.

(** [get_account] *)
Definition get_account (addr : pyval) : result pyval :=
  address <- to_base58check_address addr ;;
  ret <- getaccount
           (PyDict [("address", PyStr address); ("visible", PyBool true)]) ;;
  if py_truthy ret then Ok ret
  else raise (OtherError "AddressNotFound")
         [PyStr "account not found on-chain"].

(** [get_account_asset_balances] *)
Definition get_account_asset_balances (addr : pyval)
  : result (list (pyval * pyval)) :=
  info <- get_account addr ;;
  assets <- py_get info "assetV2" (PyDict []) ;;
  items <- py_iter assets ;;
  for_each balance_entry items [].

(** [get_account_asset_balance] *)
Definition get_account_asset_balance (addr : pyval) (token_id : token_arg)
  : result pyval :=
  n <- py_int (token_value token_id) ;;
  outside <-
    (if n <? 1000000 then Ok true
     else n <- py_int (token_value token_id) ;; Ok (1999999 <? n)) ;;
  if outside then raise ValueError [PyStr "invalid token_id range"]
  else
    balances <- get_account_asset_balances addr ;;
    Ok (balances_get (token_str token_id) balances (PyInt 0)).

End Account.

(** ** Sample collaborators and data *)

(** Stand-ins for the collaborators, used where a statement is checked on
    a concrete run. *)
Definition sample_repr (x : pyval) : string := "<value>".
Definition sample_utf8_decode (b : list byte) : result string :=
  Ok (string_of_list_byte b).
Definition sample_decode_single_string (b : list byte) : result pyval :=
  Ok (PyStr (string_of_list_byte b)).

(** A response that says [result: true] and carries error fields too. *)
Definition sample_true_with_errors : list (string * pyval) :=
  [ ("Error", PyStr "class java.lang.NullPointerException : null");
    ("code", PyStr "SIGERROR");
    ("message", PyStr "626164");
    ("result", PyBool true) ].

(** A key, the permission of an account that lists another key, and a
    validated transaction of that account that expires at 61000 ms. *)
Definition sample_key : PrivateKey :=
  {| pk_hex_address := "41f0cc5a2a84cd0f68ed1667070934542d673acbd8";
     pk_base58check_address := "TXxkrrFCrMpMZ6DVtnHD8N35DZRjkEDHDJ";
     pk_sign_msg_hash := fun _ => Ok "5c1f" |}.

Definition sample_permission : list (string * pyval) :=
  [ ("keys",
      PyList
        [ PyDict
            [ ("address", PyStr "41e552f6487585c2b58bc2c9bb4492bc1f17132cd0");
              ("weight", PyInt 1) ] ]);
    ("threshold", PyInt 1);
    ("permission_name", PyStr "owner") ].

Definition sample_raw_data : list (string * pyval) :=
  [ ("contract", PyList []);
    ("timestamp", PyInt 1000);
    ("expiration", PyInt 61000);
    ("ref_block_bytes", PyStr "1a2b");
    ("ref_block_hash", PyStr "0011223344556677") ].

Definition sample_transaction : AsyncTransaction :=
  {| _raw_data := PyDict sample_raw_data;
     _signature := PyList [PyStr "77aa"];
     _method := None;
     txid := PyStr "ab12";
     _permission := Known (PyDict sample_permission) |}.

(** The same transaction before its id is known. *)
Definition sample_unvalidated : AsyncTransaction :=
  set_txid (PyStr "") sample_transaction.

(** A node that answers every weight check with the id "cd34" and the
    sample permission. *)
Definition sample_get_sign_weight (request : pyval) : result pyval :=
  Ok (PyDict
        [ ("result", PyDict [("result", PyBool true)]);
          ("permission", PyDict sample_permission);
          ("transaction",
            PyDict [ ("result", PyDict [("result", PyBool true)]);
                     ("transaction", PyDict [("txID", PyStr "cd34")]) ]) ]).

(** A clock that stands still at 100 s, one that advances by a second at
    each reading, and a node that knows the transaction from the third
    request on. *)
Definition frozen_clock (k : nat) : float64 := float_of_Z 100.
Definition ticking_clock (k : nat) : float64 := float_of_Z (100 + Z.of_nat k).

(** A clock at a reading of the size [time.time()] returns, advancing at
    each reading by the distance of two neighbouring floats there; and
    the float written 1e-8. *)
Definition epoch_clock (k : nat) : float64 :=
  SpecFloat.binary_normalize 53 1024
    (1793746397 * 2 ^ 22 + Z.of_nat k) (-22) false.

Definition sample_tiny_timeout : number :=
  NFloat (SpecFloat.SFdiv 53 1024 (float_of_Z 1) (float_of_Z (10 ^ 8))).

Definition sample_receipt : pyval :=
  PyDict [ ("id", PyStr "ab12"); ("blockNumber", PyInt 7) ].

Definition sample_info_reply (solid : bool) (k : nat) : result pyval :=
  match k with
  | O | S O => Ok (PyDict [])
  | _ => Ok sample_receipt
  end.

Definition sample_txid : pyval :=
  PyStr "00112233445566778899aabbccddeeff00112233445566778899aabbccddeeff".

Definition sample_ret : AsyncTransactionRet :=
  {| ret_txid := sample_txid; ret_method := None |}.

(** A contract call whose receipt says that the call reverted, with a
    call result too short to hold a reason. *)
Definition sample_method : AsyncContractMethod :=
  {| parse_output := fun v => Ok v |}.

Definition sample_call_ret : AsyncTransactionRet :=
  {| ret_txid := sample_txid; ret_method := Some sample_method |}.

Definition sample_reverted : list (string * pyval) :=
  [ ("id", PyStr "ab12");
    ("result", PyStr "FAILED");
    ("resMessage", PyStr "REVERT opcode executed");
    ("receipt", PyDict [("result", PyStr "REVERT")]);
    ("contractResult", PyList [PyStr "08c379a0"]) ].

Definition sample_reverted_reply (solid : bool) (k : nat) : result pyval :=
  Ok (PyDict sample_reverted).

(** A stand-in for the address conversion: the USDT contract is known by
    its hexadecimal address, any other text of 42 characters gets a "T" in
    front, text of 34 characters that starts with "T" passes through. *)
Definition sample_to_base58check_address (x : pyval) : result string :=
  match x with
  | PyStr s =>
      if (s =? "41a614f803b6fd780986a42c78ec9c7f77e6ded13c")%string
      then Ok USDT_CONTRACT_ADDRESS
      else if (String.length s =? 42)%nat then Ok ("T" ++ s)
      else if (String.length s =? 34)%nat && prefix "T" s then Ok s
      else raise ValueError []
  | _ => raise TypeError []
  end.

(** A stand-in for [Decimal(x) / Decimal(10 ** 6)] on integers. *)
Definition sample_decimal_trx (x : pyval) : result pyval :=
  match x with
  | PyInt z => Ok (PyFloat (z # 1000000))
  | _ => raise TypeError []
  end.

(** Calls of the USDT contract: a transfer of 1000000 units, a call of
    another method, and a transfer whose call data stops after the
    recipient. *)
Definition usdt_call (txid data : string) : pyval :=
  PyDict
    [ ("txID", PyStr txid);
      ("ret", PyList [PyDict [("contractRet", PyStr "SUCCESS")]]);
      ("raw_data",
        PyDict
          [ ("contract",
              PyList
                [ PyDict
                    [ ("type", PyStr "TriggerSmartContract");
                      ("parameter",
                        PyDict
                          [ ("value",
                              PyDict
                                [ ("owner_address",
                                    PyStr "TXxkrrFCrMpMZ6DVtnHD8N35DZRjkEDHDJ");
                                  ("contract_address",
                                    PyStr USDT_CONTRACT_ADDRESS);
                                  ("data", PyStr data) ]) ]) ] ]) ]) ].

Definition sample_transfer_data : string :=
  "a9059cbb"
  ++ "000000000000000000000000" ++ "e552f6487585c2b58bc2c9bb4492bc1f17132cd0"
  ++ "00000000000000000000000000000000000000000000000000000000000f4240".

Definition sample_truncated_data : string :=
  "a9059cbb"
  ++ "000000000000000000000000" ++ "e552f6487585c2b58bc2c9bb4492bc1f17132cd0".

Definition sample_transfer_tx : pyval := usdt_call "aa01" sample_transfer_data.
Definition sample_other_tx : pyval := usdt_call "aa02" "deadbeef".
Definition sample_truncated_tx : pyval :=
  usdt_call "aa03" sample_truncated_data.

(** A call of the USDT contract that comes without a transaction id. *)
Definition sample_anonymous_tx : pyval :=
  match sample_other_tx with
  | PyDict (_ :: fields) => PyDict fields
  | other => other
  end.

(** A transfer whose amount characters are a sign and a digit, and a
    transfer that decodes but comes without a transaction id. *)
Definition sample_signed_amount_data : string :=
  "a9059cbb"
  ++ "000000000000000000000000" ++ "e552f6487585c2b58bc2c9bb4492bc1f17132cd0"
  ++ "-f".

Definition sample_signed_amount_tx : pyval :=
  usdt_call "aa04" sample_signed_amount_data.

Definition sample_nameless_tx : pyval :=
  match sample_transfer_tx with
  | PyDict (_ :: fields) => PyDict fields
  | other => other
  end.

(** A transfer of 5 TRX. *)
Definition sample_trx_tx : pyval :=
  PyDict
    [ ("txID", PyStr "aa00");
      ("raw_data",
        PyDict
          [ ("contract",
              PyList
                [ PyDict
                    [ ("type", PyStr "TransferContract");
                      ("parameter",
                        PyDict
                          [ ("value",
                              PyDict
                                [ ("owner_address",
                                    PyStr "TXxkrrFCrMpMZ6DVtnHD8N35DZRjkEDHDJ");
                                  ("to_address",
                                    PyStr "TWsm8HtU2A5eEzoT8ev8yaoFjHsXLLrckb");
                                  ("amount", PyInt 5000000) ]) ]) ] ]) ]) ].

(** A chain with the blocks 100 and 101. *)
Definition sample_block (timestamp : Z) (txs : list pyval) : pyval :=
  PyDict
    [ ("blockID", PyStr "00000000000000640011223344556677");
      ("block_header",
        PyDict
          [ ("raw_data",
              PyDict
                [ ("timestamp", PyInt timestamp);
                  ("witness_address",
                    PyStr "TWsm8HtU2A5eEzoT8ev8yaoFjHsXLLrckb") ]) ]);
      ("transactions", PyList txs) ].

Definition sample_getblockbynum (num : Z) : result pyval :=
  if num =? 100 then
    Ok (sample_block 1700000000000 [sample_trx_tx; sample_transfer_tx])
  else if num =? 101 then
    Ok (sample_block 1700000003000 [sample_other_tx; sample_truncated_tx])
  else Ok (PyDict []).

(** The same chain when the first transaction of block 100 is the
    transfer without an id. *)
Definition sample_nameless_getblockbynum (num : Z) : result pyval :=
  if num =? 100 then
    Ok (sample_block 1700000000000 [sample_nameless_tx; sample_transfer_tx])
  else sample_getblockbynum num.

(** A response whose failure sits in a nested [result]. *)
Definition sample_nested_failure : list (string * pyval) :=
  [ ("txid", PyStr "ab12");
    ("result",
      PyDict [ ("code", PyStr "TAPOS_ERROR"); ("message", PyStr "626164") ]) ].

(** A handle whose transaction id is too short. *)
Definition sample_short_ret : AsyncTransactionRet :=
  {| ret_txid := PyStr "ab12"; ret_method := None |}.

(** A second key, and a permission that lists both sample keys. *)
Definition sample_key_b : PrivateKey :=
  {| pk_hex_address := "41e552f6487585c2b58bc2c9bb4492bc1f17132cd0";
     pk_base58check_address := "TWsm8HtU2A5eEzoT8ev8yaoFjHsXLLrckb";
     pk_sign_msg_hash := fun _ => Ok "9d0e" |}.

Definition sample_permission_both : list (string * pyval) :=
  [ ("keys",
      PyList
        [ PyDict
            [ ("address", PyStr "41e552f6487585c2b58bc2c9bb4492bc1f17132cd0");
              ("weight", PyInt 1) ];
          PyDict
            [ ("address", PyStr "41f0cc5a2a84cd0f68ed1667070934542d673acbd8");
              ("weight", PyInt 1) ] ]);
    ("threshold", PyInt 2) ].

Definition sample_multisig : AsyncTransaction :=
  set_permission (Known (PyDict sample_permission_both)) sample_transaction.

(** What a node says about its latest blocks, and a node whose weight
    check comes back empty. *)
Definition sample_block_id : string :=
  "0000000000000040aabbccddeeff00112233445566778899aabbccddeeff0011".

Definition sample_nodeinfo : result pyval :=
  Ok (PyDict
        [ ("block", PyStr ("Num:66,ID:" ++ sample_block_id));
          ("solidityBlock", PyStr ("Num:64,ID:" ++ sample_block_id)) ]).

Definition sample_nowblock : result pyval :=
  Ok (PyDict [("blockID", PyStr sample_block_id)]).

Definition sample_no_nodeinfo : result pyval :=
  raise (OtherError "ConnectError") [].

Definition sample_empty_sign_weight (request : pyval) : result pyval :=
  Ok (PyDict []).

(** The client's default configuration, a stand-in for
    [keys.to_hex_address] that takes addresses already in hexadecimal
    form, and a builder for a call of a contract with a chain of calls of
    its methods. *)
Definition sample_conf : pyval :=
  PyDict [("fee_limit", PyInt 10000000); ("timeout", PyFloat 10)].

Definition sample_to_hex_address (x : pyval) : result string :=
  match x with
  | PyStr s =>
      if (String.length s =? 42)%nat && prefix "41" s then Ok s
      else raise ValueError []
  | _ => raise TypeError []
  end.

Definition sample_hex_a : string := "41a614f803b6fd780986a42c78ec9c7f77e6ded13d".
Definition sample_hex_b : string := "41b614f803b6fd780986a42c78ec9c7f77e6ded13e".
Definition sample_hex_c : string := "41c614f803b6fd780986a42c78ec9c7f77e6ded13f".

Definition sample_call_inner : pyval :=
  PyDict
    [ ("parameter",
        PyDict
          [ ("value",
              PyDict [ ("owner_address", PyStr sample_hex_a);
                       ("contract_address", PyStr sample_hex_b);
                       ("data", PyStr "a9059cbb") ]);
            ("type_url",
              PyStr "type.googleapis.com/protocol.TriggerSmartContract") ]);
      ("type", PyStr "TriggerSmartContract") ].

Definition sample_chain : list builder_call :=
  [ WithOwner (PyStr sample_hex_c);
    Memo (MemoStr "hi");
    Expiration 2000 5000;
    FeeLimit (PyInt 5000000);
    PermissionId 2 ].

Definition value_or {A : Type} (r : result A) (default : A) : A :=
  match r with
  | Ok a => a
  | Raise _ => default
  end.

Definition sample_builder0 : Builder.AsyncTransactionBuilder :=
  Eval vm_compute in
    value_or (Builder.__init__ 1000 1001 sample_conf sample_call_inner None)
      {| Builder._raw_data := PyNone; Builder._method := None |}.

Definition sample_builder : Builder.AsyncTransactionBuilder :=
  Eval vm_compute in
    value_or (chain sample_to_hex_address sample_chain sample_builder0)
      sample_builder0.

Definition sample_build
  : result AsyncTransaction * Builder.AsyncTransactionBuilder * list pyval :=
  Eval vm_compute in
    Builder.build sample_repr sample_utf8_decode sample_get_sign_weight
      sample_nodeinfo sample_no_nodeinfo sample_builder.

Definition sample_built : AsyncTransaction :=
  Eval vm_compute in value_or (fst (fst sample_build)) sample_transaction.

(** The scan of the blocks 100 and 101 (the latest), for every address
    and for the recipient of the TRX transfer. *)
Definition sample_scan : ScanResult :=
  Eval vm_compute in
    value_or
      (scan_block_transfers sample_to_base58check_address sample_decimal_trx
         sample_getblockbynum (Ok 101) 100 None None)
      empty_result.

Definition sample_recipient : string := "TWsm8HtU2A5eEzoT8ev8yaoFjHsXLLrckb".

Definition sample_scan_filtered : ScanResult :=
  Eval vm_compute in
    value_or
      (scan_block_transfers sample_to_base58check_address sample_decimal_trx
         sample_getblockbynum (Ok 101) 100 (Some 101) (Some sample_recipient))
      empty_result.

(** A node whose latest block is 101. *)
Definition sample_nodeinfo_101 : result pyval :=
  Ok (PyDict
        [ ("block", PyStr ("Num:101,ID:" ++ sample_block_id));
          ("solidityBlock", PyStr ("Num:99,ID:" ++ sample_block_id)) ]).

Definition sample_recent : RecentScan :=
  Eval vm_compute in
    value_or
      (scan_recent_transfers sample_to_base58check_address sample_decimal_trx
         sample_getblockbynum sample_nodeinfo_101 2 None)
      {| scan := empty_result; latest_block := 0; start_block := 0 |}.

(** The built transaction signed at 1500 ms, a node that accepts what is
    broadcast, and the outcome of the broadcast. *)
Definition sample_signed : result unit * AsyncTransaction :=
  Eval vm_compute in sign sample_repr 1500 sample_key_b sample_built.

Definition sample_broadcasttransaction (request : pyval) : result pyval :=
  Ok (PyDict [("result", PyBool true); ("txid", PyStr "cd34")]).

Definition sample_broadcast : result AsyncTransactionRet * list pyval :=
  Eval vm_compute in
    broadcast sample_repr sample_utf8_decode sample_broadcasttransaction
      (snd sample_signed).

(** A transfer as the builder makes it, and as a block holds it. *)
Definition sample_transfer_build
  : result AsyncTransaction * Builder.AsyncTransactionBuilder * list pyval :=
  Eval vm_compute in
    Builder.build sample_repr sample_utf8_decode sample_get_sign_weight
      sample_nodeinfo sample_no_nodeinfo
      (value_or
         (Trx.transfer sample_to_hex_address 1000 1001 sample_conf
            (PyStr sample_hex_a) (PyStr sample_hex_b) (PyInt 5000000))
         sample_builder0).

Definition sample_transfer_built : AsyncTransaction :=
  Eval vm_compute in
    value_or (fst (fst sample_transfer_build)) sample_transaction.

Definition sample_mined_transfer : list (string * pyval) :=
  [ ("ret", PyList [PyDict [("contractRet", PyStr "SUCCESS")]]);
    ("txID", PyStr "cd34");
    ("raw_data", _raw_data sample_transfer_built) ].

(** An account that holds 7 of the token 1000001 and none of the token
    1000002. *)
Definition sample_getaccount (request : pyval) : result pyval :=
  Ok (PyDict
        [ ("address", PyStr sample_recipient);
          ("assetV2",
            PyList
              [ PyDict [("key", PyStr "1000001"); ("value", PyInt 7)];
                PyDict [("key", PyStr "1000002"); ("value", PyInt 0)] ]) ]).

(** * Properties *)

(** ** Dicts *)

Lemma py_get_dict (d : list (string * pyval)) (k : string) (default : pyval) :
  py_get (PyDict d) k default = Ok (dict_get_or k d default).
Proof. unfold py_get, dict_get_or. destruct (dict_lookup k d); reflexivity. Qed.

(** ** The shared error classifier *)

Section ClassifierFacts.

Variable py_repr : pyval -> string.
Variable utf8_decode : list byte -> result string.

Local Abbreviation handle := (_handle_api_error py_repr utf8_decode).

Lemma error_message_dict (d : list (string * pyval)) :
  error_message py_repr utf8_decode (PyDict d) =
  Ok (message_of py_repr utf8_decode d).
Proof.
  unfold error_message, message_of, try_except.
  destruct (message <- py_getitem (PyDict d) "message" ;; _); [reflexivity|].
  apply py_get_dict.
Qed.

(** One step of the classifier on a dict, with the nested search read as
    a lookup. *)
Lemma _handle_api_error_dict (d : list (string * pyval)) :
  handle (PyDict d) =
    if py_is_True (dict_get_or "result" d PyNone) then Ok tt
    else
      match dict_lookup "Error" d with
      | Some err => raise ApiError [err]
      | None =>
          match dict_lookup "code" d with
          | Some code =>
              raise_for_code code (message_of py_repr utf8_decode d)
          | None =>
              match dict_lookup "result" d with
              | Some (PyDict d') => handle (PyDict d')
              | _ => Ok tt
              end
          end
      end.
Proof.
  cbn [_handle_api_error].
  rewrite py_get_dict. cbn [bind].
  destruct (py_is_True (dict_get_or "result" d PyNone)); [reflexivity|].
  cbn [py_contains bind py_getitem].
  destruct (dict_lookup "Error" d) as [err|]; [reflexivity|].
  destruct (dict_lookup "code" d) as [code|].
  - rewrite error_message_dict. reflexivity.
  - clear. induction d as [|[k v] d IH]; [reflexivity|].
    cbn [dict_lookup].
    destruct (k =? "result")%string; [|exact IH].
    destruct v; reflexivity.
Qed.

Lemma raise_for_code_kind (A : Type) (code msg : pyval) :
  exists args,
    @raise_for_code A code msg
    = Raise (Exn (error_kind_of_code code) (msg :: args)).
Proof.
  unfold raise_for_code, raise.
  destruct (py_eq_str code "SIGERROR") eqn:E1.
  { destruct code; try discriminate. apply String.eqb_eq in E1; subst.
    eexists; reflexivity. }
  destruct (py_eq_str code "TAPOS_ERROR") eqn:E2.
  { destruct code; try discriminate. apply String.eqb_eq in E2; subst.
    eexists; reflexivity. }
  destruct (py_eq_str code "TRANSACTION_EXPIRATION_ERROR") eqn:E3.
  { destruct code; try discriminate. apply String.eqb_eq in E3; subst.
    eexists; reflexivity. }
  destruct (py_eq_str code "TOO_BIG_TRANSACTION_ERROR") eqn:E4.
  { destruct code; try discriminate. apply String.eqb_eq in E4; subst.
    eexists; reflexivity. }
  destruct (py_eq_str code "CONTRACT_VALIDATE_ERROR") eqn:E5.
  { destruct code; try discriminate. apply String.eqb_eq in E5; subst.
    eexists; reflexivity. }
  cbn [orb].
  assert (K : error_kind_of_code code = UnknownError).
  { destruct code as [| | | |s| |]; try reflexivity. cbn in E1, E2, E3, E4, E5.
    unfold error_kind_of_code.
    repeat match goal with
           | |- context [match ?x with _ => _ end] =>
               first [ is_var x; destruct x | destruct x eqn:? ]
           end; try reflexivity; discriminate. }
  rewrite K. eexists; reflexivity.
Qed.

(** C5 (as amended).  On a response that is a dict the classifier returns
    when [result] is [True]; otherwise it raises ApiError when there is an
    [Error] field; otherwise it raises the one kind the table gives for
    the [code] field; otherwise it goes into a [result] that is a dict;
    otherwise (also when [result] is [False]) it returns. *)
Theorem classifier_outcome (d : list (string * pyval)) :
  let outcome := handle (PyDict d) in
  (dict_lookup "result" d = Some (PyBool true) -> outcome = Ok tt)
  /\ (dict_lookup "result" d <> Some (PyBool true) ->
      (forall err, dict_lookup "Error" d = Some err ->
                   outcome = raise ApiError [err])
      /\ (dict_lookup "Error" d = None ->
          (forall code, dict_lookup "code" d = Some code ->
             exists args,
               outcome
               = Raise (Exn (error_kind_of_code code)
                            (message_of py_repr utf8_decode d :: args)))
          /\ (dict_lookup "code" d = None ->
              (forall d', dict_lookup "result" d = Some (PyDict d') ->
                          outcome = handle (PyDict d'))
              /\ ((forall d', dict_lookup "result" d <> Some (PyDict d')) ->
                  outcome = Ok tt)))).
Proof.
  intros outcome. subst outcome. rewrite _handle_api_error_dict.
  unfold dict_get_or. split.
  - intros ->. reflexivity.
  - intros Hres.
    assert (Hnot : py_is_True
                     match dict_lookup "result" d with
                     | Some v => v
                     | None => PyNone
                     end = false).
    { destruct (dict_lookup "result" d) as [[| [|] | | | | |]|];
        try reflexivity. congruence. }
    rewrite Hnot. split.
    + intros err ->. reflexivity.
    + intros ->. split.
      * intros code ->. apply raise_for_code_kind.
      * intros ->. split.
        -- intros d' ->. reflexivity.
        -- intros Hnd. destruct (dict_lookup "result" d) as [[]|];
             try reflexivity. exfalso. eapply Hnd. reflexivity.
Qed.

(** C10.  A response whose [result] is [True] passes the classifier,
    whatever else it carries. *)
Theorem result_true_takes_precedence (d : list (string * pyval)) :
  dict_lookup "result" d = Some (PyBool true) ->
  handle (PyDict d) = Ok tt.
Proof.
  intros H. rewrite _handle_api_error_dict. unfold dict_get_or.
  rewrite H. reflexivity.
Qed.

End ClassifierFacts.

(** C5, as stated, fails: a response with an explicit [result: false] and
    no [Error] or [code] field passes the classifier, and so does one with
    [result: true] that has both fields. *)
Lemma classifier_accepts_result_false :
  _handle_api_error sample_repr sample_utf8_decode
    (PyDict [("result", PyBool false)]) = Ok tt
  /\ _handle_api_error sample_repr sample_utf8_decode
       (PyDict sample_true_with_errors) = Ok tt.
Proof. split; reflexivity. Qed.

Lemma result_true_takes_precedence_witness :
  _handle_api_error sample_repr sample_utf8_decode
    (PyDict sample_true_with_errors) = Ok tt.
Proof. apply result_true_takes_precedence. reflexivity. Defined.

(** ** Signing *)

Section SignFacts.

Variable py_repr : pyval -> string.

Local Abbreviation sign' := (sign py_repr).


(** A call of [sign] that raises leaves the transaction as it was. *)
Lemma sign_failure_keeps_transaction (now : Z) (key : PrivateKey)
  (self self' : AsyncTransaction) (e : exn) :
  sign' now key self = (Raise e, self') -> self' = self.
Proof.
  unfold sign.
  destruct (py_assert (py_truthy (txid self)) "txID not calculated" ;;; _).
  - destruct (_signature self); intros H; inversion H; reflexivity.
  - intros H; inversion H; reflexivity.
Qed.



End SignFacts.





(** ** Serialization *)

Section RoundTripFacts.

Variable py_repr : pyval -> string.
Variable utf8_decode : list byte -> result string.
Variable get_sign_weight : pyval -> result pyval.

Local Abbreviation from_json' := (from_json py_repr utf8_decode get_sign_weight).

(** C4 (as amended).  For a transaction that has an id and a fetched
    permission, whose raw data is a dict without the keys [__init__] looks
    for and whose signatures are a list, [from_json (to_json tx)] sends
    nothing to the node and returns a transaction with the same id, raw
    data, signatures and permission. *)
Theorem from_json_to_json (self : AsyncTransaction)
  (rd : list (string * pyval)) (sigs : list pyval) (p : pyval) :
  _raw_data self = PyDict rd ->
  dict_lookup "raw_data" rd = None ->
  dict_lookup "signature" rd = None ->
  dict_lookup "txID" rd = None ->
  dict_lookup "permission" rd = None ->
  _signature self = PyList sigs ->
  _permission self = Known p ->
  py_truthy (txid self) = true ->
  from_json' (to_json self)
  = (Ok {| _raw_data := _raw_data self; _signature := _signature self;
           _method := None; txid := txid self;
           _permission := _permission self |}, []).
Proof.
  intros Hraw H1 H2 H3 H4 Hsig Hperm Hid.
  unfold from_json, to_json. cbn [py_getitem dict_lookup String.eqb Ascii.eqb
    Bool.eqb bind].
  rewrite Hperm, Hraw, Hsig.
  unfold create, __init__. rewrite !py_get_dict. unfold dict_get_or.
  rewrite H1, H2, H3, H4. cbn [bind].
  assert (Hs : (if py_truthy (PyList sigs) then PyList sigs else PyList [])
               = PyList sigs) by (destruct sigs; reflexivity).
  rewrite Hs. cbn [txid _permission permission_is_EMPTY].
  rewrite Hid. reflexivity.
Qed.

End RoundTripFacts.

(** C4, as stated, fails: a transaction without an id is validated again
    when it is read back, so the node is asked and the id changes; and the
    sentinel [EMPTY] is written as [None], which is what comes back. *)
Lemma from_json_revalidates_without_txid :
  from_json sample_repr sample_utf8_decode sample_get_sign_weight
    (to_json sample_unvalidated)
  = (Ok (set_txid (PyStr "cd34") sample_transaction),
     [to_json sample_unvalidated])
  /\ from_json sample_repr sample_utf8_decode sample_get_sign_weight
       (to_json (set_permission EMPTY sample_transaction))
     = (Ok (set_permission (Known PyNone) sample_transaction), []).
Proof. split; reflexivity. Qed.

Lemma from_json_to_json_witness :
  from_json sample_repr sample_utf8_decode sample_get_sign_weight
    (to_json sample_transaction)
  = (Ok sample_transaction, []).
Proof.
  exact (from_json_to_json sample_repr sample_utf8_decode
           sample_get_sign_weight sample_transaction sample_raw_data
           [PyStr "77aa"] (PyDict sample_permission)
           eq_refl eq_refl eq_refl eq_refl eq_refl eq_refl eq_refl eq_refl).
Defined.

(** ** Waiting for a receipt *)

(** Adding a zero leaves the outcome of every comparison as it was. *)
Lemma float_lt_plus_zero (c t end_time : float64) (x : number) :
  is_zero x = true ->
  float_plus t x = Ok end_time ->
  float_lt c end_time = float_lt c t.
Proof.
  intros Hzero Hplus.
  assert (Hsum : exists s,
            end_time = SpecFloat.SFadd 53 1024 t (SpecFloat.S754_zero s)).
  { destruct x as [[| |]|[| | |]]; try discriminate Hzero;
      cbn in Hplus; injection Hplus as <-; eexists; reflexivity. }
  destruct Hsum as (s & ->).
  destruct t as [[|]| | |]; destruct s; destruct c as [[|]|[|]| |[|]];
    reflexivity.
Qed.

Section WaitFacts.

Variable py_repr : pyval -> string.
Variable utf8_decode : list byte -> result string.
Variable clock : nat -> float64.
Variable transaction_info_reply : bool -> nat -> result pyval.

Local Abbreviation info :=
  (get_transaction_info py_repr utf8_decode transaction_info_reply).
Local Abbreviation loop :=
  (wait_loop py_repr utf8_decode clock transaction_info_reply).
Local Abbreviation rounds :=
  (retries py_repr utf8_decode clock transaction_info_reply).
Local Abbreviation loop_end' :=
  (loop_end py_repr utf8_decode clock transaction_info_reply).
Local Abbreviation not_found_round' :=
  (not_found_round py_repr utf8_decode clock transaction_info_reply).
Local Abbreviation wait' :=
  (wait py_repr utf8_decode clock transaction_info_reply).

Lemma wait_loop_rounds (solid : bool) (txn_id : pyval) (interval : Q)
  (end_time : float64) (fuel k : nat) (events : list event)
  (outcome : option (result pyval)) :
  loop fuel solid txn_id interval end_time k = (events, outcome) ->
  exists (n : nat) (last : list event),
    (n <= fuel)%nat
    /\ events = (rounds solid txn_id interval k n ++ last)%list
    /\ (forall j, (k <= j < k + n)%nat ->
                  not_found_round' solid txn_id end_time j)
    /\ (outcome = None /\ n = fuel /\ last = []
        \/ loop_end' solid txn_id end_time (k + n) last outcome).
Proof.
  revert k events outcome.
  induction fuel as [|fuel IH]; intros k events outcome; cbn [wait_loop].
  - intros H. inversion H; subst. exists O, [].
    split; [lia|]. split; [reflexivity|]. split; [intros j Hj; lia|].
    left. auto.
  - assert (Hstop : forall last,
              loop_end' solid txn_id end_time k last outcome ->
              events = last ->
              exists (n : nat) (last : list event),
                (n <= S fuel)%nat
                /\ events = (rounds solid txn_id interval k n ++ last)%list
                /\ (forall j, (k <= j < k + n)%nat ->
                              not_found_round' solid txn_id end_time j)
                /\ (outcome = None /\ n = S fuel /\ last = []
                    \/ loop_end' solid txn_id end_time (k + n) last outcome)).
    { intros last Hend ->. exists O, last.
      split; [lia|]. split; [reflexivity|]. split; [intros j Hj; lia|].
      right. rewrite Nat.add_0_r. exact Hend. }
    destruct (float_lt (clock (S k)) end_time) eqn:Hlt.
    + destruct (info solid k txn_id) as [receipt|e] eqn:Hinfo.
      * intros H. inversion H; subst. eapply Hstop; [|reflexivity].
        now apply end_receipt.
      * destruct (is_TransactionNotFound e) eqn:Hnf.
        -- destruct (loop fuel solid txn_id interval end_time (S k))
             as [events' outcome'] eqn:Hrec.
           intros H. inversion H; subst. clear Hstop.
           destruct (IH _ _ _ Hrec) as (n & last & Hn & Hev & Hrounds & Hend).
           exists (S n), last. split; [lia|]. split.
           { unfold retries. cbn [seq flat_map]. rewrite Hinfo.
             cbn [app]. do 3 f_equal. exact Hev. }
           split.
           { intros j Hj. destruct (Nat.eq_dec j k) as [->|Hne].
             - split; [exact Hlt|]. exists e. split; assumption.
             - apply Hrounds. lia. }
           destruct Hend as [(-> & -> & ->)|Hend]; [left; auto|].
           right. replace (k + S n)%nat with (S k + n)%nat by lia. exact Hend.
        -- intros H. inversion H; subst. eapply Hstop; [|reflexivity].
           now apply end_error.
    + intros H. inversion H; subst. eapply Hstop; [|reflexivity].
      now apply end_deadline.
Qed.

(** What [wait] does once it has its deadline. *)
Lemma wait_with_deadline (fuel : nat) (timeout : number) (interval : Q)
  (solid : bool) (self : AsyncTransactionRet) (end_time : float64) :
  float_plus (clock O) timeout = Ok end_time ->
  wait' fuel timeout interval solid self
  = (Clock (clock O)
     :: fst (loop fuel solid (ret_txid self) interval end_time O),
     snd (loop fuel solid (ret_txid self) interval end_time O)).
Proof.
  intros H. unfold wait. rewrite H.
  destruct (loop fuel solid (ret_txid self) interval end_time O).
  reflexivity.
Qed.

(** C3 (as amended).  [wait] reads the clock and adds the timeout to the
    reading, once and in floating point; when that addition raises (an
    int beyond the floats) so does [wait], without a poll.  With the sum
    [end_time] it runs rounds of "read the clock, poll, sleep" for as long
    as the reading is before [end_time] and the poll raises
    TransactionNotFound.  It ends at the first reading that is not before
    [end_time], raising TransactionNotFound without a poll; or at the
    first poll that returns a receipt, which it returns; or at the first
    poll that raises another error, which it lets through.  So it ends as
    soon as a reading is not before [end_time]; it polls at least once
    exactly when the first reading in the loop is before [end_time]; and
    with a timeout of zero that reading is compared with the first one,
    so that on a clock that does not go back there is no poll. *)
Theorem wait_rounds (fuel : nat) (timeout : number) (interval : Q)
  (solid : bool) (self : AsyncTransactionRet) (events : list event)
  (outcome : option (result pyval)) :
  wait' fuel timeout interval solid self = (events, outcome) ->
  (forall e, float_plus (clock O) timeout = Raise e ->
             events = [Clock (clock O)] /\ outcome = Some (Raise e))
  /\ forall end_time, float_plus (clock O) timeout = Ok end_time ->
       (exists (n : nat) (last : list event),
          (n <= fuel)%nat
          /\ events
             = (Clock (clock O)
                :: rounds solid (ret_txid self) interval O n ++ last)%list
          /\ (forall j, (j < n)%nat ->
                        not_found_round' solid (ret_txid self) end_time j)
          /\ (outcome = None /\ n = fuel /\ last = []
              \/ loop_end' solid (ret_txid self) end_time n last outcome))
       /\ (forall j, (j < fuel)%nat ->
                     float_lt (clock (S j)) end_time = false ->
                     outcome <> None)
       /\ (fuel <> O -> float_lt (clock 1%nat) end_time = false ->
           events = [Clock (clock O); Clock (clock 1%nat)]
           /\ outcome = Some (Raise timeout_error))
       /\ (fuel <> O -> float_lt (clock 1%nat) end_time = true ->
           exists rest,
             events
             = Clock (clock O) :: Clock (clock 1%nat)
               :: Poll (info solid O (ret_txid self)) :: rest)
       /\ (fuel <> O -> is_zero timeout = true ->
           float_lt (clock 1%nat) (clock O) = false ->
           events = [Clock (clock O); Clock (clock 1%nat)]
           /\ outcome = Some (Raise timeout_error)).
Proof.
  intros H. split.
  { intros e He. unfold wait in H. rewrite He in H.
    injection H as <- <-. split; reflexivity. }
  intros end_time Hsum.
  rewrite (wait_with_deadline _ _ _ _ _ _ Hsum) in H.
  destruct (loop fuel solid (ret_txid self) interval end_time O)
    as [events' outcome'] eqn:Hloop.
  cbn [fst snd] in H. injection H as <- <-.
  destruct (wait_loop_rounds _ _ _ _ _ _ _ _ Hloop)
    as (n & last & Hn & Hev & Hrounds & Hend).
  cbn [Nat.add] in Hend.
  assert (Hnone : fuel <> O -> float_lt (clock 1%nat) end_time = false ->
            (Clock (clock O) :: events')
            = [Clock (clock O); Clock (clock 1%nat)]
            /\ outcome' = Some (Raise timeout_error)).
  { intros Hfuel Hstop. destruct fuel as [|fuel]; [congruence|].
    cbn [wait_loop] in Hloop. rewrite Hstop in Hloop.
    injection Hloop as <- <-. split; reflexivity. }
  split; [|split; [|split; [|split]]].
  - exists n, last. split; [exact Hn|]. split; [now rewrite Hev|].
    split; [|exact Hend]. intros j Hj. apply Hrounds. lia.
  - intros j Hj Hstop ->.
    destruct Hend as [(_ & -> & _)|Hend]; [|inversion Hend].
    destruct (Hrounds j ltac:(lia)) as [Hlt _].
    rewrite Hlt in Hstop. discriminate Hstop.
  - exact Hnone.
  - intros Hfuel Hlt. destruct fuel as [|fuel]; [congruence|].
    cbn [wait_loop] in Hloop. rewrite Hlt in Hloop.
    destruct (info solid O (ret_txid self)) as [receipt|e].
    + injection Hloop as <- <-. eexists; reflexivity.
    + destruct (is_TransactionNotFound e).
      * destruct (loop fuel solid (ret_txid self) interval end_time 1%nat).
        injection Hloop as <- <-. eexists; reflexivity.
      * injection Hloop as <- <-. eexists; reflexivity.
  - intros Hfuel Hzero Hback. apply Hnone; [exact Hfuel|].
    rewrite (float_lt_plus_zero _ _ _ _ Hzero Hsum). exact Hback.
Qed.

End WaitFacts.

(** C3, as stated, fails: [wait] raises without a poll with a timeout of
    zero, with a timeout below zero, and with the timeout 1e-8 at a
    reading of the size [time.time()] returns, where the addition rounds
    the sum back to the reading. *)
Lemma wait_zero_timeout_never_polls :
  wait sample_repr sample_utf8_decode frozen_clock sample_info_reply
    5 (NInt 0) 1.6 false sample_ret
  = ([Clock (float_of_Z 100); Clock (float_of_Z 100)],
     Some (Raise timeout_error))
  /\ wait sample_repr sample_utf8_decode ticking_clock sample_info_reply
       5 (NInt (-3)) 1.6 false sample_ret
     = ([Clock (float_of_Z 100); Clock (float_of_Z 101)],
        Some (Raise timeout_error))
  /\ float_plus (epoch_clock O) sample_tiny_timeout = Ok (epoch_clock O)
  /\ wait sample_repr sample_utf8_decode epoch_clock sample_info_reply
       5 sample_tiny_timeout 1.6 false sample_ret
     = ([Clock (epoch_clock O); Clock (epoch_clock 1%nat)],
        Some (Raise timeout_error)).
Proof. repeat split. Qed.

Lemma wait_rounds_witness :
  exists (n : nat) (last : list event),
    (n <= 5)%nat
    /\ [ Clock (float_of_Z 100);
         Clock (float_of_Z 101); Poll (raise TransactionNotFound []);
         Sleep 1.6;
         Clock (float_of_Z 102); Poll (raise TransactionNotFound []);
         Sleep 1.6;
         Clock (float_of_Z 103); Poll (Ok sample_receipt) ]
       = (Clock (ticking_clock O)
          :: retries sample_repr sample_utf8_decode ticking_clock
               sample_info_reply false sample_txid 1.6 O n
             ++ last)%list
    /\ (forall j, (j < n)%nat ->
                  not_found_round sample_repr sample_utf8_decode ticking_clock
                    sample_info_reply false sample_txid (float_of_Z 130) j)
    /\ (Some (Ok sample_receipt) = None /\ n = 5%nat /\ last = []
        \/ loop_end sample_repr sample_utf8_decode ticking_clock
             sample_info_reply false sample_txid (float_of_Z 130)
             n last (Some (Ok sample_receipt))).
Proof.
  exact (proj1 (proj2 (wait_rounds sample_repr sample_utf8_decode
                         ticking_clock sample_info_reply 5 (NInt 30)
                         1.6 false sample_ret _ _ eq_refl)
                  (float_of_Z 130) eq_refl)).
Defined.

(** ** Reading the receipt of a contract call *)

Section ResultFacts.

Variable py_repr : pyval -> string.
Variable utf8_decode : list byte -> result string.
Variable decode_single_string : list byte -> result pyval.
Variable clock : nat -> float64.
Variable transaction_info_reply : bool -> nat -> result pyval.

Local Abbreviation wait' :=
  (wait py_repr utf8_decode clock transaction_info_reply).
Local Abbreviation result' :=
  (result_ py_repr utf8_decode decode_single_string clock
     transaction_info_reply).
Local Abbreviation reason :=
  (revert_reason py_repr decode_single_string).

(** The [try] block asks for a decoding only of a first entry longer than
    72, and changes the message only when the decoding succeeds. *)
Lemma revert_reason_cases (msg : pyval) (rc : list (string * pyval)) :
  (reason msg (PyDict rc) = ([], msg)
   /\ forall cr first n,
        dict_lookup "contractResult" rc = Some cr ->
        py_getitem0 cr = Ok first -> py_len first = Ok n ->
        forall raw, 72 < n -> bytes_fromhex first = Ok raw -> False)
  \/ (exists cr first n raw,
        dict_lookup "contractResult" rc = Some cr
        /\ py_getitem0 cr = Ok first /\ py_len first = Ok n /\ 72 < n
        /\ bytes_fromhex first = Ok raw
        /\ (reason msg (PyDict rc) = ([skipn 36 raw], msg)
            /\ (exists e, decode_single_string (skipn 36 raw) = Raise e)
            \/ exists text,
                 decode_single_string (skipn 36 raw) = Ok text
                 /\ reason msg (PyDict rc)
                    = ([skipn 36 raw],
                       PyStr (py_str py_repr msg ++ ": "
                              ++ py_str py_repr text)))).
Proof.
  unfold revert_reason. rewrite py_get_dict. unfold dict_get_or.
  cbn [bind].
  destruct (dict_lookup "contractResult" rc) as [cr|];
    [|left; split; [reflexivity | discriminate]].
  destruct (py_truthy cr) eqn:Htruthy.
  2:{ left. split; [reflexivity|].
      intros cr' first n [= <-] H0. exfalso.
      destruct cr as [| | | |[|]|[|]|]; cbn in H0, Htruthy; discriminate. }
  destruct (py_getitem0 cr) as [first|e] eqn:Hfirst; cbn [bind];
    [|left; split; [reflexivity | intros ? ? ? [= <-]; congruence]].
  destruct (py_len first) as [n|e] eqn:Hn; cbn [bind];
    [|left; split; [reflexivity | intros ? ? ? [= <-]; congruence]].
  change ((4 + 32) * 2) with 72.
  destruct (72 <? n) eqn:Hlen.
  2:{ left. split; [reflexivity|].
      intros ? ? ? [= <-] Ha Hb raw Hlt.
      apply Z.ltb_ge in Hlen. assert (n0 = n) by congruence. lia. }
  apply Z.ltb_lt in Hlen.
  destruct (bytes_fromhex first) as [raw|e] eqn:Hraw; cbn [bind].
  2:{ left. split; [reflexivity|].
      intros ? ? ? [= <-] Ha Hb raw' _. congruence. }
  right. exists cr, first, n, raw. repeat (split; [reflexivity || assumption|]).
  change (4 + 32)%nat with 36%nat.
  destruct (decode_single_string (skipn 36 raw)) as [text|e].
  - right. exists text. split; reflexivity.
  - left. split; [reflexivity | eexists; reflexivity].
Qed.

(** C6.  On a receipt with [result == "FAILED"] and
    [receipt.result == "REVERT"], [result] raises TvmError.  When the
    first entry of [contractResult] has length at most 72 nothing is
    decoded and the message is the one of the receipt; a decoding is asked
    for only when that entry is longer than 72; and the message differs
    from the one of the receipt only when the decoding succeeded. *)
Theorem result_on_revert (fuel : nat) (timeout : number) (interval : Q)
  (solid : bool)
  (self : AsyncTransactionRet) (method : AsyncContractMethod)
  (events : list event) (rc : list (string * pyval)) (inner : pyval) :
  ret_method self = Some method ->
  wait' fuel timeout interval solid self = (events, Some (Ok (PyDict rc))) ->
  dict_lookup "result" rc = Some (PyStr "FAILED") ->
  dict_lookup "receipt" rc = Some inner ->
  py_getitem inner "result" = Ok (PyStr "REVERT") ->
  let msg := dict_get_or "resMessage" rc (PyStr "FAILED") in
  exists (decoded : list (list byte)) (msg' : pyval),
    result' fuel timeout interval solid self
    = (events, decoded, Some (raise TvmError [msg']))
    /\ (forall cr first n,
          dict_lookup "contractResult" rc = Some cr ->
          py_getitem0 cr = Ok first -> py_len first = Ok n -> n <= 72 ->
          decoded = [] /\ msg' = msg)
    /\ (decoded <> [] ->
        exists cr first n,
          dict_lookup "contractResult" rc = Some cr
          /\ py_getitem0 cr = Ok first /\ py_len first = Ok n /\ 72 < n)
    /\ (msg' = msg
        \/ exists data text,
             decoded = [data]
             /\ decode_single_string data = Ok text
             /\ msg' = PyStr (py_str py_repr msg ++ ": "
                              ++ py_str py_repr text)).
Proof.
  intros Hmethod Hwait Hstatus Hreceipt Hreason msg.
  assert (Hread : read_receipt py_repr decode_single_string method (PyDict rc)
                  = (fst (reason msg (PyDict rc)),
                     raise TvmError [snd (reason msg (PyDict rc))])).
  { unfold read_receipt. rewrite !py_get_dict. unfold dict_get_or.
    rewrite Hstatus. cbn [bind py_eq_str String.eqb Ascii.eqb Bool.eqb
                          py_getitem].
    rewrite Hstatus, Hreceipt. cbn [bind]. rewrite Hreason.
    cbn [bind py_eq_str String.eqb Ascii.eqb Bool.eqb].
    rewrite py_get_dict. cbn [bind]. fold msg.
    destruct (reason msg (PyDict rc)); reflexivity. }
  exists (fst (reason msg (PyDict rc))), (snd (reason msg (PyDict rc))).
  split.
  { unfold result_. rewrite Hmethod, Hwait, Hread. reflexivity. }
  destruct (revert_reason_cases msg rc)
    as [[Hnone Hshort]
       |(cr & first & n & raw & Hcr & Hfirst & Hn & Hlong & Hraw & Hdec)].
  - rewrite Hnone. cbn [fst snd]. split; [auto|].
    split; [congruence | left; reflexivity].
  - assert (Hfst : fst (reason msg (PyDict rc)) = [skipn 36 raw]).
    { destruct Hdec as [[-> _]|(text & _ & ->)]; reflexivity. }
    split; [|split].
    + intros cr' first' n' Hcr' Hfirst' Hn' Hle. exfalso.
      assert (n' = n) by congruence. lia.
    + intros _. exists cr, first, n. auto.
    + destruct Hdec as [[-> _]|(text & Htext & ->)]; cbn [fst snd].
      * left. reflexivity.
      * right. exists (skipn 36 raw), text. auto.
Qed.

End ResultFacts.

Lemma result_on_revert_witness :
  result_ sample_repr sample_utf8_decode sample_decode_single_string
    ticking_clock sample_reverted_reply 5 (NInt 30) 1.6 false
    sample_call_ret
  = ([ Clock (float_of_Z 100); Clock (float_of_Z 101);
       Poll (Ok (PyDict sample_reverted)) ], [],
     Some (raise TvmError [PyStr "REVERT opcode executed"])).
Proof.
  destruct (result_on_revert sample_repr sample_utf8_decode
              sample_decode_single_string ticking_clock sample_reverted_reply
              5 (NInt 30) 1.6 false sample_call_ret sample_method
              [ Clock (float_of_Z 100); Clock (float_of_Z 101);
                Poll (Ok (PyDict sample_reverted)) ]
              sample_reverted (PyDict [("result", PyStr "REVERT")])
              eq_refl eq_refl eq_refl eq_refl eq_refl)
    as (decoded & msg' & Hrun & Hshort & _).
  destruct (Hshort (PyList [PyStr "08c379a0"]) (PyStr "08c379a0") 8
              eq_refl eq_refl eq_refl) as [-> ->]; [lia|].
  exact Hrun.
Defined.

(** ** Hexadecimal literals *)

(** A hexadecimal digit is none of the characters [int] treats apart. *)
Lemma hex_digit_plain (c : ascii) :
  is_hex_digit c = true ->
  is_space c = false /\ Ascii.eqb c "_" = false /\ Ascii.eqb c "+" = false
  /\ Ascii.eqb c "-" = false /\ Ascii.eqb c "x" = false
  /\ Ascii.eqb c "X" = false.
Proof.
  destruct c as [[|] [|] [|] [|] [|] [|] [|] [|]]; vm_compute;
    intros H; try discriminate H; repeat split.
Qed.

Lemma scan_hex_digits (l : list ascii) (acc : Z) (n : nat) :
  forallb is_hex_digit l = true ->
  scan_hex false acc n l
  = Some (fold_left
            (fun a c => 16 * a + match hex_digit c with
                                 | Some d => d
                                 | None => 0
                                 end) l acc,
          (n + List.length l)%nat, []).
Proof.
  revert acc n. induction l as [|c l IH]; intros acc n H.
  - cbn. rewrite Nat.add_0_r. reflexivity.
  - cbn [forallb] in H. apply andb_true_iff in H as [Hc Hl].
    destruct (hex_digit_plain c Hc) as (_ & Hu & _).
    cbn [scan_hex fold_left List.length]. rewrite Hu.
    unfold is_hex_digit in Hc. destruct (hex_digit c) as [d|]; [|discriminate].
    rewrite (IH _ _ Hl). rewrite Nat.add_succ_r. reflexivity.
Qed.

(** [int(s, 16)] on a string of hexadecimal digits is the number they
    write. *)
Lemma py_int16_hex_string (s : string) :
  is_hex_string s = true -> py_int16 (PyStr s) = Ok (hex_value s).
Proof.
  unfold is_hex_string, py_int16, hex_value, hex_value_chars.
  destruct (list_ascii_of_string s) as [|c l]; [discriminate|].
  intros H. pose proof H as Hall.
  cbn [forallb] in H. apply andb_true_iff in H as [Hc Hl].
  destruct (hex_digit_plain c Hc) as (Hs & Hu & Hp & Hm & _).
  unfold int16_chars. cbn [skip_spaces]. rewrite Hs.
  unfold strip_sign. rewrite Hp, Hm.
  assert (H0x : strip_0x (c :: l) = c :: l).
  { destruct l as [|x r]; [reflexivity|]. cbn [strip_0x].
    cbn [forallb] in Hl. apply andb_true_iff in Hl as [Hx _].
    destruct (hex_digit_plain x Hx) as (_ & _ & _ & _ & -> & ->).
    rewrite andb_false_r. reflexivity. }
  rewrite H0x, Hu, (scan_hex_digits _ _ _ Hall). reflexivity.
Qed.

Lemma hex_value_nonneg (s : string) : 0 <= hex_value s.
Proof.
  unfold hex_value, hex_value_chars.
  assert (H : forall l acc, 0 <= acc ->
            0 <= fold_left
                   (fun a c => 16 * a + match hex_digit c with
                                        | Some d => d
                                        | None => 0
                                        end) l acc).
  { induction l as [|c l IH]; intros acc Hacc; [exact Hacc|].
    cbn [fold_left]. apply IH.
    assert (0 <= match hex_digit c with Some d => d | None => 0 end).
    { unfold hex_digit.
      repeat match goal with
             | |- context [if ?b then _ else _] => destruct b eqn:?
             end; lia. }
    lia. }
  apply H. lia.
Qed.

(** A quotient by [10 ** 6] below the overflow bound is a float. *)
Lemma py_truediv_million (n : Z) :
  0 <= n < float_overflow_bound * 10 ^ 6 ->
  py_truediv n (10 ^ 6) = Ok (PyFloat (n # 1000000)).
Proof.
  intros [Hn Hb]. unfold py_truediv.
  change (10 ^ 6 =? 0) with false. cbn match.
  change (Z.abs (10 ^ 6)) with (10 ^ 6).
  rewrite (Z.abs_eq n Hn).
  destruct (float_overflow_bound * 10 ^ 6 <=? n) eqn:E;
    [apply Z.leb_le in E; lia|].
  change (Z.sgn (10 ^ 6)) with 1. rewrite Z.mul_1_r. reflexivity.
Qed.

(** ** The block scanner *)

(** Splits a goal on the outcome of the first call a sequence waits for. *)
Ltac bind_case :=
  match goal with
  | |- context [bind ?m _] => destruct m eqn:?; cbn [bind]
  | |- context [try_except ?m _] => destruct m eqn:?; cbn [try_except]
  end.

Section ScannerFacts.

Variable to_base58check_address : pyval -> result string.
Variable decimal_trx : pyval -> result pyval.
Variable getblockbynum : Z -> result pyval.
Variable get_latest_block_number : result Z.

Local Abbreviation parse := (parse_usdt_transfer to_base58check_address).
Local Abbreviation parse_body :=
  (parse_usdt_transfer_body to_base58check_address).

Local Abbreviation b58 := to_base58check_address.
Local Abbreviation scan_usdt' := (scan_usdt to_base58check_address).
Local Abbreviation scan_trx' := (scan_trx to_base58check_address decimal_trx).
Local Abbreviation scan_tx' := (scan_tx to_base58check_address decimal_trx).

(** A call of the token contract is no TRX transfer: the first branch of
    the scan leaves the result alone. *)
Lemma scan_trx_skips_candidate (address : option string) (block_num : Z)
  (block_header tx : pyval) (res : ScanResult) :
  is_usdt_call b58 tx = Ok true ->
  scan_trx' address block_num block_header tx res = Ok res.
Proof.
  unfold is_usdt_call, scan_trx. intros H.
  destruct (has_contract tx) as [[|]|]; cbn [bind] in H |- *;
    try discriminate H.
  destruct (first_contract tx) as [contract|]; cbn [bind] in H |- *;
    [|discriminate H].
  destruct (py_getitem contract "type") as [type|]; cbn [bind] in H |- *;
    [|discriminate H].
  destruct (py_eq_str type "TriggerSmartContract") eqn:Htype;
    [|discriminate H].
  destruct type as [| | | |s| |]; try discriminate Htype.
  cbn [py_eq_str] in Htype. apply String.eqb_eq in Htype. subst s.
  reflexivity.
Qed.

(** A candidate that does not parse is counted as a failure under its
    transaction id, which the scan reads from the transaction itself. *)
Lemma scan_usdt_failure (address : option string) (block_num : Z)
  (block_header tx timestamp : pyval) (res : ScanResult) :
  is_usdt_call b58 tx = Ok true ->
  py_getitem block_header "timestamp" = Ok timestamp ->
  parse tx block_num timestamp = Ok PyNone ->
  scan_usdt' address block_num block_header tx res
  = (txid <- py_getitem tx "txID" ;;
     Ok (add_failed_txid txid (count_failure (count_candidate res)))).
Proof.
  intros Hc Ht Hp. unfold scan_usdt.
  rewrite Hc. cbn [bind]. rewrite Ht. cbn [bind]. rewrite Hp.
  cbn [bind py_truthy]. reflexivity.
Qed.

Lemma scan_tx_failure (address : option string) (block_num : Z)
  (block_header tx timestamp : pyval) (res : ScanResult) :
  is_usdt_call b58 tx = Ok true ->
  py_getitem block_header "timestamp" = Ok timestamp ->
  parse tx block_num timestamp = Ok PyNone ->
  scan_tx' address block_num block_header tx res
  = (txid <- py_getitem tx "txID" ;;
     Ok (add_failed_txid txid (count_failure (count_candidate res)))).
Proof.
  intros Hc Ht Hp. unfold scan_tx.
  rewrite (scan_trx_skips_candidate _ _ _ _ _ Hc). cbn [bind].
  now apply scan_usdt_failure with (timestamp := timestamp).
Qed.

(** C9 (as amended).  [parse_usdt_transfer] never raises: whatever the
    transaction looks like it returns [None] or a transfer record, and it
    returns [None] whenever something raises inside it.  For a candidate
    on which it returns [None] the scan of the transaction reads the id
    of the transaction: it counts the failure under that id and returns,
    so that the scan goes on, when there is one, and raises what the
    reading raises when there is none. *)
Theorem parse_usdt_transfer_total (tx : pyval) (block_num : Z)
  (block_timestamp : pyval) :
  (parse tx block_num block_timestamp = Ok PyNone
   \/ exists txid from_addr to_addr amount method,
        parse tx block_num block_timestamp
        = Ok (transfer_record block_num block_timestamp txid
                from_addr to_addr amount method))
  /\ (forall e, parse_body tx block_num block_timestamp = Raise e ->
                parse tx block_num block_timestamp = Ok PyNone)
  /\ (forall address block_header res,
        is_usdt_call b58 tx = Ok true ->
        py_getitem block_header "timestamp" = Ok block_timestamp ->
        parse tx block_num block_timestamp = Ok PyNone ->
        (forall txid,
           py_getitem tx "txID" = Ok txid ->
           scan_tx' address block_num block_header tx res
           = Ok (add_failed_txid txid (count_failure (count_candidate res))))
        /\ (forall e,
              py_getitem tx "txID" = Raise e ->
              scan_tx' address block_num block_header tx res = Raise e)).
Proof.
  assert (Hcaught : forall e,
            parse_body tx block_num block_timestamp = Raise e ->
            parse tx block_num block_timestamp = Ok PyNone).
  { intros e H. unfold parse_usdt_transfer. rewrite H. reflexivity. }
  split; [|split].
  - unfold parse_usdt_transfer, parse_usdt_transfer_body.
    repeat bind_case; auto.
    all: repeat match goal with
                | H : (if ?b then _ else _) = Ok _ |- _ => destruct b
                | H : match ?x with _ => _ end = Ok _ |- _ => destruct x
                | H : try_except ?m _ = Ok _ |- _ =>
                    destruct m eqn:?; cbn [try_except] in H
                | H : bind ?m _ = Ok _ |- _ => destruct m eqn:?; cbn [bind] in H
                | H : Ok _ = Ok _ |- _ => injection H as ?; subst
                | H : Raise _ = Ok _ |- _ => discriminate H
                end; auto.
    all: try discriminate.
    all: right; unfold transfer_record; do 5 eexists; reflexivity.
  - exact Hcaught.
  - intros address block_header res Hc Ht Hp.
    rewrite (scan_tx_failure address _ _ _ _ res Hc Ht Hp).
    split; [intros txid ->|intros e ->]; reflexivity.
Qed.

(** C7 (as amended).  On a call whose data is the string [data]: with the
    selector a9059cbb, fields that decode and a transaction id, the parser
    returns a transfer from the base58check form of the owner of the call
    to that of "41" and the characters 32-72, of the number [int] reads
    in base 16 from the characters from 72 on, divided by 10^6 (for
    hexadecimal digits alone, the number they write); with the selector
    23b872dd it returns likewise a transferFrom with the owner at 32-72,
    the recipient at 72-112 and the amount from 112 on; with fields that
    do not decode, without a transaction id, or with any other selector,
    it returns [None]; and for a candidate for which it returns [None] the
    scan reads the id of the transaction, counts the candidate in
    [failed_parse] and records the id, raising instead when there is no
    id. *)
Theorem parse_usdt_transfer_selectors (tx contract value : pyval)
  (data : string) (block_num : Z) (timestamp : pyval) :
  first_contract tx = Ok contract ->
  contract_value contract = Ok value ->
  py_get value "data" (PyStr "") = Ok (PyStr data) ->
  (prefix "a9059cbb" data = true ->
   (forall to_addr n amount owner from_addr txid,
      b58 (PyStr ("41" ++ str_slice 32 72 data)) = Ok to_addr ->
      py_int16 (PyStr (str_from 72 data)) = Ok n ->
      py_truediv n (10 ^ 6) = Ok amount ->
      py_getitem value "owner_address" = Ok owner ->
      b58 owner = Ok from_addr ->
      py_getitem tx "txID" = Ok txid ->
      parse tx block_num timestamp
      = Ok (transfer_record block_num timestamp txid from_addr to_addr
              amount "transfer"))
   /\ (is_hex_string (str_from 72 data) = true ->
       py_int16 (PyStr (str_from 72 data))
       = Ok (hex_value (str_from 72 data))
       /\ (hex_value (str_from 72 data) < float_overflow_bound * 10 ^ 6 ->
           py_truediv (hex_value (str_from 72 data)) (10 ^ 6)
           = Ok (PyFloat (hex_value (str_from 72 data) # 1000000))))
   /\ (forall e, transfer_fields b58 data value = Raise e ->
                 parse tx block_num timestamp = Ok PyNone))
  /\ (prefix "a9059cbb" data = false -> prefix "23b872dd" data = true ->
      (forall from_addr to_addr n amount txid,
         b58 (PyStr ("41" ++ str_slice 32 72 data)) = Ok from_addr ->
         b58 (PyStr ("41" ++ str_slice 72 112 data)) = Ok to_addr ->
         py_int16 (PyStr (str_from 112 data)) = Ok n ->
         py_truediv n (10 ^ 6) = Ok amount ->
         py_getitem tx "txID" = Ok txid ->
         parse tx block_num timestamp
         = Ok (transfer_record block_num timestamp txid from_addr to_addr
                 amount "transferFrom"))
      /\ (is_hex_string (str_from 112 data) = true ->
          py_int16 (PyStr (str_from 112 data))
          = Ok (hex_value (str_from 112 data))
          /\ (hex_value (str_from 112 data) < float_overflow_bound * 10 ^ 6 ->
              py_truediv (hex_value (str_from 112 data)) (10 ^ 6)
              = Ok (PyFloat (hex_value (str_from 112 data) # 1000000))))
      /\ (forall e, transferFrom_fields b58 data = Raise e ->
                    parse tx block_num timestamp = Ok PyNone))
  /\ (prefix "a9059cbb" data = false -> prefix "23b872dd" data = false ->
      parse tx block_num timestamp = Ok PyNone)
  /\ (forall e, py_getitem tx "txID" = Raise e ->
                parse tx block_num timestamp = Ok PyNone)
  /\ (forall address block_header res,
        is_usdt_call b58 tx = Ok true ->
        py_getitem block_header "timestamp" = Ok timestamp ->
        parse tx block_num timestamp = Ok PyNone ->
        (forall txid,
           py_getitem tx "txID" = Ok txid ->
           scan_tx' address block_num block_header tx res
           = Ok (add_failed_txid txid (count_failure (count_candidate res))))
        /\ (forall e,
              py_getitem tx "txID" = Raise e ->
              scan_tx' address block_num block_header tx res = Raise e)).
Proof.
  intros Hcontract Hvalue Hdata.
  assert (Hparse : parse tx block_num timestamp
    = try_except
        (fields <-
           (if prefix "a9059cbb" data then
              try_except (f <- transfer_fields b58 data value ;; Ok (Some f))
                         (fun _ => Ok None)
            else if prefix "23b872dd" data then
              try_except (f <- transferFrom_fields b58 data ;; Ok (Some f))
                         (fun _ => Ok None)
            else Ok None) ;;
         match fields with
         | None => Ok PyNone
         | Some (from_addr, to_addr, amount) =>
             txid <- py_getitem tx "txID" ;;
             Ok (transfer_record block_num timestamp txid from_addr to_addr
                   amount
                   (if prefix "a9059cbb" data
                    then "transfer" else "transferFrom"))
         end)
        (fun _ => Ok PyNone)).
  { unfold parse_usdt_transfer, parse_usdt_transfer_body.
    rewrite Hcontract. cbn [bind]. rewrite Hvalue. cbn [bind].
    rewrite Hdata. cbn [bind py_startswith].
    destruct (prefix "a9059cbb" data); cbn [bind].
    - destruct (try_except (f <- transfer_fields b58 data value ;; _) _)
        as [[[[f t] a]|]|]; cbn [bind]; reflexivity.
    - destruct (prefix "23b872dd" data); cbn [bind]; [|reflexivity].
      destruct (try_except (f <- transferFrom_fields b58 data ;; _) _)
        as [[[[f t] a]|]|]; cbn [bind]; reflexivity. }
  assert (Hamount : forall s,
            is_hex_string s = true ->
            py_int16 (PyStr s) = Ok (hex_value s)
            /\ (hex_value s < float_overflow_bound * 10 ^ 6 ->
                py_truediv (hex_value s) (10 ^ 6)
                = Ok (PyFloat (hex_value s # 1000000)))).
  { intros s Hs. split; [exact (py_int16_hex_string s Hs)|].
    intros Hbound. apply py_truediv_million.
    split; [apply hex_value_nonneg | exact Hbound]. }
  split; [|split; [|split; [|split]]].
  - intros Hsel. rewrite Hparse, Hsel. split; [|split].
    + intros to_addr n amount owner from_addr txid Hto Hn Hq Howner Hfrom Hid.
      unfold transfer_fields. rewrite Hto. cbn [bind].
      rewrite Hn. cbn [bind]. rewrite Hq. cbn [bind].
      rewrite Howner. cbn [bind]. rewrite Hfrom. cbn [bind try_except].
      rewrite Hid. reflexivity.
    + apply Hamount.
    + intros e ->. reflexivity.
  - intros Hsel1 Hsel2. rewrite Hparse, Hsel1, Hsel2. split; [|split].
    + intros from_addr to_addr n amount txid Hfrom Hto Hn Hq Hid.
      unfold transferFrom_fields. rewrite Hfrom. cbn [bind].
      rewrite Hto. cbn [bind]. rewrite Hn. cbn [bind]. rewrite Hq.
      cbn [bind try_except]. rewrite Hid. reflexivity.
    + apply Hamount.
    + intros e ->. reflexivity.
  - intros Hsel1 Hsel2. rewrite Hparse, Hsel1, Hsel2. reflexivity.
  - intros e He. rewrite Hparse.
    match goal with
    | |- try_except (bind ?m _) _ = _ => destruct m as [[[[f t] a]|]|]
    end; cbn [bind]; try reflexivity.
    rewrite He. reflexivity.
  - intros address block_header res Hc Ht Hp.
    rewrite (scan_tx_failure address _ _ _ _ res Hc Ht Hp).
    split; [intros txid ->|intros e ->]; reflexivity.
Qed.

Local Abbreviation scan_block' :=
  (scan_block to_base58check_address decimal_trx getblockbynum).
Local Abbreviation scan :=
  (scan_block_transfers to_base58check_address decimal_trx getblockbynum
     get_latest_block_number).
Local Abbreviation tallied' := (tallied to_base58check_address).
Local Abbreviation is_candidate' := (is_candidate to_base58check_address).
Local Abbreviation parses' := (parses to_base58check_address).
Local Abbreviation fails' := (fails to_base58check_address).

(** Reads a hypothesis that a sequence of calls returned: each call
    returned, and each test went one way. *)
Ltac returned H :=
  repeat
    (cbn [bind] in H;
     match type of H with
     | bind ?m _ = Ok _ => destruct m eqn:?; [|discriminate H]
     | (if ?b then _ else _) = Ok _ => destruct b eqn:?
     | match ?x with _ => _ end = Ok _ => destruct x eqn:?
     | Raise _ = Ok _ => discriminate H
     | raise _ _ = Ok _ => discriminate H
     end).

Lemma for_each_invariant (A S : Type) (P : S -> Prop)
  (body : A -> S -> result S) (l : list A) :
  (forall x acc acc', P acc -> body x acc = Ok acc' -> P acc') ->
  forall acc acc', P acc -> for_each body l acc = Ok acc' -> P acc'.
Proof.
  intros Hbody. induction l as [|x l IH]; intros acc acc' Hacc H.
  - cbn in H. injection H as <-. exact Hacc.
  - cbn [for_each] in H. destruct (body x acc) as [acc1|] eqn:Hx;
      [|discriminate H]. cbn [bind] in H.
    eapply IH; [|exact H]. eapply Hbody; eassumption.
Qed.

(** The branch for TRX transfers leaves the counters alone. *)
Lemma scan_trx_stats (address : option string) (block_num : Z)
  (block_header tx : pyval) (res res' : ScanResult) :
  scan_trx' address block_num block_header tx res = Ok res' ->
  same_stats res res'.
Proof.
  unfold scan_trx, same_stats. intros H. returned H;
    injection H as <-; repeat split.
Qed.

Lemma tallied_nil (r r' : ScanResult) : same_stats r r' -> tallied' [] r r'.
Proof.
  unfold same_stats, tallied. cbn.
  intros (-> & -> & -> & ->). rewrite app_nil_r. repeat split; lia.
Qed.

Lemma tallied_app (cs1 cs2 : list (Z * pyval * pyval))
  (r r1 r2 : ScanResult) :
  tallied' cs1 r r1 -> tallied' cs2 r1 r2 -> tallied' (cs1 ++ cs2) r r2.
Proof.
  unfold tallied. intros (Ht1 & Hs1 & Hf1 & Hi1) (Ht2 & Hs2 & Hf2 & Hi2).
  rewrite !filter_app, !length_app, map_app, Ht2, Hs2, Hf2, Hi2, Hi1,
    app_assoc.
  repeat split; lia.
Qed.

(** The branch for USDT calls counts a candidate once, among the parsed
    or among the failed as the parser decides, and leaves the counters
    alone for any other transaction. *)
Lemma scan_usdt_tallied (address : option string) (block_num : Z)
  (block_header timestamp tx : pyval) (res res' : ScanResult) :
  py_getitem block_header "timestamp" = Ok timestamp ->
  scan_usdt' address block_num block_header tx res = Ok res' ->
  tallied' (if is_candidate' tx then [(block_num, timestamp, tx)] else [])
    res res'.
Proof.
  unfold scan_usdt, is_candidate. intros Hts H.
  destruct (is_usdt_call b58 tx) as [[|]|]; cbn [bind] in H;
    [| |discriminate H].
  2:{ injection H as <-. apply tallied_nil. repeat split. }
  rewrite Hts in H. cbn [bind] in H.
  destruct (parse tx block_num timestamp) as [info|] eqn:Hp;
    [|discriminate H].
  cbn [bind] in H.
  assert (Hparses : parses' (block_num, timestamp, tx) = py_truthy info).
  { unfold parses. rewrite Hp. reflexivity. }
  unfold tallied, fails. cbn [filter]. rewrite Hparses.
  destruct (py_truthy info).
  - returned H; injection H as <-; cbn; rewrite app_nil_r;
      repeat split; lia.
  - cbn [bind] in H.
    destruct (py_getitem tx "txID") as [txid|] eqn:Hid; [|discriminate H].
    injection H as <-. unfold candidate_txid. cbn. rewrite Hid.
    repeat split; lia.
Qed.

Lemma scan_tx_tallied (address : option string) (block_num : Z)
  (block_header timestamp tx : pyval) (res res' : ScanResult) :
  py_getitem block_header "timestamp" = Ok timestamp ->
  scan_tx' address block_num block_header tx res = Ok res' ->
  tallied' (if is_candidate' tx then [(block_num, timestamp, tx)] else [])
    res res'.
Proof.
  unfold scan_tx. intros Hts H.
  destruct (scan_trx' address block_num block_header tx res) as [res1|] eqn:H1;
    [|discriminate H]. cbn [bind] in H.
  apply (tallied_app [] _ res res1 res').
  - apply tallied_nil. eapply scan_trx_stats. exact H1.
  - eapply scan_usdt_tallied; eassumption.
Qed.

Lemma scan_txs_tallied (address : option string) (block_num : Z)
  (block_header timestamp : pyval) (items : list pyval)
  (res res' : ScanResult) :
  py_getitem block_header "timestamp" = Ok timestamp ->
  for_each (scan_tx' address block_num block_header) items res = Ok res' ->
  tallied' (map (fun tx => (block_num, timestamp, tx))
              (filter is_candidate' items))
    res res'.
Proof.
  intros Hts. revert res.
  induction items as [|tx items IH]; intros res H; cbn [for_each] in H.
  - injection H as <-. apply tallied_nil. repeat split.
  - destruct (scan_tx' address block_num block_header tx res) as [res1|] eqn:H1;
      [|discriminate H]. cbn [bind] in H.
    pose proof (scan_tx_tallied _ _ _ _ _ _ _ Hts H1) as Htx.
    specialize (IH _ H). cbn [filter].
    destruct (is_candidate' tx).
    + exact (tallied_app [_] _ _ _ _ Htx IH).
    + exact (tallied_app [] _ _ _ _ Htx IH).
Qed.

(** The scan of a block counts the candidates of the block. *)
Lemma scan_block_tallied (address : option string) (block_num : Z)
  (res res' : ScanResult) :
  scan_block' address block_num res = Ok res' ->
  tallied' (block_candidates to_base58check_address getblockbynum block_num)
    res res'.
Proof.
  unfold scan_block, block_candidates, block_transactions. intros H.
  destruct (get_block getblockbynum block_num) as [block|]; [|discriminate H].
  cbn [bind] in H |- *.
  destruct (py_getitem block "block_header") as [header|]; [|discriminate H].
  cbn [bind] in H |- *.
  destruct (py_getitem header "raw_data") as [block_header|];
    [|discriminate H].
  cbn [bind] in H |- *.
  destruct (py_getitem block_header "timestamp") as [timestamp|] eqn:Hts;
    [|discriminate H].
  cbn [bind] in H |- *.
  destruct (py_get block "blockID" (PyStr "")); [|discriminate H].
  cbn [bind] in H.
  destruct (py_get block_header "parentHash" (PyStr "")); [|discriminate H].
  cbn [bind] in H.
  destruct (py_get block_header "witness_address" (PyStr ""));
    [|discriminate H].
  cbn [bind] in H.
  destruct (b58 _); [|discriminate H]. cbn [bind] in H.
  destruct (py_get block "transactions" (PyList [])) as [txs|];
    [|discriminate H].
  cbn [bind] in H.
  destruct (py_len txs); [|discriminate H]. cbn [bind] in H.
  destruct (py_get block "confirmed" (PyBool true)); [|discriminate H].
  cbn [bind] in H.
  destruct (py_get block "transactions" PyNone) as [transactions|];
    [|discriminate H].
  cbn [bind] in H |- *.
  destruct (negb (py_truthy transactions)).
  - injection H as <-. apply tallied_nil. repeat split.
  - destruct (py_getitem block "transactions") as [transactions'|];
      [|discriminate H].
    cbn [bind] in H |- *.
    destruct (py_iter transactions') as [items|]; [|discriminate H].
    cbn [bind] in H |- *.
    match type of H with
    | for_each _ _ ?r0 = _ => apply (tallied_app [] _ res r0 res')
    end.
    + apply tallied_nil. repeat split.
    + eapply scan_txs_tallied; eassumption.
Qed.

Lemma scan_blocks_tallied (address : option string) (l : list Z)
  (res res' : ScanResult) :
  for_each (scan_block' address) l res = Ok res' ->
  tallied'
    (flat_map (block_candidates to_base58check_address getblockbynum) l)
    res res'.
Proof.
  revert res. induction l as [|n l IH]; intros res H; cbn [for_each] in H.
  - injection H as <-. apply tallied_nil. repeat split.
  - destruct (scan_block' address n res) as [res1|] eqn:H1; [|discriminate H].
    cbn [bind] in H. cbn [flat_map].
    exact (tallied_app _ _ _ _ _ (scan_block_tallied _ _ _ _ H1) (IH _ H)).
Qed.

(** C8.  A scan that returns has counted every candidate of its blocks,
    and each of them once: [total_transactions] is the number of
    transactions of the blocks scanned that call the token contract,
    [successful_parse] the number of those for which the parser returns a
    transfer, [failed_parse] the number of the others, and [failed_txids]
    their ids in the order of the scan, whatever the address filtered by;
    so [successful_parse + failed_parse] is the total and [failed_txids]
    has [failed_parse] entries. *)
Theorem scan_stats_consistent (start_block : Z) (end_block : option Z)
  (address : option string) (r : ScanResult) :
  scan start_block end_block address = Ok r ->
  exists last,
    match end_block with
    | Some n => Ok n
    | None => get_latest_block_number
    end = Ok last
    /\ let cs :=
         candidates to_base58check_address getblockbynum start_block last in
       total_transactions r = Z.of_nat (List.length cs)
       /\ successful_parse r = Z.of_nat (List.length (filter parses' cs))
       /\ failed_parse r = Z.of_nat (List.length (filter fails' cs))
       /\ failed_txids r = map candidate_txid (filter fails' cs)
       /\ stats_consistent r.
Proof.
  unfold scan_block_transfers. intros H.
  destruct (match end_block with
            | Some n => Ok n
            | None => get_latest_block_number
            end) as [last|]; [|discriminate H].
  cbn [bind] in H. exists last. split; [reflexivity|].
  destruct (scan_blocks_tallied _ _ _ _ H) as (Ht & Hs & Hf & Hi).
  fold (candidates to_base58check_address getblockbynum start_block last)
    in Ht, Hs, Hf, Hi.
  cbn zeta. cbn in Ht, Hs, Hf, Hi.
  set (cs := candidates to_base58check_address getblockbynum start_block last)
    in *.
  split; [exact Ht|]. split; [exact Hs|]. split; [exact Hf|].
  split; [exact Hi|].
  unfold stats_consistent. rewrite Ht, Hs, Hf, Hi, length_map.
  split; [|reflexivity].
  assert (Hsplit : forall l : list (Z * pyval * pyval),
            (List.length (filter parses' l) + List.length (filter fails' l)
             = List.length l)%nat).
  { induction l as [|c l IHl]; [reflexivity|]. unfold fails in *.
    cbn [filter]. destruct (parses' c); cbn [negb List.length]; lia. }
  specialize (Hsplit cs). lia.
Qed.

End ScannerFacts.

(** C7, as stated, fails: a call with the selector a9059cbb whose data
    stops after the recipient yields no transfer; the scan counts it as a
    failure. *)
Lemma transfer_selector_without_amount :
  prefix "a9059cbb" sample_truncated_data = true
  /\ parse_usdt_transfer sample_to_base58check_address sample_truncated_tx
       101 (PyInt 1700000003000) = Ok PyNone
  /\ scan_tx sample_to_base58check_address sample_decimal_trx None 101
       (PyDict [("timestamp", PyInt 1700000003000)]) sample_truncated_tx
       empty_result
     = Ok {| blocks := []; transfers_trx := []; transfers_usdt := [];
             total_transactions := 1; failed_parse := 1;
             successful_parse := 0; failed_txids := [PyStr "aa03"] |}.
Proof. repeat split. Qed.

(** A transfer of 1000000 units, and one whose amount characters are
    "-f": [int] reads them as -15. *)
Lemma parse_usdt_transfer_selectors_witness :
  parse_usdt_transfer sample_to_base58check_address sample_transfer_tx
    100 (PyInt 1700000000000)
  = Ok (transfer_record 100 (PyInt 1700000000000) (PyStr "aa01")
          "TXxkrrFCrMpMZ6DVtnHD8N35DZRjkEDHDJ"
          "T41e552f6487585c2b58bc2c9bb4492bc1f17132cd0"
          (PyFloat (1000000 # 1000000)) "transfer")
  /\ parse_usdt_transfer sample_to_base58check_address sample_signed_amount_tx
       100 (PyInt 1700000000000)
     = Ok (transfer_record 100 (PyInt 1700000000000) (PyStr "aa04")
             "TXxkrrFCrMpMZ6DVtnHD8N35DZRjkEDHDJ"
             "T41e552f6487585c2b58bc2c9bb4492bc1f17132cd0"
             (PyFloat (-15 # 1000000)) "transfer").
Proof.
  split.
  - exact (proj1 (proj1 (parse_usdt_transfer_selectors
                           sample_to_base58check_address sample_decimal_trx
                           sample_transfer_tx
                           _ _ sample_transfer_data
                           100 (PyInt 1700000000000)
                           eq_refl eq_refl eq_refl) eq_refl)
             _ 1000000 _ (PyStr "TXxkrrFCrMpMZ6DVtnHD8N35DZRjkEDHDJ") _
             (PyStr "aa01") eq_refl eq_refl eq_refl eq_refl eq_refl eq_refl).
  - exact (proj1 (proj1 (parse_usdt_transfer_selectors
                           sample_to_base58check_address sample_decimal_trx
                           sample_signed_amount_tx
                           _ _ sample_signed_amount_data
                           100 (PyInt 1700000000000)
                           eq_refl eq_refl eq_refl) eq_refl)
             _ (-15) _ (PyStr "TXxkrrFCrMpMZ6DVtnHD8N35DZRjkEDHDJ") _
             (PyStr "aa04") eq_refl eq_refl eq_refl eq_refl eq_refl eq_refl).
Defined.

Lemma scan_stats_consistent_witness :
  exists last,
    Ok 101 = Ok last
    /\ let cs :=
         candidates sample_to_base58check_address sample_getblockbynum
           100 last in
       total_transactions sample_scan = Z.of_nat (List.length cs)
       /\ successful_parse sample_scan
          = Z.of_nat
              (List.length
                 (filter (parses sample_to_base58check_address) cs))
       /\ failed_parse sample_scan
          = Z.of_nat
              (List.length (filter (fails sample_to_base58check_address) cs))
       /\ failed_txids sample_scan
          = map candidate_txid
              (filter (fails sample_to_base58check_address) cs)
       /\ stats_consistent sample_scan.
Proof.
  exact (scan_stats_consistent sample_to_base58check_address
           sample_decimal_trx sample_getblockbynum (Ok 101)
           100 None None sample_scan eq_refl).
Defined.

(** C9, as stated, fails: the isolation ends with [parse_usdt_transfer].
    A transfer that decodes but comes without [txID] raises inside the
    parser, which returns [None]; the scan then reads the id itself, and
    that KeyError ends the scan of the whole range, before the
    transactions and the blocks that follow. *)
Lemma scan_usdt_without_txid :
  (exists e,
     parse_usdt_transfer_body sample_to_base58check_address
       sample_nameless_tx 100 (PyInt 1700000000000) = Raise e)
  /\ parse_usdt_transfer sample_to_base58check_address sample_nameless_tx
       100 (PyInt 1700000000000) = Ok PyNone
  /\ scan_tx sample_to_base58check_address sample_decimal_trx None 100
       (PyDict [("timestamp", PyInt 1700000000000)]) sample_nameless_tx
       empty_result
     = raise KeyError [PyStr "txID"]
  /\ scan_block_transfers sample_to_base58check_address sample_decimal_trx
       sample_nameless_getblockbynum (Ok 101) 100 (Some 101) None
     = raise KeyError [PyStr "txID"].
Proof.
  split; [eexists; reflexivity|]. repeat split.
Qed.

(** * Further properties *)

(** ** Induction on nested values *)

Section PyvalInduction.

Variable P : pyval -> Prop.
Hypothesis HNone : P PyNone.
Hypothesis HBool : forall b, P (PyBool b).
Hypothesis HInt : forall z, P (PyInt z).
Hypothesis HFloat : forall q, P (PyFloat q).
Hypothesis HStr : forall s, P (PyStr s).
Hypothesis HList : forall l, Forall P l -> P (PyList l).
Hypothesis HDict :
  forall d, Forall (fun kv => P (snd kv)) d -> P (PyDict d).

Fixpoint pyval_nested_ind (v : pyval) : P v :=
  match v with
  | PyNone => HNone
  | PyBool b => HBool b
  | PyInt z => HInt z
  | PyFloat q => HFloat q
  | PyStr s => HStr s
  | PyList l =>
      HList l
        ((fix all (l : list pyval) : Forall P l :=
            match l with
            | [] => Forall_nil P
            | x :: r => Forall_cons x (pyval_nested_ind x) (all r)
            end) l)
  | PyDict d =>
      HDict d
        ((fix all (d : list (string * pyval))
            : Forall (fun kv => P (snd kv)) d :=
            match d with
            | [] => Forall_nil _
            | kv :: r => Forall_cons kv (pyval_nested_ind (snd kv)) (all r)
            end) d)
  end.

End PyvalInduction.

Lemma dict_lookup_In (k : string) (d : list (string * pyval)) (v : pyval) :
  dict_lookup k d = Some v -> In (k, v) d.
Proof.
  induction d as [|[k' v'] d IH]; [discriminate|].
  cbn [dict_lookup]. destruct (k' =? k)%string eqn:E.
  - intros [= ->]. apply String.eqb_eq in E. subst. left. reflexivity.
  - intros H. right. auto.
Qed.

(** ** The kinds of error of the classifier *)

Section ClassifierKinds.

Variable py_repr : pyval -> string.
Variable utf8_decode : list byte -> result string.

Local Abbreviation handle := (_handle_api_error py_repr utf8_decode).

Lemma raise_for_code_classifier_kind (code msg : pyval) (e : exn) :
  @raise_for_code unit code msg = Raise e ->
  is_classifier_kind (exn_cls e) = true.
Proof.
  unfold raise_for_code, raise.
  repeat match goal with
         | |- context [if ?b then _ else _] => destruct b
         end; intros [= <-]; reflexivity.
Qed.

(** The induction behind X1: whatever the depth of the [result] dicts. *)
Lemma handle_dict_kind (d : list (string * pyval)) (e : exn) :
  handle (PyDict d) = Raise e ->
  is_classifier_kind (exn_cls e) = true.
Proof.
  revert e.
  enough (H : forall v d, v = PyDict d -> forall e,
                handle v = Raise e -> is_classifier_kind (exn_cls e) = true)
    by (intros e; exact (H _ d eq_refl e)).
  clear d. intros v.
  induction v as [| | | | |l _|d IH] using pyval_nested_ind;
    intros d' Hd; try discriminate Hd.
  injection Hd as <-. intros e. rewrite _handle_api_error_dict.
  destruct (py_is_True (dict_get_or "result" d PyNone)); [discriminate|].
  destruct (dict_lookup "Error" d) as [err|].
  { intros [= <-]. reflexivity. }
  destruct (dict_lookup "code" d) as [code|].
  { apply raise_for_code_classifier_kind. }
  destruct (dict_lookup "result" d) as [[| | | | | |d']|] eqn:Hres;
    try discriminate.
  rewrite Forall_forall in IH.
  apply (IH _ (dict_lookup_In _ _ _ Hres) d' eq_refl).
Qed.

(** X1.  When the classifier raises, the response was a dict and the
    error is of one of six kinds (ApiError, BadSignature, TaposError,
    TransactionError, ValidationError, UnknownError), however deep the
    [result] dicts nest; or the response was no dict and the error is the
    AttributeError of [payload.get]. *)
Theorem classifier_error_kinds (payload : pyval) (e : exn) :
  handle payload = Raise e ->
  (exists d, payload = PyDict d)
  /\ is_classifier_kind (exn_cls e) = true
  \/ (forall d, payload <> PyDict d)
     /\ e = Exn AttributeError [PyStr "get"].
Proof.
  intros H. destruct payload as [| | | | | |d];
    try (right; split; [discriminate | cbn in H; now injection H as <-]).
  left. split; [eexists; reflexivity|]. exact (handle_dict_kind _ _ H).
Qed.

End ClassifierKinds.

Lemma classifier_error_kinds_witness :
  _handle_api_error sample_repr sample_utf8_decode
    (PyDict sample_nested_failure) = raise TaposError [PyStr "bad"]
  /\ ((exists d, PyDict sample_nested_failure = PyDict d)
      /\ is_classifier_kind TaposError = true
      \/ (forall d, PyDict sample_nested_failure <> PyDict d)
         /\ Exn TaposError [PyStr "bad"] = Exn AttributeError [PyStr "get"]).
Proof.
  split; [reflexivity|].
  exact (classifier_error_kinds sample_repr sample_utf8_decode
           (PyDict sample_nested_failure) (Exn TaposError [PyStr "bad"])
           eq_refl).
Defined.

(** ** Asking for a receipt *)

Section ReceiptFacts.

Variable py_repr : pyval -> string.
Variable utf8_decode : list byte -> result string.
Variable clock : nat -> float64.
Variable transaction_info_reply : bool -> nat -> result pyval.

Local Abbreviation handle := (_handle_api_error py_repr utf8_decode).
Local Abbreviation info :=
  (get_transaction_info py_repr utf8_decode transaction_info_reply).
Local Abbreviation loop :=
  (wait_loop py_repr utf8_decode clock transaction_info_reply).
Local Abbreviation wait' :=
  (wait py_repr utf8_decode clock transaction_info_reply).

Lemma handle_not_found (v : pyval) (e : exn) :
  handle v = Raise e -> is_TransactionNotFound e = false.
Proof.
  destruct v as [| | | | | |d];
    try (cbn; intros [= <-]; reflexivity).
  intros H. apply (handle_dict_kind py_repr utf8_decode) in H.
  unfold is_TransactionNotFound. destruct (exn_cls e); try reflexivity.
  discriminate H.
Qed.

(** X2.  With an id of 64 characters and a reply [v] of the node,
    [get_transaction_info] raises TransactionNotFound exactly when [v] is
    the empty dict; what it returns is [v] itself, a dict that is not
    empty. *)
Theorem transaction_info_not_found (solid : bool) (k : nat)
  (txn_id v : pyval) :
  py_len txn_id = Ok 64 ->
  transaction_info_reply solid k = Ok v ->
  (v = PyDict [] -> info solid k txn_id = raise TransactionNotFound [])
  /\ (forall e, info solid k txn_id = Raise e ->
                is_TransactionNotFound e = true -> v = PyDict [])
  /\ (forall r, info solid k txn_id = Ok r ->
                r = v /\ exists d, v = PyDict d /\ d <> []).
Proof.
  intros Hlen Hreply. unfold get_transaction_info.
  rewrite Hlen, Hreply. cbn [bind Z.eqb Pos.eqb].
  split; [|split].
  - intros ->. reflexivity.
  - intros e. destruct (handle v) as [[]|e'] eqn:Hh; cbn [bind].
    + destruct v as [| | | | | |[|kv d]]; try discriminate Hh;
        cbn [py_truthy]; try discriminate. reflexivity.
    + intros [= <-] Hnf. rewrite (handle_not_found _ _ Hh) in Hnf.
      discriminate Hnf.
  - intros r. destruct (handle v) as [[]|e'] eqn:Hh; cbn [bind];
      [|discriminate].
    destruct v as [| | | | | |[|kv d]]; try discriminate Hh;
      cbn [py_truthy]; try discriminate.
    intros [= <-]. split; [reflexivity|]. eexists. split; [reflexivity|].
    discriminate.
Qed.

Lemma info_returned (solid : bool) (k : nat) (txn_id r : pyval) :
  info solid k txn_id = Ok r ->
  py_len txn_id = Ok 64
  /\ transaction_info_reply solid k = Ok r
  /\ handle r = Ok tt
  /\ py_truthy r = true.
Proof.
  unfold get_transaction_info. intros H.
  destruct (py_len txn_id) as [n|]; [|discriminate H]. cbn [bind] in H.
  destruct (n =? 64) eqn:En; [|discriminate H]. cbn [bind] in H.
  apply Z.eqb_eq in En. subst n.
  destruct (transaction_info_reply solid k) as [ret|]; [|discriminate H].
  cbn [bind] in H.
  destruct (handle ret) as [[]|] eqn:Hh; [|discriminate H]. cbn [bind] in H.
  destruct (py_truthy ret) eqn:Ht; [|discriminate H].
  injection H as <-. repeat split; assumption.
Qed.

(** X3.  A receipt that [wait] returns is a reply of the node as it came:
    a dict that is not empty and that passes the classifier; and the id
    that was asked for has 64 characters. *)
Theorem wait_returns_reply (fuel : nat) (timeout : number) (interval : Q)
  (solid : bool)
  (self : AsyncTransactionRet) (events : list event) (receipt : pyval) :
  wait' fuel timeout interval solid self = (events, Some (Ok receipt)) ->
  py_len (ret_txid self) = Ok 64
  /\ (exists n, (n < fuel)%nat
                /\ transaction_info_reply solid n = Ok receipt)
  /\ (exists d, receipt = PyDict d /\ d <> [])
  /\ handle receipt = Ok tt.
Proof.
  unfold wait. intros H.
  destruct (float_plus (clock O) timeout) as [end_time|];
    [|discriminate H].
  destruct (loop fuel solid (ret_txid self) interval end_time O)
    as [events' outcome'] eqn:Hloop.
  injection H as _ ->.
  destruct (wait_loop_rounds _ _ _ _ _ _ _ _ _ _ _ _ Hloop)
    as (n & last & Hn & Hev & Hrounds & Hend).
  destruct Hend as [(Hnone & _)|Hend]; [discriminate Hnone|].
  cbn [Nat.add] in Hend.
  assert (Hfuel : (n < fuel)%nat).
  { destruct (Nat.eq_dec n fuel) as [->|]; [|lia]. exfalso.
    clear - Hloop Hrounds Hend.
    assert (Hx : forall f k ev out,
               loop f solid (ret_txid self) interval end_time k
               = (ev, out) ->
               (forall j, (k <= j < k + f)%nat ->
                  not_found_round py_repr utf8_decode clock
                    transaction_info_reply solid (ret_txid self)
                    end_time j) ->
               out = None).
    { induction f as [|f IH]; intros k ev out Hl Hr; cbn [wait_loop] in Hl.
      - now injection Hl as _ <-.
      - destruct (Hr k ltac:(lia)) as [Hlt (e & He & Hnf)].
        rewrite Hlt, He, Hnf in Hl.
        destruct (loop f solid (ret_txid self) interval
                    end_time (S k)) as [ev' out'] eqn:Hrec.
        injection Hl as _ <-. eapply IH; [exact Hrec|].
        intros j Hj. apply Hr. lia. }
    specialize (Hx _ _ _ _ Hloop Hrounds). discriminate Hx. }
  inversion Hend as [| r Hlt Hinfo |]; subst.
  destruct (info_returned _ _ _ _ Hinfo) as (Hlen & Hreply & Hh & Ht).
  split; [exact Hlen|]. split; [exists n; auto|]. split; [|exact Hh].
  destruct receipt as [| | | | | |[|kv d]]; try discriminate Hh;
    try discriminate Ht.
  eexists. split; [reflexivity | discriminate].
Qed.

(** X4.  When the id of the handle has a length other than 64, [wait]
    ends at its first poll with BadHash, whatever the node would answer,
    provided the first reading in the loop is before the deadline, the
    sum of the first reading and the timeout as the addition of floats
    rounds it. *)
Theorem wait_bad_hash (fuel : nat) (timeout : number) (interval : Q)
  (solid : bool) (self : AsyncTransactionRet) (n : Z) (end_time : float64) :
  py_len (ret_txid self) = Ok n ->
  n <> 64 ->
  float_plus (clock O) timeout = Ok end_time ->
  float_lt (clock 1%nat) end_time = true ->
  fuel <> O ->
  wait' fuel timeout interval solid self
  = ([ Clock (clock O); Clock (clock 1%nat);
       Poll (raise BadHash [PyStr "wrong transaction hash length"]) ],
     Some (raise BadHash [PyStr "wrong transaction hash length"])).
Proof.
  intros Hlen Hn Hsum Hlt Hfuel. destruct fuel as [|fuel]; [congruence|].
  unfold wait. rewrite Hsum. cbn [wait_loop]. rewrite Hlt.
  unfold get_transaction_info. rewrite Hlen. cbn [bind].
  destruct (n =? 64) eqn:E; [apply Z.eqb_eq in E; congruence|].
  reflexivity.
Qed.

End ReceiptFacts.

Lemma transaction_info_not_found_witness :
  get_transaction_info sample_repr sample_utf8_decode sample_info_reply
    false O sample_txid
  = raise TransactionNotFound [].
Proof.
  exact (proj1 (transaction_info_not_found sample_repr sample_utf8_decode
                  sample_info_reply false O sample_txid (PyDict [])
                  eq_refl eq_refl) eq_refl).
Defined.

Lemma wait_returns_reply_witness :
  py_len sample_txid = Ok 64
  /\ (exists n, (n < 5)%nat /\ sample_info_reply false n = Ok sample_receipt)
  /\ (exists d, sample_receipt = PyDict d /\ d <> [])
  /\ _handle_api_error sample_repr sample_utf8_decode sample_receipt = Ok tt.
Proof.
  exact (wait_returns_reply sample_repr sample_utf8_decode ticking_clock
           sample_info_reply 5 (NInt 30) 1.6 false sample_ret _
           sample_receipt
           eq_refl).
Defined.

Lemma wait_bad_hash_witness :
  wait sample_repr sample_utf8_decode ticking_clock sample_info_reply
    5 (NInt 30) 1.6 false sample_short_ret
  = ([ Clock (float_of_Z 100); Clock (float_of_Z 101);
       Poll (raise BadHash [PyStr "wrong transaction hash length"]) ],
     Some (raise BadHash [PyStr "wrong transaction hash length"])).
Proof.
  apply (wait_bad_hash sample_repr sample_utf8_decode ticking_clock
           sample_info_reply 5 (NInt 30) 1.6 false
           sample_short_ret 4 (float_of_Z 130) eq_refl).
  - discriminate.
  - reflexivity.
  - reflexivity.
  - discriminate.
Defined.

(** ** Signing that succeeds *)

Section SigningFacts.

Variable py_repr : pyval -> string.

Local Abbreviation sign' := (sign py_repr).

Lemma key_listed_some (addr : string) (before after : list pyval)
  (entry : pyval) :
  Forall (fun k => exists a, py_getitem k "address" = Ok a) before ->
  py_getitem entry "address" = Ok (PyStr addr) ->
  key_listed addr (before ++ entry :: after) = Ok true.
Proof.
  intros Hb He. induction Hb as [|k before (a & Ha) _ IH].
  - cbn [app key_listed]. rewrite He. cbn [bind py_eq_str].
    rewrite String.eqb_refl. reflexivity.
  - cbn [app key_listed]. rewrite Ha. cbn [bind].
    destruct (py_eq_str a addr); [reflexivity | exact IH].
Qed.

Lemma sign_accepts (now : Z) (key : PrivateKey) (self : AsyncTransaction)
  (digest : list byte) (sigs : list pyval) (sig : string) :
  signable now self digest sigs ->
  permits (_permission self) (pk_hex_address key) ->
  pk_sign_msg_hash key digest = Ok sig ->
  sign' now key self
  = (Ok tt, set_signature (PyList (sigs ++ [PyStr sig])) self).
Proof.
  intros (Hid & Hexp & Hhex & Hsig) Hperm Hsign. unfold sign.
  rewrite Hid, Hexp. cbn [py_assert bind negb].
  destruct Hperm as [->|(p & before & entry & after & -> & Hkeys & Hb & He)].
  - cbn [bind]. rewrite Hhex. cbn [bind]. rewrite Hsign, Hsig. reflexivity.
  - cbn [permission_keys py_getitem]. rewrite Hkeys. cbn [bind py_iter].
    rewrite (key_listed_some _ _ _ _ Hb He). cbn [bind].
    rewrite Hhex. cbn [bind]. rewrite Hsign, Hsig. reflexivity.
Qed.

Lemma signable_after (now now' : Z) (self : AsyncTransaction)
  (digest : list byte) (sigs sigs' : list pyval) :
  signable now self digest sigs ->
  is_expired now' self = Ok false ->
  signable now' (set_signature (PyList sigs') self) digest sigs'.
Proof.
  intros (Hid & _ & Hhex & _) Hexp. repeat split; assumption.
Qed.

(** X5.  A call of [sign] on a transaction that has a hexadecimal id and
    is not expired, with a key that the permission lets sign, adds the
    signature of the id by that key at the end of the list and changes
    nothing else. *)
Theorem sign_appends_signature (now : Z) (key : PrivateKey)
  (self : AsyncTransaction) (digest : list byte) (sigs : list pyval)
  (sig : string) :
  signable now self digest sigs ->
  permits (_permission self) (pk_hex_address key) ->
  pk_sign_msg_hash key digest = Ok sig ->
  exists self',
    sign' now key self = (Ok tt, self')
    /\ _signature self' = PyList (sigs ++ [PyStr sig])
    /\ txid self' = txid self
    /\ _raw_data self' = _raw_data self
    /\ _permission self' = _permission self.
Proof.
  intros Hs Hp Hk. eexists. split; [exact (sign_accepts _ _ _ _ _ _ Hs Hp Hk)|].
  repeat split.
Qed.

(** X6.  Two keys that the permission lets sign may sign in either
    order: both calls succeed, the two signatures come last in the order
    of the calls, and the two lists hold the same signatures.  [sign]
    keeps no record of who signed: the same key twice signs twice. *)
Theorem sign_in_either_order (now1 now2 : Z) (a b : PrivateKey)
  (self : AsyncTransaction) (digest : list byte) (sigs : list pyval)
  (sig_a sig_b : string) :
  signable now1 self digest sigs ->
  is_expired now2 self = Ok false ->
  permits (_permission self) (pk_hex_address a) ->
  permits (_permission self) (pk_hex_address b) ->
  pk_sign_msg_hash a digest = Ok sig_a ->
  pk_sign_msg_hash b digest = Ok sig_b ->
  let ab := set_signature (PyList (sigs ++ [PyStr sig_a; PyStr sig_b])) self in
  let ba := set_signature (PyList (sigs ++ [PyStr sig_b; PyStr sig_a])) self in
  sign' now2 b (snd (sign' now1 a self)) = (Ok tt, ab)
  /\ sign' now2 a (snd (sign' now1 b self)) = (Ok tt, ba)
  /\ Permutation (sigs ++ [PyStr sig_a; PyStr sig_b])
                 (sigs ++ [PyStr sig_b; PyStr sig_a]).
Proof.
  intros Hs Hexp Ha Hb Hka Hkb ab ba.
  rewrite (sign_accepts _ _ _ _ _ _ Hs Ha Hka).
  rewrite (sign_accepts _ _ _ _ _ _ Hs Hb Hkb). cbn [snd].
  split; [|split].
  - rewrite (sign_accepts now2 b _ digest (sigs ++ [PyStr sig_a]) sig_b).
    + unfold ab, set_signature. cbn. rewrite <- app_assoc. reflexivity.
    + eapply signable_after; eassumption.
    + exact Hb.
    + exact Hkb.
  - rewrite (sign_accepts now2 a _ digest (sigs ++ [PyStr sig_b]) sig_a).
    + unfold ba, set_signature. cbn. rewrite <- app_assoc. reflexivity.
    + eapply signable_after; eassumption.
    + exact Ha.
    + exact Hka.
  - apply Permutation_app_head. apply perm_swap.
Qed.

End SigningFacts.

Lemma sample_multisig_signable :
  signable 2000 sample_multisig [xab; x12] [PyStr "77aa"].
Proof. repeat split. Qed.

Lemma sign_appends_signature_witness :
  exists self',
    sign sample_repr 2000 sample_key sample_multisig = (Ok tt, self')
    /\ _signature self' = PyList ([PyStr "77aa"] ++ [PyStr "5c1f"])
    /\ txid self' = txid sample_multisig
    /\ _raw_data self' = _raw_data sample_multisig
    /\ _permission self' = _permission sample_multisig.
Proof.
  apply (sign_appends_signature sample_repr 2000 sample_key sample_multisig
           [xab; x12] [PyStr "77aa"] "5c1f" sample_multisig_signable).
  - right. exists sample_permission_both.
    eexists [_], _, []. repeat split.
    repeat constructor. eexists. reflexivity.
  - reflexivity.
Defined.

Lemma sign_in_either_order_witness :
  sign sample_repr 3000 sample_key_b
    (snd (sign sample_repr 2000 sample_key sample_multisig))
  = (Ok tt,
     set_signature (PyList [PyStr "77aa"; PyStr "5c1f"; PyStr "9d0e"])
       sample_multisig)
  /\ sign sample_repr 3000 sample_key
       (snd (sign sample_repr 2000 sample_key_b sample_multisig))
     = (Ok tt,
        set_signature (PyList [PyStr "77aa"; PyStr "9d0e"; PyStr "5c1f"])
          sample_multisig)
  /\ Permutation [PyStr "77aa"; PyStr "5c1f"; PyStr "9d0e"]
                 [PyStr "77aa"; PyStr "9d0e"; PyStr "5c1f"].
Proof.
  apply (sign_in_either_order sample_repr 2000 3000 sample_key sample_key_b
           sample_multisig [xab; x12] [PyStr "77aa"] "5c1f" "9d0e"
           sample_multisig_signable eq_refl).
  - right. exists sample_permission_both.
    eexists [_], _, []. repeat split.
    repeat constructor. eexists. reflexivity.
  - right. exists sample_permission_both.
    eexists [], _, [_]. repeat split. constructor.
  - reflexivity.
  - reflexivity.
Defined.

(** ** Dicts that are written to *)

Lemma dict_lookup_set_same (k : string) (v : pyval)
  (d : list (string * pyval)) :
  dict_lookup k (dict_set k v d) = Some v.
Proof.
  induction d as [|[k' v'] d IH]; cbn [dict_set dict_lookup].
  - rewrite String.eqb_refl. reflexivity.
  - destruct (k' =? k)%string eqn:E; cbn [dict_lookup].
    + rewrite String.eqb_refl. reflexivity.
    + rewrite E. exact IH.
Qed.

Lemma dict_lookup_set_other (k k' : string) (v : pyval)
  (d : list (string * pyval)) :
  k <> k' -> dict_lookup k' (dict_set k v d) = dict_lookup k' d.
Proof.
  intros Hne. induction d as [|[k0 v0] d IH]; cbn [dict_set dict_lookup].
  - destruct (k =? k')%string eqn:E; [|reflexivity].
    apply String.eqb_eq in E. contradiction.
  - destruct (k0 =? k)%string eqn:E; cbn [dict_lookup].
    + apply String.eqb_eq in E. subst k0.
      destruct (k =? k')%string eqn:E'; [|reflexivity].
      apply String.eqb_eq in E'. contradiction.
    + destruct (k0 =? k')%string; [reflexivity | exact IH].
Qed.

(** ** Re-anchoring a transaction *)

Section UpdateFacts.

Variable py_repr : pyval -> string.
Variable utf8_decode : list byte -> result string.
Variable get_sign_weight : pyval -> result pyval.
Variable getnodeinfo : result pyval.
Variable getnowblock_solid : result pyval.

Local Abbreviation handle := (_handle_api_error py_repr utf8_decode).
Local Abbreviation anchor :=
  (get_latest_solid_block_id getnodeinfo getnowblock_solid).
Local Abbreviation update' :=
  (update py_repr utf8_decode get_sign_weight getnodeinfo getnowblock_solid).

(** [update] up to its request: the state it asks the node about, and
    what it does with the answer. *)
Lemma update_asks (now : Z) (ref : string) (rd : list (string * pyval))
  (self : AsyncTransaction) (sent : list pyval) :
  _raw_data self = PyDict rd ->
  anchor = Ok (PyStr ref) ->
  let asked := reanchored now ref rd self in
  let sent' := (sent ++ [to_json asked])%list in
  update' now (self, sent)
  = match get_sign_weight (to_json asked) with
    | Raise e => (Raise e, (asked, sent'))
    | Ok sign_weight =>
        match py_contains "transaction" sign_weight with
        | Raise e => (Raise e, (asked, sent'))
        | Ok false =>
            match handle sign_weight with
            | Raise e => (Raise e, (asked, sent'))
            | Ok _ => (Ok tt, (asked, sent'))
            end
        | Ok true =>
            match
              outer <- py_getitem sign_weight "transaction" ;;
              inner <- py_getitem outer "transaction" ;;
              py_getitem inner "txID"
            with
            | Raise e => (Raise e, (asked, sent'))
            | Ok new_txid =>
                match py_get sign_weight "permission" PyNone with
                | Raise e => (Raise e, (set_txid new_txid asked, sent'))
                | Ok p =>
                    (Ok tt,
                     (set_signature (PyList [])
                        (set_permission (Known p) (set_txid new_txid asked)),
                      sent'))
                end
            end
        end
    end.
Proof.
  intros Hraw Hanchor asked sent'.
  unfold update, st_bind, raw_setitem, raw_getitem, st_lift, assign,
    ask_sign_weight.
  cbn [fst snd]. rewrite Hraw. cbn [py_setitem set_raw_data _raw_data
    py_getitem fst snd].
  rewrite dict_lookup_set_same. cbn [py_add_int py_setitem].
  rewrite Hanchor. cbn [py_slice py_setitem].
  fold (reanchored_times now rd). fold (reanchored_raw_data now ref rd).
  match goal with
  | |- context [to_json ?t] => change t with asked
  end.
  destruct (get_sign_weight (to_json asked)) as [sw|e]; [|reflexivity].
  destruct (py_contains "transaction" sw) as [[|]|e]; cbn [negb];
    [| |reflexivity].
  - destruct (outer <- py_getitem sw "transaction" ;; _) as [id|e];
      [|reflexivity].
    cbn [fst snd].
    destruct (py_get sw "permission" PyNone) as [p|e]; reflexivity.
  - destruct (handle sw) as [[]|e]; reflexivity.
Qed.

Lemma reanchored_expiration (now : Z) (ref : string)
  (rd : list (string * pyval)) :
  dict_lookup "expiration" (reanchored_raw_data now ref rd)
  = Some (PyInt (now + 60000)).
Proof.
  unfold reanchored_raw_data, reanchored_times.
  rewrite !dict_lookup_set_other by discriminate.
  apply dict_lookup_set_same.
Qed.

(** X7.  When the node's answer to the weight check of [update] has no
    [transaction] and passes the classifier, [update] returns normally
    (the [return] marked unreachable is reached) and leaves a transaction
    without id, permission and signatures, which [sign] turns away; on
    the same answer [check_sign_weight] raises TransactionError. *)
Theorem update_returns_without_txid (now : Z) (ref : string)
  (rd d : list (string * pyval)) (self : AsyncTransaction)
  (sent : list pyval) :
  _raw_data self = PyDict rd ->
  anchor = Ok (PyStr ref) ->
  get_sign_weight (to_json (reanchored now ref rd self)) = Ok (PyDict d) ->
  dict_lookup "transaction" d = None ->
  handle (PyDict d) = Ok tt ->
  let asked := reanchored now ref rd self in
  update' now (self, sent) = (Ok tt, (asked, (sent ++ [to_json asked])%list))
  /\ (forall now' key,
        sign py_repr now' key asked
        = (raise AssertionError [PyStr "txID not calculated"], asked))
  /\ check_sign_weight py_repr utf8_decode get_sign_weight asked
     = (raise TransactionError [PyStr "transaction not in sign_weight"],
        asked, [to_json asked]).
Proof.
  intros Hraw Hanchor Hreply Hnone Hpass asked. subst asked.
  split; [|split].
  - rewrite (update_asks now ref rd self sent Hraw Hanchor).
    cbv zeta. rewrite Hreply. cbn [py_contains]. rewrite Hnone, Hpass.
    reflexivity.
  - intros now' key. reflexivity.
  - unfold check_sign_weight. rewrite Hreply.
    cbn [bind py_contains]. rewrite Hnone, Hpass. reflexivity.
Qed.

(** X8.  When the node's answer carries [transaction.transaction.txID],
    [update] sends that one request and leaves a transaction with the
    node's id and permission ([None] when the answer has none), no
    signature, the anchor's slices 12-16 and 16-32 as reference block, and
    an expiration 60000 ms after the reading of the clock. *)
Theorem update_revalidates (now : Z) (ref : string)
  (rd d : list (string * pyval)) (self : AsyncTransaction)
  (sent : list pyval) (outer inner new_txid : pyval) :
  _raw_data self = PyDict rd ->
  anchor = Ok (PyStr ref) ->
  get_sign_weight (to_json (reanchored now ref rd self)) = Ok (PyDict d) ->
  dict_lookup "transaction" d = Some outer ->
  py_getitem outer "transaction" = Ok inner ->
  py_getitem inner "txID" = Ok new_txid ->
  exists self',
    update' now (self, sent)
    = (Ok tt, (self', (sent ++ [to_json (reanchored now ref rd self)])%list))
    /\ txid self' = new_txid
    /\ _permission self' = Known (dict_get_or "permission" d PyNone)
    /\ _signature self' = PyList []
    /\ _raw_data self' = PyDict (reanchored_raw_data now ref rd)
    /\ forall now', is_expired now' self' = Ok (now + 60000 <=? now').
Proof.
  intros Hraw Hanchor Hreply Houter Hinner Hid.
  eexists. split.
  - rewrite (update_asks now ref rd self sent Hraw Hanchor).
    cbv zeta. rewrite Hreply. cbn [py_contains py_getitem].
    rewrite Houter. cbn [bind]. rewrite Hinner. cbn [bind]. rewrite Hid.
    rewrite py_get_dict. reflexivity.
  - cbn. repeat split. intros now'. unfold is_expired. cbn [_raw_data
      set_signature set_permission set_txid reanchored py_getitem].
    rewrite reanchored_expiration. reflexivity.
Qed.

(** X9.  When the anchor block cannot be fetched [update] raises after
    having moved [timestamp] and [expiration]: the id, the permission and
    the signatures stay those made for the old raw data, and the node is
    not asked for a weight check. *)
Theorem update_stops_at_anchor (now : Z) (rd : list (string * pyval))
  (self : AsyncTransaction) (sent : list pyval) (e : exn) :
  _raw_data self = PyDict rd ->
  anchor = Raise e ->
  update' now (self, sent)
  = (Raise e, (set_raw_data (PyDict (reanchored_times now rd)) self, sent))
  /\ forall now',
       is_expired now'
         (set_raw_data (PyDict (reanchored_times now rd)) self)
       = Ok (now + 60000 <=? now').
Proof.
  intros Hraw Hanchor. split.
  - unfold update, st_bind, raw_setitem, raw_getitem, st_lift.
    cbn [fst snd]. rewrite Hraw. cbn [py_setitem set_raw_data _raw_data
      py_getitem fst snd].
    rewrite dict_lookup_set_same. cbn [py_add_int py_setitem].
    rewrite Hanchor. reflexivity.
  - intros now'. unfold is_expired, reanchored_times.
    cbn [_raw_data set_raw_data py_getitem].
    rewrite dict_lookup_set_same. reflexivity.
Qed.

(** X10.  After an [update] that got an id from the node, a key that the
    new permission lets sign, signing before the new expiration, leaves
    its signature as the only one: what was signed before [update] is
    gone. *)
Theorem update_then_sign (now now' : Z) (ref : string)
  (rd d : list (string * pyval)) (self : AsyncTransaction)
  (sent : list pyval) (outer inner new_txid : pyval) (key : PrivateKey)
  (digest : list byte) (sig : string) :
  _raw_data self = PyDict rd ->
  anchor = Ok (PyStr ref) ->
  get_sign_weight (to_json (reanchored now ref rd self)) = Ok (PyDict d) ->
  dict_lookup "transaction" d = Some outer ->
  py_getitem outer "transaction" = Ok inner ->
  py_getitem inner "txID" = Ok new_txid ->
  py_truthy new_txid = true ->
  bytes_fromhex new_txid = Ok digest ->
  permits (Known (dict_get_or "permission" d PyNone)) (pk_hex_address key) ->
  pk_sign_msg_hash key digest = Ok sig ->
  now' < now + 60000 ->
  exists self',
    fst (snd (update' now (self, sent))) = self'
    /\ fst (update' now (self, sent)) = Ok tt
    /\ sign py_repr now' key self'
       = (Ok tt, set_signature (PyList [PyStr sig]) self').
Proof.
  intros Hraw Hanchor Hreply Houter Hinner Hid Htruthy Hhex Hperm Hsig Hlt.
  rewrite (update_asks now ref rd self sent Hraw Hanchor).
  cbv zeta. rewrite Hreply. cbn [py_contains py_getitem].
  rewrite Houter. cbn [bind]. rewrite Hinner. cbn [bind]. rewrite Hid.
  rewrite py_get_dict. cbn [fst snd].
  eexists. split; [reflexivity|]. split; [reflexivity|].
  apply (sign_accepts py_repr now' key _ digest [] sig).
  - repeat split; try assumption.
    unfold is_expired. cbn [_raw_data set_signature set_permission set_txid
      reanchored py_getitem].
    rewrite reanchored_expiration. cbn [bind py_int_ge].
    destruct (now + 60000 <=? now') eqn:E; [|reflexivity].
    apply Z.leb_le in E. lia.
  - exact Hperm.
  - exact Hsig.
Qed.

End UpdateFacts.

Lemma update_returns_without_txid_witness :
  update sample_repr sample_utf8_decode sample_empty_sign_weight
    sample_nodeinfo sample_nowblock 70000 (sample_transaction, [])
  = (Ok tt,
     (reanchored 70000 sample_block_id sample_raw_data sample_transaction,
      [to_json (reanchored 70000 sample_block_id sample_raw_data
                  sample_transaction)])).
Proof.
  exact (proj1 (update_returns_without_txid sample_repr sample_utf8_decode
                  sample_empty_sign_weight sample_nodeinfo sample_nowblock
                  70000 sample_block_id sample_raw_data [] sample_transaction
                  [] eq_refl eq_refl eq_refl eq_refl eq_refl)).
Defined.

Lemma update_revalidates_witness :
  exists self',
    update sample_repr sample_utf8_decode sample_get_sign_weight
      sample_nodeinfo sample_nowblock 70000 (sample_transaction, [])
    = (Ok tt,
       (self',
        ([] ++ [to_json (reanchored 70000 sample_block_id sample_raw_data
                           sample_transaction)])%list))
    /\ txid self' = PyStr "cd34"
    /\ _permission self'
       = Known (dict_get_or "permission"
                  [ ("result", PyDict [("result", PyBool true)]);
                    ("permission", PyDict sample_permission);
                    ("transaction",
                      PyDict [ ("result", PyDict [("result", PyBool true)]);
                               ("transaction",
                                 PyDict [("txID", PyStr "cd34")]) ]) ]
                  PyNone)
    /\ _signature self' = PyList []
    /\ _raw_data self'
       = PyDict (reanchored_raw_data 70000 sample_block_id sample_raw_data)
    /\ forall now', is_expired now' self' = Ok (70000 + 60000 <=? now').
Proof.
  exact (update_revalidates sample_repr sample_utf8_decode
           sample_get_sign_weight sample_nodeinfo sample_nowblock
           70000 sample_block_id sample_raw_data _ sample_transaction []
           _ _ (PyStr "cd34") eq_refl eq_refl eq_refl eq_refl eq_refl
           eq_refl).
Defined.

Lemma update_stops_at_anchor_witness :
  update sample_repr sample_utf8_decode sample_get_sign_weight
    sample_no_nodeinfo sample_no_nodeinfo 70000 (sample_transaction, [])
  = (raise (OtherError "ConnectError") [],
     (set_raw_data (PyDict (reanchored_times 70000 sample_raw_data))
        sample_transaction, [])).
Proof.
  exact (proj1 (update_stops_at_anchor sample_repr sample_utf8_decode
                  sample_get_sign_weight sample_no_nodeinfo
                  sample_no_nodeinfo 70000 sample_raw_data
                  sample_transaction [] _ eq_refl eq_refl)).
Defined.

Lemma update_then_sign_witness :
  exists self',
    fst (snd (update sample_repr sample_utf8_decode sample_get_sign_weight
                sample_nodeinfo sample_nowblock 70000
                (sample_multisig, []))) = self'
    /\ fst (update sample_repr sample_utf8_decode sample_get_sign_weight
              sample_nodeinfo sample_nowblock 70000 (sample_multisig, []))
       = Ok tt
    /\ sign sample_repr 80000 sample_key_b self'
       = (Ok tt, set_signature (PyList [PyStr "9d0e"]) self').
Proof.
  apply (update_then_sign sample_repr sample_utf8_decode
           sample_get_sign_weight sample_nodeinfo sample_nowblock
           70000 80000 sample_block_id sample_raw_data _ sample_multisig []
           _ _ (PyStr "cd34") sample_key_b [xcd; x34] "9d0e"
           eq_refl eq_refl eq_refl eq_refl eq_refl eq_refl eq_refl eq_refl).
  - right. exists sample_permission. eexists [], _, []. repeat split.
    constructor.
  - reflexivity.
  - lia.
Defined.

(** ** The latest block, as the node info writes it *)

Lemma prefix_append (s t : string) : prefix s (s ++ t) = true.
Proof.
  induction s as [|c s IH]; [destruct t; reflexivity|].
  cbn. destruct (ascii_dec c c); [exact IH | contradiction].
Qed.

Lemma substring_whole (s : string) : substring 0 (String.length s) s = s.
Proof. induction s as [|c s IH]; [reflexivity|]. cbn. now rewrite IH. Qed.

Lemma length_append (s t : string) :
  String.length (s ++ t) = (String.length s + String.length t)%nat.
Proof. induction s as [|c s IH]; [reflexivity|]. cbn. now rewrite IH. Qed.

Lemma str_from_append (s t : string) : str_from (String.length s) (s ++ t) = t.
Proof.
  unfold str_from. rewrite length_append.
  replace (String.length s + String.length t - String.length s)%nat
    with (String.length t) by lia.
  induction s as [|c s IH]; [apply substring_whole|]. exact IH.
Qed.

Lemma split_once_cons (sep : string) (x : ascii) (s : string) :
  split_once sep (String x s)
  = if prefix sep (String x s)
    then Some ("", str_from (String.length sep) (String x s))
    else match split_once sep s with
         | Some (before, after) => Some (String x before, after)
         | None => None
         end.
Proof. reflexivity. Qed.

(** [split] finds a separator where it first stands: after text that does
    not hold the first character of the separator. *)
Lemma split_once_found (c : ascii) (sep before after : string) :
  forallb (fun x => negb (Ascii.eqb x c)) (list_ascii_of_string before) = true ->
  split_once (String c sep) (before ++ String c sep ++ after)
  = Some (before, after).
Proof.
  induction before as [|x before IH]; intros H.
  - cbn [append split_once].
    change (String c (sep ++ after)) with (String c sep ++ after).
    rewrite prefix_append.
    rewrite (str_from_append (String c sep) after). reflexivity.
  - cbn [list_ascii_of_string forallb] in H.
    apply andb_true_iff in H as [Hx H].
    cbn [append]. rewrite split_once_cons. cbn [prefix].
    destruct (ascii_dec c x) as [->|Hne].
    + rewrite Ascii.eqb_refl in Hx. discriminate Hx.
    + specialize (IH H). cbn [append] in IH. rewrite IH. reflexivity.
Qed.

Lemma dec_digit_plain (c : ascii) :
  is_dec_digit c = true ->
  is_space c = false /\ Ascii.eqb c "_" = false /\ Ascii.eqb c "+" = false
  /\ Ascii.eqb c "-" = false /\ Ascii.eqb c "," = false.
Proof.
  destruct c as [[|] [|] [|] [|] [|] [|] [|] [|]]; vm_compute;
    intros H; try discriminate H; repeat split.
Qed.

Lemma scan_dec_digits (l : list ascii) (acc : Z) (n : nat) :
  forallb is_dec_digit l = true ->
  scan_dec false acc n l
  = Some (fold_left
            (fun a c => 10 * a + match dec_digit c with
                                 | Some d => d
                                 | None => 0
                                 end) l acc,
          (n + List.length l)%nat, []).
Proof.
  revert acc n. induction l as [|c l IH]; intros acc n H.
  - cbn. rewrite Nat.add_0_r. reflexivity.
  - cbn [forallb] in H. apply andb_true_iff in H as [Hc Hl].
    destruct (dec_digit_plain c Hc) as (_ & Hu & _).
    cbn [scan_dec fold_left List.length]. rewrite Hu.
    unfold is_dec_digit in Hc. destruct (dec_digit c) as [d|]; [|discriminate].
    rewrite (IH _ _ Hl). rewrite Nat.add_succ_r. reflexivity.
Qed.

(** [int(s)] on a string of decimal digits is the number they write. *)
Lemma py_int_dec_string (s : string) :
  is_dec_string s = true ->
  (String.length s <= int_max_str_digits)%nat ->
  py_int (PyStr s) = Ok (dec_value s).
Proof.
  unfold is_dec_string, py_int, dec_value. intros H Hlen.
  assert (Hl : List.length (list_ascii_of_string s) = String.length s).
  { clear. induction s as [|c s IH]; [reflexivity|]. cbn. now rewrite IH. }
  rewrite <- Hl in Hlen. clear Hl.
  destruct (list_ascii_of_string s) as [|c l]; [discriminate|].
  pose proof H as Hall.
  cbn [forallb] in H. apply andb_true_iff in H as [Hc _].
  destruct (dec_digit_plain c Hc) as (Hs & Hu & Hp & Hm & _).
  unfold int10_chars. cbn [skip_spaces]. rewrite Hs.
  unfold strip_sign. rewrite Hp, Hm, Hu.
  rewrite (scan_dec_digits _ _ _ Hall). cbn [Nat.add List.length skip_spaces].
  destruct (int_max_str_digits <? S (List.length l))%nat eqn:E.
  - apply Nat.ltb_lt in E. cbn [List.length] in Hlen. lia.
  - reflexivity.
Qed.

Lemma digits_hold_no_comma (digits : string) :
  is_dec_string digits = true ->
  forallb (fun x => negb (Ascii.eqb x ","))
    (list_ascii_of_string ("Num:" ++ digits)) = true.
Proof.
  unfold is_dec_string. intros H. cbn.
  destruct (list_ascii_of_string digits) as [|c l]; [discriminate|].
  apply forallb_forall. intros x Hx.
  rewrite forallb_forall in H.
  destruct (dec_digit_plain x (H x Hx)) as (_ & _ & _ & _ & ->). reflexivity.
Qed.

Lemma remove_num (digits : string) :
  str_remove_first "Num:" ("Num:" ++ digits) = digits.
Proof.
  unfold str_remove_first. cbn [append]. rewrite split_once_cons.
  change (String "N" (String "u" (String "m" (String ":" digits))))
    with ("Num:" ++ digits).
  rewrite prefix_append, (str_from_append "Num:" digits). reflexivity.
Qed.

Section AnchorFacts.

Variable getnodeinfo : result pyval.
Variable getnowblock_solid : result pyval.

(** X11.  When the node info gives [block] and [solidityBlock] as
    "Num:<digits>,ID:<id>", the block numbers are the numbers the digits
    write and the block ids are the texts after the first ",ID:"; the
    solid id comes from the node info, without the request for the latest
    solid block. *)
Theorem node_info_decodes (info : pyval)
  (digits id solid_digits solid_id : string) :
  getnodeinfo = Ok info ->
  py_getitem info "block" = Ok (PyStr ("Num:" ++ digits ++ ",ID:" ++ id)) ->
  py_getitem info "solidityBlock"
  = Ok (PyStr ("Num:" ++ solid_digits ++ ",ID:" ++ solid_id)) ->
  is_dec_string digits = true ->
  is_dec_string solid_digits = true ->
  (String.length digits <= int_max_str_digits)%nat ->
  (String.length solid_digits <= int_max_str_digits)%nat ->
  get_latest_block_number getnodeinfo = Ok (dec_value digits)
  /\ get_latest_block_id getnodeinfo = Ok id
  /\ get_latest_solid_block_number getnodeinfo = Ok (dec_value solid_digits)
  /\ get_latest_solid_block_id getnodeinfo getnowblock_solid
     = Ok (PyStr solid_id).
Proof.
  intros Hinfo Hblock Hsolid Hd Hsd Hlen Hslen.
  assert (Hsplit : forall ds i, is_dec_string ds = true ->
            split_once ",ID:" ("Num:" ++ ds ++ ",ID:" ++ i)
            = Some ("Num:" ++ ds, i)).
  { intros ds i Hds.
    pose proof (split_once_found "," "ID:" ("Num:" ++ ds) i
                  (digits_hold_no_comma ds Hds)) as H.
    rewrite <- H. reflexivity. }
  unfold get_latest_block_number, get_latest_block_id,
    get_latest_solid_block_number, get_latest_solid_block_id.
  rewrite Hinfo. cbn [bind try_except]. rewrite Hblock, Hsolid.
  cbn [bind py_split_first py_split_last].
  rewrite (Hsplit _ _ Hd), (Hsplit _ _ Hsd). cbn [bind try_except].
  rewrite !remove_num.
  rewrite (py_int_dec_string _ Hd Hlen), (py_int_dec_string _ Hsd Hslen).
  repeat split.
Qed.

End AnchorFacts.

Lemma node_info_decodes_witness :
  get_latest_block_number sample_nodeinfo = Ok 66
  /\ get_latest_block_id sample_nodeinfo = Ok sample_block_id
  /\ get_latest_solid_block_number sample_nodeinfo = Ok 64
  /\ get_latest_solid_block_id sample_nodeinfo sample_no_nodeinfo
     = Ok (PyStr sample_block_id).
Proof.
  refine (node_info_decodes sample_nodeinfo sample_no_nodeinfo _
            "66" sample_block_id "64" sample_block_id
            eq_refl eq_refl eq_refl eq_refl eq_refl _ _);
    apply Nat.leb_le; reflexivity.
Defined.

(** ** The transaction builder *)

Lemma init_kept (now1 now2 : Z) (conf inner : pyval)
  (m : option AsyncContractMethod) (b : Builder.AsyncTransactionBuilder) :
  Builder.__init__ now1 now2 conf inner m = Ok b ->
  builder_kept (now2 + 60000) m b.
Proof.
  unfold Builder.__init__. intros H.
  destruct (py_get inner "type" PyNone) as [type_|e]; [|discriminate H].
  cbn [bind] in H.
  destruct (Builder.is_contract_type type_).
  - destruct (py_getitem conf "fee_limit") as [limit|e]; [|discriminate H].
    cbn [bind] in H. injection H as <-.
    eexists. split; [reflexivity|]. cbn. repeat split.
  - cbn [bind] in H. injection H as <-.
    eexists. split; [reflexivity|]. cbn. repeat split.
Qed.

Lemma with_contract0_other (c : pyval) (d : list (string * pyval)) :
  exists d',
    Builder.with_contract0 c (PyDict d) = PyDict d'
    /\ forall k, k <> "contract" -> dict_lookup k d' = dict_lookup k d.
Proof.
  unfold Builder.with_contract0.
  destruct (dict_lookup "contract" d) as [[| | | | |[|? rest]|]|];
    try (exists d; split; [reflexivity|]; intros; reflexivity).
  eexists. split; [reflexivity|]. intros k Hk.
  apply dict_lookup_set_other. congruence.
Qed.

Lemma py_setitem_dict (x : pyval) (k : string) (v raw : pyval) :
  py_setitem x k v = Ok raw ->
  exists d, x = PyDict d /\ raw = PyDict (dict_set k v d).
Proof.
  destruct x; cbn; intros H; try discriminate H.
  injection H as <-. eauto.
Qed.

Ltac kept_other d' Hother :=
  exists d'; split; [reflexivity|];
  repeat split; try (rewrite Hother by discriminate; assumption);
  try assumption.

Lemma call_kept (h : pyval -> result string) (c : builder_call) (dl : Z)
  (m : option AsyncContractMethod) (b b' : Builder.AsyncTransactionBuilder) :
  builder_kept dl m b ->
  call_builder h c b = Ok b' ->
  builder_kept (deadline dl [c]) m b'.
Proof.
  intros (d & Hraw & H1 & H2 & H3 & H4 & H5 & Hm) H.
  destruct c as [addr|perm_id|mm|now e|value]; cbn [call_builder deadline] in *.
  - unfold Builder.with_owner in H.
    destruct (Builder.contract0 b) as [c|?]; [|discriminate H]. cbn [bind] in H.
    destruct (py_getitem c "parameter") as [p|?]; [|discriminate H].
    cbn [bind] in H.
    destruct (py_getitem p "value") as [v|?]; [|discriminate H].
    cbn [bind] in H.
    destruct (py_contains "owner_address" v) as [[|]|?]; try discriminate H.
    cbn [bind] in H.
    destruct (h addr) as [owner|?]; [|discriminate H]. cbn [bind] in H.
    destruct (py_setitem v _ _) as [v'|?]; [|discriminate H]. cbn [bind] in H.
    destruct (py_setitem p _ _) as [p'|?]; [|discriminate H]. cbn [bind] in H.
    destruct (py_setitem c _ _) as [c'|?]; [|discriminate H]. cbn [bind] in H.
    injection H as <-. rewrite Hraw.
    destruct (with_contract0_other c' d) as (d' & -> & Hother).
    unfold builder_kept. cbn. kept_other d' Hother.
  - unfold Builder.permission_id in H.
    destruct (Builder.contract0 b) as [c|?]; [|discriminate H]. cbn [bind] in H.
    destruct (py_setitem c _ _) as [c'|?]; [|discriminate H]. cbn [bind] in H.
    injection H as <-. rewrite Hraw.
    destruct (with_contract0_other c' d) as (d' & -> & Hother).
    unfold builder_kept. cbn. kept_other d' Hother.
  - unfold Builder.memo in H. rewrite Hraw in H. cbn in H.
    injection H as <-. unfold builder_kept. cbn.
    eexists; split; [reflexivity|].
    repeat split; try (rewrite dict_lookup_set_other by discriminate; assumption);
      assumption.
  - unfold Builder.expiration in H. rewrite Hraw in H. cbn in H.
    injection H as <-. unfold builder_kept. cbn.
    eexists; split; [reflexivity|].
    repeat split; try (rewrite dict_lookup_set_other by discriminate; assumption);
      try assumption.
    apply dict_lookup_set_same.
  - unfold Builder.fee_limit in H. rewrite Hraw in H. cbn in H.
    injection H as <-. unfold builder_kept. cbn.
    eexists; split; [reflexivity|].
    repeat split; try (rewrite dict_lookup_set_other by discriminate; assumption);
      assumption.
Qed.

Lemma chain_kept (h : pyval -> result string) (cs : list builder_call)
  (dl : Z) (m : option AsyncContractMethod)
  (b b' : Builder.AsyncTransactionBuilder) :
  builder_kept dl m b ->
  chain h cs b = Ok b' ->
  builder_kept (deadline dl cs) m b'.
Proof.
  unfold chain. revert dl b.
  induction cs as [|c cs IH]; intros dl b Hb H; cbn [for_each] in H.
  - injection H as <-. exact Hb.
  - destruct (call_builder h c b) as [b1|?] eqn:E; [|discriminate H].
    cbn [bind] in H.
    pose proof (call_kept _ _ _ _ _ _ Hb E) as Hb1.
    specialize (IH _ _ Hb1 H).
    destruct c; exact IH.
Qed.

Lemma anchored_dict (ref : pyval) (d : list (string * pyval)) (raw : pyval) :
  Builder.anchored ref (PyDict d) = Ok raw ->
  exists d' ref_block_bytes ref_block_hash,
    raw = PyDict d'
    /\ py_slice 12 16 ref = Ok ref_block_bytes
    /\ py_slice 16 32 ref = Ok ref_block_hash
    /\ dict_lookup "ref_block_bytes" d' = Some ref_block_bytes
    /\ dict_lookup "ref_block_hash" d' = Some ref_block_hash
    /\ forall k, k <> "ref_block_bytes" -> k <> "ref_block_hash" ->
         dict_lookup k d' = dict_lookup k d.
Proof.
  unfold Builder.anchored. intros H.
  destruct (py_slice 12 16 ref) as [b|?]; [|discriminate H].
  cbn [bind py_setitem] in H.
  destruct (py_slice 16 32 ref) as [h|?]; [|discriminate H].
  cbn [bind] in H. injection H as <-.
  exists (dict_set "ref_block_hash" h (dict_set "ref_block_bytes" b d)), b, h.
  repeat split.
  - rewrite dict_lookup_set_other by discriminate. apply dict_lookup_set_same.
  - apply dict_lookup_set_same.
  - intros k Hb Hh. rewrite !dict_lookup_set_other by congruence. reflexivity.
Qed.

Section BuildFacts.

Variable py_repr : pyval -> string.
Variable utf8_decode : list byte -> result string.
Variable get_sign_weight : pyval -> result pyval.
Variable getnodeinfo : result pyval.
Variable getnowblock_solid : result pyval.
Variable to_hex_address : pyval -> result string.

Local Abbreviation anchor :=
  (get_latest_solid_block_id getnodeinfo getnowblock_solid).
Local Abbreviation build' :=
  (Builder.build py_repr utf8_decode get_sign_weight getnodeinfo
     getnowblock_solid).
Local Abbreviation check :=
  (check_sign_weight py_repr utf8_decode get_sign_weight).
Local Abbreviation create' := (create py_repr utf8_decode get_sign_weight).

Lemma check_sign_weight_keeps (t t' : AsyncTransaction) (r : result unit)
  (sent : list pyval) :
  check t = (r, t', sent) ->
  sent = [to_json t]
  /\ _raw_data t' = _raw_data t
  /\ _signature t' = _signature t
  /\ _method t' = _method t.
Proof.
  unfold check_sign_weight. intros H.
  match type of H with
  | match ?m with _ => _ end = _ => destruct m as [[sw new_txid]|e]
  end.
  - destruct (py_get sw "permission" PyNone);
      injection H as <- <- <-; repeat split.
  - injection H as <- <- <-. repeat split.
Qed.

(** [create] on raw data without the keys of a transaction's own
    attributes, with the defaults of the other arguments: the weight of
    the signatures is asked for. *)
Lemma create_fresh (d : list (string * pyval))
  (m : option AsyncContractMethod) :
  dict_lookup "raw_data" d = None ->
  dict_lookup "signature" d = None ->
  dict_lookup "txID" d = None ->
  dict_lookup "permission" d = None ->
  create' (PyDict d) m (PyStr "") (Known PyNone) PyNone
  = match
      check {| _raw_data := PyDict d; _signature := PyList [];
               _method := m; txid := PyStr "";
               _permission := Known PyNone |}
    with
    | (Ok _, t, sent) => (Ok t, sent)
    | (Raise e, _, sent) => (Raise e, sent)
    end.
Proof.
  intros H1 H2 H3 H4. unfold create, __init__.
  cbn [py_get]. rewrite H1, H2, H3, H4. cbn. reflexivity.
Qed.

Lemma build_kept (dl : Z) (m : option AsyncContractMethod)
  (b b' : Builder.AsyncTransactionBuilder) (r : result AsyncTransaction)
  (sent : list pyval) (d : list (string * pyval)) :
  builder_kept dl m b ->
  Builder._raw_data b = PyDict d ->
  build' b = (r, b', sent) ->
  (exists e, r = Raise e /\ b' = b /\ sent = []
             /\ (ref <- anchor ;; Builder.anchored ref (PyDict d)) = Raise e)
  \/ exists ref d',
       anchor = Ok ref
       /\ Builder.anchored ref (PyDict d) = Ok (PyDict d')
       /\ Builder._raw_data b' = PyDict d'
       /\ Builder._method b' = m
       /\ sent = [ PyDict [ ("txID", PyStr "");
                            ("raw_data", PyDict d');
                            ("signature", PyList []);
                            ("permission", PyNone) ] ]
       /\ forall txn, r = Ok txn ->
            _raw_data txn = PyDict d'
            /\ _signature txn = PyList []
            /\ _method txn = m.
Proof.
  intros (d0 & Hraw0 & H1 & H2 & H3 & H4 & H5 & Hm) Hraw H.
  rewrite Hraw in Hraw0. injection Hraw0 as <-.
  unfold Builder.build in H. rewrite Hraw in H.
  destruct anchor as [ref|e] eqn:Ea; cbn [bind] in H |- *.
  - destruct (Builder.anchored ref (PyDict d)) as [raw|e] eqn:E.
    + right. destruct (anchored_dict _ _ _ E)
        as (d' & bb & hh & -> & _ & _ & _ & _ & Hother).
      exists ref, d'.
      cbn [Builder.set_raw_data Builder._method Builder._raw_data] in H.
      rewrite Hm in H.
      rewrite create_fresh in H
        by (rewrite Hother by discriminate; assumption).
      destruct (check _) as [[rc t] sent0] eqn:Ec.
      apply check_sign_weight_keeps in Ec as (-> & Hr & Hs & Hmt).
      cbn in Hr, Hs, Hmt.
      destruct rc as [[]|e]; injection H as <- <- <-.
      all: repeat split; try reflexivity; try assumption.
      all: match goal with
           | Htxn : _ = Ok _ |- _ =>
               first [discriminate Htxn | injection Htxn as <-; assumption]
           end.
    + left. injection H as <- <- <-. exists e. repeat split.
  - left. injection H as <- <- <-. exists e. repeat split.
Qed.

(** X12.  A builder made by its constructor and a chain of calls of its
    methods never carries a transaction id, so [build] asks the node for
    the weight of the signatures exactly once when it has the anchor
    block, about a transaction without id, signatures and permission whose
    raw data are the builder's with the two parts of the anchor's id; and
    the transaction it returns has those raw data, no signatures and the
    builder's method. *)
Theorem build_validates_once (now1 now2 : Z) (conf inner : pyval)
  (m : option AsyncContractMethod) (cs : list builder_call)
  (b0 b b' : Builder.AsyncTransactionBuilder) (ref : string)
  (r : result AsyncTransaction) (sent : list pyval) :
  Builder.__init__ now1 now2 conf inner m = Ok b0 ->
  chain to_hex_address cs b0 = Ok b ->
  anchor = Ok (PyStr ref) ->
  build' b = (r, b', sent) ->
  sent = [ PyDict [ ("txID", PyStr "");
                    ("raw_data", Builder._raw_data b');
                    ("signature", PyList []);
                    ("permission", PyNone) ] ]
  /\ py_getitem (Builder._raw_data b') "ref_block_bytes"
     = Ok (PyStr (str_slice 12 16 ref))
  /\ py_getitem (Builder._raw_data b') "ref_block_hash"
     = Ok (PyStr (str_slice 16 32 ref))
  /\ (forall k, k <> "ref_block_bytes" -> k <> "ref_block_hash" ->
        py_getitem (Builder._raw_data b') k
        = py_getitem (Builder._raw_data b) k)
  /\ forall txn, r = Ok txn ->
       _raw_data txn = Builder._raw_data b'
       /\ _signature txn = PyList []
       /\ _method txn = m.
Proof.
  intros Hinit Hchain Hanchor Hbuild.
  pose proof (chain_kept _ _ _ _ _ _ (init_kept _ _ _ _ _ _ Hinit) Hchain)
    as Hkept.
  pose proof Hkept as (d & Hraw & _).
  destruct (build_kept _ _ _ _ _ _ _ Hkept Hraw Hbuild)
    as [(e & _ & _ & _ & Hfail)|(ref' & d' & Ha & Hd' & Hraw' & _ & -> & Htxn)].
  - rewrite Hanchor in Hfail. cbn in Hfail. discriminate Hfail.
  - rewrite Hanchor in Ha. injection Ha as <-.
    destruct (anchored_dict _ _ _ Hd')
      as (d2 & bb & hh & Hd2 & Hb & Hh & Hlb & Hlh & Hother).
    injection Hd2 as <-. cbn in Hb, Hh.
    injection Hb as <-. injection Hh as <-.
    rewrite Hraw', Hraw. cbn [py_getitem]. rewrite Hlb, Hlh.
    repeat split; try reflexivity.
    + intros k Hkb Hkh. rewrite (Hother k Hkb Hkh). reflexivity.
    + apply Htxn; assumption.
    + apply Htxn; assumption.
    + apply Htxn; assumption.
Qed.

(** X13.  The transaction [build] returns expires at the time the last
    call of [expiration] in the chain set, and without such a call one
    minute after the constructor's second reading of the clock, however
    much later [build] runs. *)
Theorem built_transaction_deadline (now1 now2 now : Z) (conf inner : pyval)
  (m : option AsyncContractMethod) (cs : list builder_call)
  (b0 b b' : Builder.AsyncTransactionBuilder)
  (txn : AsyncTransaction) (sent : list pyval) :
  Builder.__init__ now1 now2 conf inner m = Ok b0 ->
  chain to_hex_address cs b0 = Ok b ->
  build' b = (Ok txn, b', sent) ->
  is_expired now txn = Ok (deadline (now2 + 60000) cs <=? now).
Proof.
  intros Hinit Hchain Hbuild.
  pose proof (chain_kept _ _ _ _ _ _ (init_kept _ _ _ _ _ _ Hinit) Hchain)
    as Hkept.
  pose proof Hkept as (d & Hraw & _ & _ & _ & _ & Hexp & _).
  destruct (build_kept _ _ _ _ _ _ _ Hkept Hraw Hbuild)
    as [(e & He & _)|(ref' & d' & _ & Hd' & _ & _ & _ & Htxn)];
    [discriminate He|].
  destruct (Htxn txn eq_refl) as (Hr & _).
  destruct (anchored_dict _ _ _ Hd') as (d2 & _ & _ & Hd2 & _ & _ & _ & _ & Hother).
  injection Hd2 as <-.
  unfold is_expired. rewrite Hr. cbn [py_getitem].
  rewrite Hother by discriminate. rewrite Hexp. reflexivity.
Qed.

End BuildFacts.

Lemma build_validates_once_witness :
  snd sample_build
  = [ PyDict [ ("txID", PyStr "");
               ("raw_data", Builder._raw_data (snd (fst sample_build)));
               ("signature", PyList []);
               ("permission", PyNone) ] ]
  /\ py_getitem (Builder._raw_data (snd (fst sample_build))) "ref_block_bytes"
     = Ok (PyStr "0040")
  /\ py_getitem (Builder._raw_data (snd (fst sample_build))) "ref_block_hash"
     = Ok (PyStr "aabbccddeeff0011").
Proof.
  pose proof (build_validates_once sample_repr sample_utf8_decode
                sample_get_sign_weight sample_nodeinfo sample_no_nodeinfo
                sample_to_hex_address 1000 1001 sample_conf sample_call_inner
                None sample_chain sample_builder0 sample_builder
                (snd (fst sample_build)) sample_block_id
                (fst (fst sample_build)) (snd sample_build)
                eq_refl eq_refl eq_refl eq_refl) as (H1 & H2 & H3 & _).
  exact (conj H1 (conj H2 H3)).
Defined.

Lemma built_transaction_deadline_witness :
  is_expired 6999 sample_built = Ok false
  /\ is_expired 7000 sample_built = Ok true.
Proof.
  split.
  - exact (built_transaction_deadline sample_repr sample_utf8_decode
             sample_get_sign_weight sample_nodeinfo sample_no_nodeinfo
             sample_to_hex_address 1000 1001 6999 sample_conf
             sample_call_inner None sample_chain sample_builder0
             sample_builder (snd (fst sample_build)) sample_built
             (snd sample_build) eq_refl eq_refl eq_refl).
  - exact (built_transaction_deadline sample_repr sample_utf8_decode
             sample_get_sign_weight sample_nodeinfo sample_no_nodeinfo
             sample_to_hex_address 1000 1001 7000 sample_conf
             sample_call_inner None sample_chain sample_builder0
             sample_builder (snd (fst sample_build)) sample_built
             (snd sample_build) eq_refl eq_refl eq_refl).
Defined.

Section OwnerFacts.

Variable to_hex_address : pyval -> result string.

(** X14.  Setting the owner of a transfer that was built for another
    sender gives the builder the same call of [transfer] gives for the new
    owner: [with_owner] finds the owner's slot, and changes nothing else. *)
Theorem transfer_with_owner (now1 now2 : Z) (conf from_ to amount addr : pyval)
  (owner : string) (b : Builder.AsyncTransactionBuilder) :
  Trx.transfer to_hex_address now1 now2 conf from_ to amount = Ok b ->
  to_hex_address addr = Ok owner ->
  Builder.with_owner to_hex_address addr b
  = Trx.transfer to_hex_address now1 now2 conf addr to amount.
Proof.
  unfold Trx.transfer. intros H Haddr. rewrite Haddr.
  destruct (to_hex_address from_) as [o|?]; [|discriminate H].
  destruct (to_hex_address to) as [r|?]; [|discriminate H].
  cbn in H. injection H as <-.
  unfold Builder.with_owner. cbn. rewrite Haddr. reflexivity.
Qed.

End OwnerFacts.

Lemma fromhex_byte_hex (b : byte) (rest : list ascii) :
  fromhex_chars (byte_hex b ++ rest)%list
  = option_map (cons b) (fromhex_chars rest).
Proof. destruct b; reflexivity. Qed.

(** [bytes.fromhex(b.hex())] is [b]. *)
Lemma fromhex_bytes_hex (b : list byte) :
  bytes_fromhex (PyStr (bytes_hex b)) = Ok b.
Proof.
  unfold bytes_fromhex, bytes_hex.
  rewrite list_ascii_of_string_of_list_ascii.
  assert (H : fromhex_chars (flat_map byte_hex b) = Some b).
  { induction b as [|x b IH]; [reflexivity|].
    cbn [flat_map]. rewrite fromhex_byte_hex, IH. reflexivity. }
  rewrite H. reflexivity.
Qed.

(** X15.  [memo] stores the memo in hexadecimal: [bytes.fromhex] of the
    [data] it writes gives back the bytes it was given, or the UTF-8
    encoding of the text it was given, and no other entry of the raw data
    changes. *)
Theorem memo_round_trip (m : memo_arg)
  (b b' : Builder.AsyncTransactionBuilder) :
  Builder.memo m b = Ok b' ->
  (data <- py_getitem (Builder._raw_data b') "data" ;; bytes_fromhex data)
  = Ok match m with
       | MemoStr s => utf8_encode s
       | MemoBytes bs => bs
       end
  /\ forall k, k <> "data" ->
       py_getitem (Builder._raw_data b') k = py_getitem (Builder._raw_data b) k.
Proof.
  unfold Builder.memo. intros H.
  destruct (py_setitem _ _ _) as [raw|?] eqn:E; [|discriminate H].
  cbn [bind] in H. injection H as <-.
  apply py_setitem_dict in E as (d & Hd & ->). rewrite Hd.
  cbn [Builder.set_raw_data Builder._raw_data py_getitem].
  rewrite dict_lookup_set_same. cbn [bind]. split.
  - apply fromhex_bytes_hex.
  - intros k Hk. rewrite dict_lookup_set_other by congruence. reflexivity.
Qed.

Lemma transfer_with_owner_witness :
  Builder.with_owner sample_to_hex_address (PyStr sample_hex_c)
    (value_or
       (Trx.transfer sample_to_hex_address 1000 1001 sample_conf
          (PyStr sample_hex_a) (PyStr sample_hex_b) (PyInt 5000000))
       sample_builder0)
  = Trx.transfer sample_to_hex_address 1000 1001 sample_conf
      (PyStr sample_hex_c) (PyStr sample_hex_b) (PyInt 5000000).
Proof.
  exact (transfer_with_owner sample_to_hex_address 1000 1001 sample_conf
           (PyStr sample_hex_a) (PyStr sample_hex_b) (PyInt 5000000)
           (PyStr sample_hex_c) sample_hex_c _ eq_refl eq_refl).
Defined.

Lemma memo_round_trip_witness :
  (data <- py_getitem
             (Builder._raw_data
                (value_or (Builder.memo (MemoStr "hi") sample_builder0)
                   sample_builder0))
             "data" ;;
   bytes_fromhex data)
  = Ok [x68; x69].
Proof.
  exact (proj1 (memo_round_trip (MemoStr "hi") sample_builder0 _ eq_refl)).
Defined.

(** ** What a scan reports *)

Lemma py_eq_str_true (x : pyval) (s : string) :
  py_eq_str x s = true -> x = PyStr s.
Proof.
  destruct x; cbn; intros H; try discriminate H.
  apply String.eqb_eq in H. now subst.
Qed.

Lemma address_matches_names (a : string) (t from_addr to_addr : pyval) :
  py_getitem t "from" = Ok from_addr ->
  py_getitem t "to" = Ok to_addr ->
  address_matches (Some a) from_addr to_addr = true ->
  names_address a t.
Proof.
  unfold address_matches, names_address. intros Hf Ht H.
  apply orb_true_iff in H as [H|H]; apply py_eq_str_true in H; subst;
    [left|right]; assumption.
Qed.

Section ScanFacts.

Variable to_base58check_address : pyval -> result string.
Variable decimal_trx : pyval -> result pyval.
Variable getblockbynum : Z -> result pyval.

Local Abbreviation scan_trx' := (scan_trx to_base58check_address decimal_trx).
Local Abbreviation scan_usdt' := (scan_usdt to_base58check_address).
Local Abbreviation scan_tx' := (scan_tx to_base58check_address decimal_trx).
Local Abbreviation scan_block' :=
  (scan_block to_base58check_address decimal_trx getblockbynum).
Local Abbreviation get_block' := (get_block getblockbynum).

Ltac ok_cases H :=
  repeat
    (cbn [bind] in H;
     match type of H with
     | bind ?m _ = Ok _ => destruct m eqn:?; [|discriminate H]
     | (if ?b then _ else _) = Ok _ => destruct b eqn:?
     | match ?x with _ => _ end = Ok _ => destruct x eqn:?
     | Raise _ = Ok _ => discriminate H
     | raise _ _ = Ok _ => discriminate H
     end).

Lemma scan_trx_filtered (address : option string) (block_num : Z)
  (block_header tx : pyval) (res res' : ScanResult) :
  filtered address res ->
  scan_trx' address block_num block_header tx res = Ok res' ->
  filtered address res' /\ blocks res' = blocks res.
Proof.
  unfold scan_trx. intros Hres H. ok_cases H; injection H as <-;
    try (split; [exact Hres|reflexivity]).
  split; [|reflexivity].
  destruct address as [wanted|]; [|exact Hres].
  destruct Hres as (Ht & Hu & Hn). cbn. repeat split; try assumption.
  apply Forall_app. split; [exact Ht|].
  constructor; [|constructor].
  eapply address_matches_names; [reflexivity|reflexivity|eassumption].
Qed.

Lemma scan_usdt_filtered (address : option string) (block_num : Z)
  (block_header tx : pyval) (res res' : ScanResult) :
  filtered address res ->
  scan_usdt' address block_num block_header tx res = Ok res' ->
  filtered address res' /\ blocks res' = blocks res.
Proof.
  unfold scan_usdt. intros Hres H.
  destruct address as [wanted|]; ok_cases H; injection H as <-;
    (split; [|reflexivity]); cbn in Hres |- *;
    try rewrite length_app; cbn [List.length];
    try destruct Hres as (Ht & Hu & Hn);
    try lia; repeat split; try assumption; try lia.
  all: apply Forall_app; split; [exact Hu|].
  all: constructor; [|constructor].
  all: match goal with
       | Hm : bind _ _ = Ok true |- _ => ok_cases Hm; injection Hm as Hm
       end.
  all: eapply address_matches_names; eassumption.
Qed.

Lemma scan_tx_filtered (address : option string) (block_num : Z)
  (block_header tx : pyval) (res res' : ScanResult) :
  filtered address res ->
  scan_tx' address block_num block_header tx res = Ok res' ->
  filtered address res' /\ blocks res' = blocks res.
Proof.
  unfold scan_tx. intros Hres H.
  destruct (scan_trx' address block_num block_header tx res) as [res1|] eqn:H1;
    [|discriminate H]. cbn [bind] in H.
  destruct (scan_trx_filtered _ _ _ _ _ _ Hres H1) as [Hres1 Hb1].
  destruct (scan_usdt_filtered _ _ _ _ _ _ Hres1 H) as [Hres' Hb'].
  split; [exact Hres'|congruence].
Qed.

Lemma filtered_add_block (address : option string) (b : pyval)
  (r : ScanResult) :
  filtered address r -> filtered address (add_block b r).
Proof. destruct address; exact (fun H => H). Qed.

Lemma scan_block_filtered (address : option string) (block_num : Z)
  (res res' : ScanResult) :
  filtered address res ->
  scan_block' address block_num res = Ok res' ->
  filtered address res'
  /\ exists block entry,
       get_block' block_num = Ok block
       /\ blocks res' = (blocks res ++ [entry])%list
       /\ py_getitem entry "block_number" = Ok (PyInt block_num).
Proof.
  unfold scan_block. intros Hres H.
  destruct (get_block' block_num) as [block|] eqn:Hblock; [|discriminate H].
  ok_cases H.
  - injection H as <-. split; [apply filtered_add_block, Hres|].
    eexists _, _. repeat split.
  - cbn [bind] in H.
    match type of H with
    | for_each _ _ ?r0 = _ =>
        assert (Hinv : filtered address res' /\ blocks res' = blocks r0);
        [ refine (for_each_invariant _ _
                    (fun r => filtered address r /\ blocks r = blocks r0)
                    _ _ _ _ _ _ H) | ]
    end.
    { intros tx acc acc' [Hacc Hb] Htx.
      destruct (scan_tx_filtered _ _ _ _ _ _ Hacc Htx)
        as [Hacc' Hb'].
      split; [exact Hacc'|congruence]. }
    { split; [apply filtered_add_block, Hres|reflexivity]. }
    destruct Hinv as [Hf Hb]. split; [exact Hf|].
    eexists _, _. rewrite Hb. repeat split.
Qed.

Lemma scan_blocks_listed (address : option string) (l : list Z)
  (res res' : ScanResult) :
  filtered address res ->
  for_each (scan_block' address) l res = Ok res' ->
  filtered address res'
  /\ map (fun b => py_getitem b "block_number") (blocks res')
     = (map (fun b => py_getitem b "block_number") (blocks res)
        ++ map (fun n => Ok (PyInt n)) l)%list
  /\ Forall (fun n => exists block, get_block' n = Ok block) l.
Proof.
  revert res. induction l as [|n l IH]; intros res Hres H;
    cbn [for_each] in H.
  - injection H as <-. rewrite app_nil_r. repeat split; [exact Hres|constructor].
  - destruct (scan_block' address n res) as [res1|] eqn:H1; [|discriminate H].
    cbn [bind] in H.
    destruct (scan_block_filtered _ _ _ _ Hres H1)
      as (Hres1 & block & entry & Hblock & Hb & Hn).
    destruct (IH _ Hres1 H) as (Hres' & Hmap & Hall).
    repeat split; [exact Hres'| |constructor; eauto].
    rewrite Hmap, Hb, map_app. cbn [map]. rewrite Hn, <- app_assoc.
    reflexivity.
Qed.

Lemma filtered_empty (address : option string) : filtered address empty_result.
Proof. destruct address; cbn; repeat split; try constructor; lia. Qed.

Lemma length_py_range (start stop : Z) :
  List.length (py_range start stop) = Z.to_nat (stop - start).
Proof. unfold py_range. now rewrite length_map, length_seq. Qed.

Variable get_latest_block_number : result Z.

Local Abbreviation scan_block_transfers' :=
  (scan_block_transfers to_base58check_address decimal_trx getblockbynum
     get_latest_block_number).

(** The block a scan ends at: the one given, or the latest one. *)
Local Abbreviation last_block end_block :=
  (match end_block with
   | Some n => Ok n
   | None => get_latest_block_number
   end).

Lemma scan_range (start_block : Z) (end_block : option Z)
  (address : option string) (res : ScanResult) :
  scan_block_transfers' start_block end_block address = Ok res ->
  exists last,
    last_block end_block = Ok last
    /\ filtered address res
    /\ map (fun b => py_getitem b "block_number") (blocks res)
       = map (fun n => Ok (PyInt n)) (py_range start_block (last + 1))
    /\ Forall (fun n => exists block, get_block' n = Ok block)
         (py_range start_block (last + 1)).
Proof.
  unfold scan_block_transfers. intros H.
  assert (Hlast : exists last,
            last_block end_block = Ok last
            /\ for_each (scan_block' address)
                 (py_range start_block (last + 1)) empty_result = Ok res).
  { destruct end_block as [n|]; cbn [bind] in H.
    - exists n. split; [reflexivity|exact H].
    - destruct get_latest_block_number as [n|]; [|discriminate H].
      exists n. split; [reflexivity|exact H]. }
  destruct Hlast as (last & Hlast & Hscan). exists last.
  split; [exact Hlast|].
  exact (scan_blocks_listed _ _ _ _ (filtered_empty address) Hscan).
Qed.

(** X16.  A scan that returns has fetched every block from the first to
    the last, and lists them in [blocks] in ascending order, one entry a
    block with its number: a block the node does not give ends the scan
    with an error, it is never skipped. *)
Theorem scan_lists_every_block (start_block : Z) (end_block : option Z)
  (address : option string) (res : ScanResult) :
  scan_block_transfers' start_block end_block address = Ok res ->
  exists last,
    last_block end_block = Ok last
    /\ map (fun b => py_getitem b "block_number") (blocks res)
       = map (fun n => Ok (PyInt n)) (py_range start_block (last + 1))
    /\ List.length (blocks res) = Z.to_nat (last - start_block + 1)
    /\ Forall (fun n => exists block, get_block' n = Ok block)
         (py_range start_block (last + 1)).
Proof.
  intros H. destruct (scan_range _ _ _ _ H) as (last & Hlast & _ & Hmap & Hall).
  exists last. repeat split; try assumption.
  apply (f_equal (@List.length _)) in Hmap.
  rewrite !length_map, length_py_range in Hmap. rewrite Hmap. f_equal. lia.
Qed.

(** X17.  With an address to filter by, every TRX transfer and every USDT
    transfer a scan lists has that address as its sender or as its
    recipient. *)
Theorem scan_lists_only_the_address (start_block : Z) (end_block : option Z)
  (address : string) (res : ScanResult) :
  scan_block_transfers' start_block end_block (Some address) = Ok res ->
  Forall (names_address address) (transfers_trx res)
  /\ Forall (names_address address) (transfers_usdt res).
Proof.
  intros H. destruct (scan_range _ _ _ _ H) as (last & _ & Hf & _).
  destruct Hf as (Ht & Hu & _). split; assumption.
Qed.

(** X18.  The counter [successful_parse] is taken before the filter:
    without an address it is the number of USDT transfers listed, with
    one it is at least that number. *)
Theorem scan_counts_before_filter (start_block : Z) (end_block : option Z)
  (address : option string) (res : ScanResult) :
  scan_block_transfers' start_block end_block address = Ok res ->
  Z.of_nat (List.length (transfers_usdt res)) <= successful_parse res
  /\ (address = None ->
      Z.of_nat (List.length (transfers_usdt res)) = successful_parse res).
Proof.
  intros H. destruct (scan_range _ _ _ _ H) as (last & _ & Hf & _).
  destruct address as [a|]; cbn in Hf.
  - split; [apply Hf|discriminate].
  - split; [lia|intros _; exact Hf].
Qed.

End ScanFacts.

Lemma scan_lists_every_block_witness :
  exists last,
    Ok 101 = Ok last
    /\ map (fun b => py_getitem b "block_number") (blocks sample_scan)
       = map (fun n => Ok (PyInt n)) (py_range 100 (last + 1))
    /\ List.length (blocks sample_scan) = Z.to_nat (last - 100 + 1)
    /\ Forall (fun n => exists block,
                 get_block sample_getblockbynum n = Ok block)
         (py_range 100 (last + 1)).
Proof.
  exact (scan_lists_every_block sample_to_base58check_address
           sample_decimal_trx sample_getblockbynum (Ok 101)
           100 None None sample_scan eq_refl).
Defined.

Lemma scan_lists_only_the_address_witness :
  List.length (transfers_trx sample_scan_filtered) = 1%nat
  /\ Forall (names_address sample_recipient)
       (transfers_trx sample_scan_filtered)
  /\ Forall (names_address sample_recipient)
       (transfers_usdt sample_scan_filtered).
Proof.
  split; [reflexivity|].
  exact (scan_lists_only_the_address sample_to_base58check_address
           sample_decimal_trx sample_getblockbynum (Ok 101)
           100 (Some 101) sample_recipient sample_scan_filtered eq_refl).
Defined.

Lemma scan_counts_before_filter_witness :
  (Z.of_nat (List.length (transfers_usdt sample_scan_filtered))
   <= successful_parse sample_scan_filtered)
  /\ List.length (transfers_usdt sample_scan_filtered) = 0%nat
  /\ successful_parse sample_scan_filtered = 1
  /\ Z.of_nat (List.length (transfers_usdt sample_scan))
     = successful_parse sample_scan.
Proof.
  split; [|split; [reflexivity|split; [reflexivity|]]].
  - exact (proj1 (scan_counts_before_filter sample_to_base58check_address
                    sample_decimal_trx sample_getblockbynum (Ok 101)
                    100 (Some 101) (Some sample_recipient)
                    sample_scan_filtered eq_refl)).
  - exact (proj2 (scan_counts_before_filter sample_to_base58check_address
                    sample_decimal_trx sample_getblockbynum (Ok 101)
                    100 None None sample_scan eq_refl) eq_refl).
Defined.

(** ** Scans of the latest blocks *)

Section RecentFacts.

Variable to_base58check_address : pyval -> result string.
Variable decimal_trx : pyval -> result pyval.
Variable getblockbynum : Z -> result pyval.
Variable getnodeinfo : result pyval.

Local Abbreviation latest := (get_latest_block_number getnodeinfo).
Local Abbreviation scan_recent_transfers' :=
  (scan_recent_transfers to_base58check_address decimal_trx getblockbynum
     getnodeinfo).

(** X19.  [scan_recent_transfers] scans the [block_count] blocks that end
    at the latest one, or all blocks from 0 when the chain is shorter, and
    says so in [start_block] and [latest_block]; with a count of zero or
    less it scans no block and returns the empty result. *)
Theorem scan_recent_window (block_count : Z) (address : option string)
  (recent : RecentScan) :
  scan_recent_transfers' block_count address = Ok recent ->
  latest = Ok (latest_block recent)
  /\ start_block recent = Z.max (latest_block recent - block_count + 1) 0
  /\ map (fun b => py_getitem b "block_number") (blocks (scan recent))
     = map (fun n => Ok (PyInt n))
         (py_range (start_block recent) (latest_block recent + 1))
  /\ (1 <= block_count -> 0 <= latest_block recent ->
      Z.of_nat (List.length (blocks (scan recent)))
      = Z.min block_count (latest_block recent + 1))
  /\ (block_count <= 0 -> scan recent = empty_result).
Proof.
  unfold scan_recent_transfers. intros H.
  destruct latest as [n|] eqn:Hn; [|discriminate H]. cbn [bind] in H.
  match type of H with
  | bind ?m _ = _ => destruct m as [res|] eqn:Hscan; [|discriminate H]
  end.
  cbn [bind] in H. injection H as <-.
  cbn [latest_block start_block scan].
  destruct (scan_range _ _ _ _ _ _ _ _ Hscan) as (last & Hlast & _ & Hmap & _).
  injection Hlast as <-.
  split; [reflexivity|]. split; [reflexivity|]. split; [exact Hmap|].
  split.
  - intros Hcount Hpos.
    apply (f_equal (@List.length _)) in Hmap.
    rewrite !length_map, length_py_range in Hmap. rewrite Hmap. lia.
  - intros Hcount. unfold scan_block_transfers in Hscan. cbn [bind] in Hscan.
    unfold py_range in Hscan.
    replace (Z.to_nat (n + 1 - Z.max (n - block_count + 1) 0)) with 0%nat
      in Hscan by lia.
    cbn in Hscan. injection Hscan as <-. reflexivity.
Qed.

End RecentFacts.

Lemma scan_recent_window_witness :
  get_latest_block_number sample_nodeinfo_101
  = Ok (latest_block sample_recent)
  /\ latest_block sample_recent = 101
  /\ start_block sample_recent = 100
  /\ Z.of_nat (List.length (blocks (scan sample_recent))) = 2.
Proof.
  pose proof (scan_recent_window sample_to_base58check_address
                sample_decimal_trx sample_getblockbynum sample_nodeinfo_101
                2 None sample_recent eq_refl) as (H1 & _ & _ & H4 & _).
  split; [exact H1|]. split; [reflexivity|]. split; [reflexivity|].
  exact (H4 ltac:(lia) ltac:(cbn; lia)).
Defined.

(** ** From the builder to the node *)

Lemma sign_returned (py_repr : pyval -> string) (now : Z) (key : PrivateKey)
  (self self' : AsyncTransaction) :
  sign py_repr now key self = (Ok tt, self') ->
  exists digest sig sigs,
    is_expired now self = Ok false
    /\ bytes_fromhex (txid self) = Ok digest
    /\ pk_sign_msg_hash key digest = Ok sig
    /\ _signature self = PyList sigs
    /\ self' = set_signature (PyList (sigs ++ [PyStr sig])) self.
Proof.
  unfold sign. intros H.
  destruct (py_truthy (txid self)); cbn [py_assert bind] in H;
    [|discriminate H].
  destruct (is_expired now self) as [[|]|] eqn:Hexp; cbn [bind negb py_assert] in H;
    try discriminate H.
  match type of H with
  | match (_ <- ?c ;; _) with _ => _ end = _ =>
      destruct c as [[]|]; cbn [bind] in H; [|discriminate H]
  end.
  destruct (bytes_fromhex (txid self)) as [digest|] eqn:Hhex;
    cbn [bind] in H; [|discriminate H].
  destruct (pk_sign_msg_hash key digest) as [sig|] eqn:Hsig; [|discriminate H].
  destruct (_signature self) as [| | | | |sigs|] eqn:Hs; try discriminate H.
  injection H as <-. exists digest, sig, sigs.
  repeat split; assumption.
Qed.

Section PipelineFacts.

Variable py_repr : pyval -> string.
Variable utf8_decode : list byte -> result string.
Variable get_sign_weight : pyval -> result pyval.
Variable getnodeinfo : result pyval.
Variable getnowblock_solid : result pyval.
Variable to_hex_address : pyval -> result string.
Variable broadcasttransaction : pyval -> result pyval.

Local Abbreviation build' :=
  (Builder.build py_repr utf8_decode get_sign_weight getnodeinfo
     getnowblock_solid).
Local Abbreviation broadcast' :=
  (broadcast py_repr utf8_decode broadcasttransaction).

(** X20.  When a transaction is built, signed once and broadcast, the
    node is sent the builder's raw data, the id of the built transaction
    and exactly one signature, that of the key over the bytes of the id; the
    signing happened before the deadline of the chain of calls; and the
    handle returned has the [txid] of the node's reply and the builder's
    method. *)
Theorem built_signed_broadcast (now1 now2 now : Z) (conf inner : pyval)
  (m : option AsyncContractMethod) (cs : list builder_call)
  (b0 b b' : Builder.AsyncTransactionBuilder)
  (txn txn' : AsyncTransaction) (sent sent' : list pyval)
  (key : PrivateKey) (r : result AsyncTransactionRet) :
  Builder.__init__ now1 now2 conf inner m = Ok b0 ->
  chain to_hex_address cs b0 = Ok b ->
  build' b = (Ok txn, b', sent) ->
  sign py_repr now key txn = (Ok tt, txn') ->
  broadcast' txn' = (r, sent') ->
  now < deadline (now2 + 60000) cs
  /\ exists digest sig request,
       bytes_fromhex (txid txn) = Ok digest
       /\ pk_sign_msg_hash key digest = Ok sig
       /\ request
          = PyDict [ ("txID", txid txn);
                     ("raw_data", Builder._raw_data b');
                     ("signature", PyList [PyStr sig]);
                     ("permission",
                       match _permission txn with
                       | EMPTY => PyNone
                       | Known p => p
                       end) ]
       /\ sent' = [request]
       /\ forall ret, r = Ok ret ->
            ret_method ret = m
            /\ exists d,
                 broadcasttransaction request = Ok (PyDict d)
                 /\ dict_lookup "txid" d = Some (ret_txid ret).
Proof.
  intros Hinit Hchain Hbuild Hsign Hcast.
  pose proof (chain_kept _ _ _ _ _ _ (init_kept _ _ _ _ _ _ Hinit) Hchain)
    as Hkept.
  pose proof Hkept as (d & Hraw & _ & _ & _ & _ & Hexp & _).
  destruct (build_kept _ _ _ _ _ _ _ _ _ _ _ _ Hkept Hraw Hbuild)
    as [(e & He & _)|(ref' & d' & _ & Hd' & Hraw' & _ & _ & Htxn)];
    [discriminate He|].
  destruct (Htxn txn eq_refl) as (Hr & Hs & Hm).
  destruct (anchored_dict _ _ _ Hd')
    as (d2 & _ & _ & Hd2 & _ & _ & _ & _ & Hother).
  injection Hd2 as <-.
  destruct (sign_returned _ _ _ _ _ Hsign)
    as (digest & sig & sigs & Hlive & Hhex & Hsig & Hsigs & ->).
  rewrite Hs in Hsigs. injection Hsigs as <-.
  split.
  - unfold is_expired in Hlive. rewrite Hr in Hlive. cbn [py_getitem] in Hlive.
    rewrite Hother in Hlive by discriminate. rewrite Hexp in Hlive.
    cbn in Hlive. injection Hlive as Hlive. apply Z.leb_gt in Hlive.
    exact Hlive.
  - exists digest, sig. eexists. split; [exact Hhex|]. split; [exact Hsig|].
    split; [reflexivity|].
    unfold broadcast, Tron.broadcast in Hcast.
    unfold to_json in Hcast.
    cbn [set_signature _raw_data _signature _method txid _permission app]
      in Hcast.
    rewrite Hr, <- Hraw' in Hcast.
    match type of Hcast with
    | context [broadcasttransaction ?q] =>
        destruct (broadcasttransaction q) as [payload|] eqn:Hreply
    end; cbn [bind] in Hcast.
    + destruct (_handle_api_error py_repr utf8_decode payload) as [[]|];
        cbn [bind] in Hcast.
      * destruct payload as [| | | | | |dp];
          injection Hcast as <- <-; (split; [reflexivity|]);
          intros ret Hret; try discriminate Hret.
        unfold Ret.__init__ in Hret. cbn [py_getitem] in Hret.
        destruct (dict_lookup "txid" dp) as [t|] eqn:Ht; [|discriminate Hret].
        cbn [bind] in Hret. injection Hret as <-. cbn.
        split; [exact Hm|]. exists dp. split; [reflexivity|exact Ht].
      * injection Hcast as <- <-. split; [reflexivity|].
        intros ret Hret. discriminate Hret.
    + injection Hcast as <- <-. split; [reflexivity|].
      intros ret Hret. discriminate Hret.
Qed.

End PipelineFacts.

Lemma built_signed_broadcast_witness :
  1500 < deadline (1001 + 60000) sample_chain
  /\ exists digest sig request,
       bytes_fromhex (txid sample_built) = Ok digest
       /\ pk_sign_msg_hash sample_key_b digest = Ok sig
       /\ request
          = PyDict [ ("txID", txid sample_built);
                     ("raw_data", Builder._raw_data (snd (fst sample_build)));
                     ("signature", PyList [PyStr sig]);
                     ("permission",
                       match _permission sample_built with
                       | EMPTY => PyNone
                       | Known p => p
                       end) ]
       /\ snd sample_broadcast = [request]
       /\ forall ret, fst sample_broadcast = Ok ret ->
            ret_method ret = None
            /\ exists d,
                 sample_broadcasttransaction request = Ok (PyDict d)
                 /\ dict_lookup "txid" d = Some (ret_txid ret).
Proof.
  exact (built_signed_broadcast sample_repr sample_utf8_decode
           sample_get_sign_weight sample_nodeinfo sample_no_nodeinfo
           sample_to_hex_address sample_broadcasttransaction
           1000 1001 1500 sample_conf sample_call_inner None sample_chain
           sample_builder0 sample_builder (snd (fst sample_build))
           sample_built (snd sample_signed) (snd sample_build)
           (snd sample_broadcast) sample_key_b (fst sample_broadcast)
           eq_refl eq_refl eq_refl eq_refl eq_refl).
Defined.

Section TransferFacts.

Variable py_repr : pyval -> string.
Variable utf8_decode : list byte -> result string.
Variable get_sign_weight : pyval -> result pyval.
Variable getnodeinfo : result pyval.
Variable getnowblock_solid : result pyval.
Variable to_hex_address : pyval -> result string.
Variable to_base58check_address : pyval -> result string.
Variable decimal_trx : pyval -> result pyval.

Local Abbreviation build' :=
  (Builder.build py_repr utf8_decode get_sign_weight getnodeinfo
     getnowblock_solid).
Local Abbreviation scan_tx' := (scan_tx to_base58check_address decimal_trx).

(** X21.  A transfer built by [transfer] is what the scanner looks for:
    when a block holds a transaction with the raw data of the built one,
    the scan of that transaction lists one TRX transfer, from the sender
    to the recipient the builder was given and of the amount it was
    given, and counts no USDT candidate. *)
Theorem built_transfer_is_scanned (now1 now2 : Z)
  (conf from_ to amount : pyval) (b b' : Builder.AsyncTransactionBuilder)
  (txn : AsyncTransaction) (sent : list pyval)
  (tx : list (string * pyval)) (id header timestamp trx : pyval)
  (found : option pyval) (from_addr to_addr : string)
  (address : option string) (block_num : Z) (res : ScanResult) :
  Trx.transfer to_hex_address now1 now2 conf from_ to amount = Ok b ->
  build' b = (Ok txn, b', sent) ->
  dict_lookup "raw_data" tx = Some (_raw_data txn) ->
  dict_lookup "txID" tx = Some id ->
  tx_resource (PyDict tx) = Ok found ->
  py_getitem header "timestamp" = Ok timestamp ->
  (owner <- to_hex_address from_ ;; to_base58check_address (PyStr owner))
  = Ok from_addr ->
  (recipient <- to_hex_address to ;; to_base58check_address (PyStr recipient))
  = Ok to_addr ->
  decimal_trx amount = Ok trx ->
  address_matches address (PyStr from_addr) (PyStr to_addr) = true ->
  scan_tx' address block_num header (PyDict tx) res
  = Ok (add_trx
          (PyDict
             [ ("block_number", PyInt block_num);
               ("timestamp", timestamp);
               ("txid", id);
               ("from", PyStr from_addr);
               ("to", PyStr to_addr);
               ("amount", trx);
               ("resource",
                 match found with
                 | Some r => r
                 | None => PyDict []
                 end) ])
          res).
Proof.
  intros Hb Hbuild Hraw Hid Hfound Hts Hfrom Hto Htrx Hmatch.
  unfold Trx.transfer in Hb.
  destruct (to_hex_address from_) as [owner|]; [|discriminate Hb].
  destruct (to_hex_address to) as [recipient|]; [|discriminate Hb].
  cbn [bind] in Hb, Hfrom, Hto.
  pose proof (init_kept _ _ _ _ _ _ Hb) as Hkept.
  cbn in Hb. injection Hb as <-.
  destruct (build_kept _ _ _ _ _ _ _ _ _ _ _ _ Hkept eq_refl Hbuild)
    as [(e & He & _)|(ref' & d' & _ & Hd' & _ & _ & _ & Htxn)];
    [discriminate He|].
  destruct (Htxn txn eq_refl) as (Hr & _).
  destruct (anchored_dict _ _ _ Hd')
    as (d2 & _ & _ & Hd2 & _ & _ & _ & _ & Hother).
  injection Hd2 as <-.
  specialize (Hother "contract" ltac:(discriminate) ltac:(discriminate)).
  cbn in Hother. rewrite Hr in Hraw.
  unfold scan_tx, scan_trx, has_contract, first_contract, contract_value.
  rewrite Hfound.
  cbn [py_get py_getitem]. rewrite Hraw. cbn [bind py_get py_getitem].
  rewrite Hother. cbn [bind py_truthy py_getitem0 py_getitem dict_lookup].
  cbn. rewrite Hfrom. cbn [bind]. rewrite Hto. cbn [bind].
  rewrite Htrx. cbn [bind].
  rewrite Hmatch, Hts. cbn [bind]. rewrite Hid. cbn [bind].
  unfold scan_usdt, is_usdt_call, has_contract, first_contract.
  cbn [py_get py_getitem]. rewrite Hraw. cbn [bind py_get py_getitem].
  rewrite Hother. cbn. reflexivity.
Qed.

End TransferFacts.

Lemma built_transfer_is_scanned_witness :
  scan_tx sample_to_base58check_address sample_decimal_trx None 100
    (PyDict [("timestamp", PyInt 1700000000000)])
    (PyDict sample_mined_transfer) empty_result
  = Ok (add_trx
          (PyDict
             [ ("block_number", PyInt 100);
               ("timestamp", PyInt 1700000000000);
               ("txid", PyStr "cd34");
               ("from", PyStr ("T" ++ sample_hex_a));
               ("to", PyStr ("T" ++ sample_hex_b));
               ("amount", PyFloat (5000000 # 1000000));
               ("resource",
                 PyDict [ ("energy_usage", PyInt 0); ("net_usage", PyInt 0);
                          ("energy_fee", PyInt 0); ("net_fee", PyInt 0) ]) ])
          empty_result).
Proof.
  exact (built_transfer_is_scanned sample_repr sample_utf8_decode
           sample_get_sign_weight sample_nodeinfo sample_no_nodeinfo
           sample_to_hex_address sample_to_base58check_address
           sample_decimal_trx 1000 1001 sample_conf
           (PyStr sample_hex_a) (PyStr sample_hex_b) (PyInt 5000000)
           _ (snd (fst sample_transfer_build)) sample_transfer_built
           (snd sample_transfer_build) sample_mined_transfer (PyStr "cd34")
           (PyDict [("timestamp", PyInt 1700000000000)])
           (PyInt 1700000000000) (PyFloat (5000000 # 1000000))
           (Some (PyDict [ ("energy_usage", PyInt 0); ("net_usage", PyInt 0);
                           ("energy_fee", PyInt 0); ("net_fee", PyInt 0) ]))
           ("T" ++ sample_hex_a) ("T" ++ sample_hex_b) None 100 empty_result
           eq_refl eq_refl eq_refl eq_refl eq_refl eq_refl eq_refl eq_refl
           eq_refl eq_refl).
Defined.

(** ** Account queries *)

Lemma balances_get_cases (P : pyval -> Prop) (k : string)
  (l : list (pyval * pyval)) (default : pyval) :
  P default ->
  Forall (fun kv => P (snd kv)) l ->
  P (balances_get k l default).
Proof.
  revert default. induction l as [|[key v] l IH]; intros default Hd Hl.
  - exact Hd.
  - inversion Hl as [|? ? Hv Hl']; subst. cbn [balances_get].
    apply IH; [|exact Hl']. destruct (py_eq_str key k); assumption.
Qed.

Lemma balance_entry_positive (p : pyval) (acc acc' : list (pyval * pyval)) :
  Forall (fun kv => py_gt_int (snd kv) 0 = Ok true) acc ->
  balance_entry p acc = Ok acc' ->
  Forall (fun kv => py_gt_int (snd kv) 0 = Ok true) acc'.
Proof.
  unfold balance_entry. intros Hacc H.
  destruct (py_getitem p "value") as [value|]; [|discriminate H].
  cbn [bind] in H.
  destruct (py_gt_int value 0) as [[|]|] eqn:Hpos; cbn [bind] in H;
    try discriminate H.
  - destruct (py_getitem p "key") as [key|]; [|discriminate H].
    cbn [bind] in H. destruct (py_hashable key); [|discriminate H].
    injection H as <-. apply Forall_app. split; [exact Hacc|].
    constructor; [exact Hpos|constructor].
  - injection H as <-. exact Hacc.
Qed.

Section AccountFacts.

Variable to_base58check_address : pyval -> result string.
Variable getaccount : pyval -> result pyval.

Local Abbreviation balance :=
  (get_account_asset_balance to_base58check_address getaccount).

(** X22.  [get_account_asset_balance] returns only for a token id that
    reads as a number from 1000000 to 1999999, and what it returns is
    either 0 or a value greater than 0: an entry of [assetV2] that is zero
    or negative is never reported. *)
Theorem asset_balance_checked (addr : pyval) (token_id : token_arg)
  (v : pyval) :
  balance addr token_id = Ok v ->
  (exists n, py_int (token_value token_id) = Ok n
             /\ 1000000 <= n <= 1999999)
  /\ (v = PyInt 0 \/ py_gt_int v 0 = Ok true).
Proof.
  unfold get_account_asset_balance. intros H.
  destruct (py_int (token_value token_id)) as [n|] eqn:Hn; [|discriminate H].
  cbn [bind] in H.
  destruct (n <? 1000000) eqn:Hlow; cbn [bind] in H; [discriminate H|].
  destruct (1999999 <? n) eqn:Hhigh; cbn [bind] in H; [discriminate H|].
  apply Z.ltb_ge in Hlow, Hhigh. split; [exists n; split; [reflexivity|lia]|].
  destruct (get_account_asset_balances _ _ addr) as [balances|] eqn:Hb;
    [|discriminate H].
  cbn [bind] in H. injection H as <-.
  apply (balances_get_cases
           (fun v => v = PyInt 0 \/ py_gt_int v 0 = Ok true)).
  - left. reflexivity.
  - unfold get_account_asset_balances in Hb.
    destruct (get_account _ _ addr) as [info|]; [|discriminate Hb].
    cbn [bind] in Hb.
    destruct (py_get info "assetV2" (PyDict [])) as [assets|];
      [|discriminate Hb].
    cbn [bind] in Hb.
    destruct (py_iter assets) as [items|]; [|discriminate Hb].
    cbn [bind] in Hb.
    assert (Hall : Forall (fun kv => py_gt_int (snd kv) 0 = Ok true) balances).
    { refine (for_each_invariant _ _
                (Forall (fun kv => py_gt_int (snd kv) 0 = Ok true))
                _ _ _ _ _ _ Hb).
      - intros p acc acc'. apply balance_entry_positive.
      - constructor. }
    eapply Forall_impl; [|exact Hall]. intros kv Hkv. right. exact Hkv.
Qed.

End AccountFacts.

Lemma asset_balance_checked_witness :
  (exists n, py_int (token_value (TokenInt 1000001)) = Ok n
             /\ 1000000 <= n <= 1999999)
  /\ (PyInt 7 = PyInt 0 \/ py_gt_int (PyInt 7) 0 = Ok true).
Proof.
  exact (asset_balance_checked sample_to_base58check_address
           sample_getaccount (PyStr sample_recipient) (TokenInt 1000001)
           (PyInt 7) eq_refl).
Defined.
